(** * Invoice QC service: extraction heuristics and rule engine

    A shallow embedding of [invoice_qc/models.py], [invoice_qc/extractor.py]
    and [invoice_qc/validator.py].

    Conventions of the embedding.
    - A Python [str] is a [string] holding one [ascii] per code point, so
      the text ranges over the Latin-1 repertoire (code points 0..255); the
      character classes of [re], [str.strip] and [str.split] are the
      Unicode ones restricted to that range, and [float] skips the white
      space CPython's [float] skips, which leaves out FS..US.
    - A Python [float] is a primitive binary64 [float]; arithmetic and
      comparisons are the IEEE 754 ones.
    - An exception is a value of [exn] carried by [result]; functions that
      cannot raise are plain functions.
    - The validator object is passed explicitly: a method that mutates
      [self.seen_invoices] returns the new object next to its result.
    - The wall clock read by [ValidationReport]'s default factory is an
      explicit argument. *)

From Stdlib Require Import ZArith NArith QArith Qabs String Ascii List Floats Bool Lia.
From stdpp Require Import base option gmap sets strings.

Set Warnings "-inexact-float,-clear-no-such-hyp".

Open Scope string_scope.
Open Scope list_scope.

(** ** Exceptions *)

Inductive exn : Set := ValueError | IndexError.

Inductive result (A : Type) : Type :=
| Ok (a : A)
| Raise (e : exn).
Arguments Ok {A} a.
Arguments Raise {A} e.

Definition rbind {A B} (m : result A) (f : A -> result B) : result B :=
  match m with Ok a => f a | Raise e => Raise e end.

Notation "x <~ m ;; k" := (rbind m (fun x => k))
  (at level 100, m at next level, right associativity).

(** A [try] block with a bare [except]: the value of [m], or [h] when [m]
    raises. *)
Definition try_except {A} (m : result A) (h : A) : A :=
  match m with Ok a => a | Raise _ => h end.

(** ** Python built-ins on [str] *)

Module Py.

Definition code (c : ascii) : N := N_of_ascii c.

Definition in_range (lo hi : N) (c : ascii) : bool :=
  ((lo <=? code c) && (code c <=? hi))%N.

(** ASCII digits: the only code points of category Nd below 256. *)
Definition is_digit (c : ascii) : bool := in_range 48 57 c.

(** [str.isspace] below 256: TAB..CR, FS..US, SPACE, NEL, NBSP. *)
Definition is_space (c : ascii) : bool :=
  in_range 9 13 c || in_range 28 32 c || (code c =? 133)%N || (code c =? 160)%N.

Definition is_upper_ascii (c : ascii) : bool := in_range 65 90 c.
Definition is_lower_ascii (c : ascii) : bool := in_range 97 122 c.

(** [str.isalpha] below 256. *)
Definition is_alpha (c : ascii) : bool :=
  is_upper_ascii c || is_lower_ascii c
  || (code c =? 170)%N || (code c =? 181)%N || (code c =? 186)%N
  || in_range 192 214 c || in_range 216 246 c || in_range 248 255 c.

(** [str.isalnum] below 256: letters, decimal digits, the superscripts
    and the vulgar fractions. *)
Definition is_alnum (c : ascii) : bool :=
  is_alpha c || is_digit c
  || (code c =? 178)%N || (code c =? 179)%N || (code c =? 185)%N
  || in_range 188 190 c.

(** Lower-casing below 256 (the letters whose lower case stays below 256). *)
Definition lower (c : ascii) : ascii :=
  if is_upper_ascii c || in_range 192 214 c || in_range 216 222 c
  then ascii_of_N (code c + 32) else c.

Definition chr (n : N) : ascii := ascii_of_N n.

(** Truthiness of a [str]: non-empty. *)
Definition truthy (s : string) : bool :=
  match s with EmptyString => false | String _ _ => true end.

(** Truthiness of an [Optional[str]]: not [None] and non-empty. *)
Definition truthy_opt (o : option string) : bool :=
  match o with None => false | Some s => truthy s end.

Fixpoint lstrip (s : string) : string :=
  match s with
  | String c s' => if is_space c then lstrip s' else s
  | EmptyString => EmptyString
  end.

Fixpoint rstrip (s : string) : string :=
  match s with
  | String c s' =>
      match rstrip s' with
      | EmptyString => if is_space c then EmptyString else String c EmptyString
      | r => String c r
      end
  | EmptyString => EmptyString
  end.

(** [s.strip()] *)
Definition strip (s : string) : string := rstrip (lstrip s).

(** [s.split(sep)] for a one-character separator. *)
Fixpoint split (sep : ascii) (s : string) : list string :=
  match s with
  | EmptyString => [EmptyString]
  | String c s' =>
      if Ascii.eqb c sep then EmptyString :: split sep s'
      else match split sep s' with
           | w :: ws => String c w :: ws
           | [] => [String c EmptyString]
           end
  end.

(** [s.split()]: the whitespace-delimited words. *)
Fixpoint words_aux (s : string) (cur : string) : list string :=
  match s with
  | EmptyString => if truthy cur then [cur] else []
  | String c s' =>
      if is_space c
      then (if truthy cur then cur :: words_aux s' EmptyString
            else words_aux s' EmptyString)
      else words_aux s' (cur ++ String c EmptyString)
  end.
Definition words (s : string) : list string := words_aux s EmptyString.

(** [s.replace(old, new)] for a one-character [old]. *)
Fixpoint replace (old : ascii) (new : string) (s : string) : string :=
  match s with
  | EmptyString => EmptyString
  | String c s' =>
      if Ascii.eqb c old then new ++ replace old new s'
      else String c (replace old new s')
  end.

(** [c in s] for a one-character [c]. *)
Fixpoint contains_char (c : ascii) (s : string) : bool :=
  match s with
  | EmptyString => false
  | String c' s' => Ascii.eqb c c' || contains_char c s'
  end.

Fixpoint zeros (n : nat) : string :=
  match n with O => EmptyString | S n' => String "0" (zeros n') end.

(** [s.zfill(width)]: the padding goes after a leading sign. *)
Definition zfill (width : nat) (s : string) : string :=
  if (width <=? String.length s)%nat then s
  else
    let fill := zeros (width - String.length s) in
    match s with
    | String c r =>
        if Ascii.eqb c "+" || Ascii.eqb c "-" then String c (fill ++ r)
        else fill ++ s
    | EmptyString => fill
    end.

(** [sub in s] *)
Fixpoint contains (sub s : string) : bool :=
  String.prefix sub s ||
  match s with
  | EmptyString => false
  | String _ s' => contains sub s'
  end.

(** [s.find(sub)]: [None] stands for -1. *)
Fixpoint find (sub s : string) : option nat :=
  if String.prefix sub s then Some O
  else match s with
       | EmptyString => None
       | String _ s' => option_map S (find sub s')
       end.

(** [s[i:j]] for non-negative bounds. *)
Definition slice (i j : nat) (s : string) : string :=
  String.substring i (j - i) s.

(** [s[i]] for a non-negative index. *)
Definition index (i : nat) (s : string) : option ascii := String.get i s.

Definition join (sep : string) (l : list string) : string := String.concat sep l.

(** *** [float(str)]

    The accepted grammar, after skipping white space at both ends:
    [[sign] (digitpart ["." [digitpart]] | "." digitpart) [exponent]],
    [[sign] "inf"], [[sign] "infinity"], [[sign] "nan"] (any case), where
    a digitpart may carry single underscores between digits. The value is
    the decimal number rounded to nearest-even binary64. *)

(** The white space [float] skips: TAB..CR and SPACE, and NEL and NBSP,
    which it reads as spaces first. It is not the white space of
    [str.strip]: on FS..US (28..31) [float] raises. *)
Definition is_float_space (c : ascii) : bool :=
  in_range 9 13 c || (code c =? 32)%N || (code c =? 133)%N || (code c =? 160)%N.

Fixpoint skip_left (s : string) : string :=
  match s with
  | String c s' => if is_float_space c then skip_left s' else s
  | EmptyString => EmptyString
  end.

Fixpoint skip_right (s : string) : string :=
  match s with
  | String c s' =>
      match skip_right s' with
      | EmptyString => if is_float_space c then EmptyString else String c EmptyString
      | r => String c r
      end
  | EmptyString => EmptyString
  end.

Definition float_strip (s : string) : string := skip_right (skip_left s).

(** Underscores are legal only between two digits, anywhere in the
    literal; the function drops them or fails. [prev] is the character
    before [s], NUL at the start. *)
Fixpoint drop_underscores (prev : ascii) (s : string) : option string :=
  match s with
  | EmptyString => if Ascii.eqb prev "_" then None else Some EmptyString
  | String c s' =>
      if Ascii.eqb c "_" then
        (if is_digit prev then drop_underscores c s' else None)
      else if Ascii.eqb prev "_" && negb (is_digit c) then None
      else option_map (String c) (drop_underscores c s')
  end.

(** Longest prefix of digits and the rest. *)
Fixpoint span_digits (s : string) : string * string :=
  match s with
  | String c s' =>
      if is_digit c then let '(d, r) := span_digits s' in (String c d, r)
      else (EmptyString, s)
  | EmptyString => (EmptyString, EmptyString)
  end.

Definition digit_val (c : ascii) : Z := Z.of_N (code c) - 48.

Fixpoint digits_val_aux (acc : Z) (s : string) : Z :=
  match s with
  | EmptyString => acc
  | String c s' => digits_val_aux (10 * acc + digit_val c) s'
  end.
Definition digits_val (s : string) : Z := digits_val_aux 0 s.

Definition take_sign (s : string) : bool * string :=
  match s with
  | String c r =>
      if Ascii.eqb c "-" then (true, r)
      else if Ascii.eqb c "+" then (false, r)
      else (false, s)
  | EmptyString => (false, s)
  end.

Fixpoint lower_str (s : string) : string :=
  match s with
  | EmptyString => EmptyString
  | String c s' => String (lower c) (lower_str s')
  end.

(** The binary64 nearest to [(-1)^neg * m * 10^e10] (ties to even). *)
Definition decimal_to_float (neg : bool) (m : Z) (e10 : Z) : float :=
  match m with
  | Zpos p =>
      if (0 <=? e10)%Z then
        SF2Prim (binary_normalize prec emax (if neg then - (m * 10 ^ e10) else m * 10 ^ e10) 0 neg)
      else
        SF2Prim (SFdiv prec emax
                   (S754_finite neg p 0)
                   (S754_finite false (Z.to_pos (10 ^ (- e10))) 0))
  | _ => if neg then neg_zero else zero
  end.

Definition parse_exponent (s : string) : option Z :=
  match s with
  | EmptyString => Some 0%Z
  | String c r =>
      if Ascii.eqb c "e" || Ascii.eqb c "E" then
        let '(neg, r1) := take_sign r in
        let '(ds, rest) := span_digits r1 in
        if truthy ds && negb (truthy rest)
        then Some (if neg then (- digits_val ds)%Z else digits_val ds)
        else None
      else None
  end.

Definition parse_number (neg : bool) (s : string) : option float :=
  let '(ip, r1) := span_digits s in
  let '(fp, r2) :=
    match r1 with
    | String c r => if Ascii.eqb c "." then span_digits r else (EmptyString, r1)
    | EmptyString => (EmptyString, r1)
    end in
  if negb (truthy ip) && negb (truthy fp) then None
  else
    match parse_exponent r2 with
    | Some e =>
        Some (decimal_to_float neg (digits_val (ip ++ fp))
                (e - Z.of_nat (String.length fp)))
    | None => None
    end.

(** [float(s)]: [None] stands for [ValueError]. *)
Definition float_of_string (s : string) : option float :=
  match drop_underscores (chr 0) (float_strip s) with
  | None => None
  | Some t =>
      let '(neg, body) := take_sign t in
      let l := lower_str body in
      if String.eqb l "inf" || String.eqb l "infinity"
      then Some (if neg then neg_infinity else infinity)
      else if String.eqb l "nan" then Some nan
      else parse_number neg body
  end.

Definition float (s : string) : result PrimFloat.float :=
  match float_of_string s with
  | Some x => Ok x
  | None => Raise ValueError
  end.

End Py.

(** ** The [re] module: a backtracking matcher

    The patterns of the repository use literals, one-character classes
    under greedy quantifiers, alternation, one capturing group and [$].
    [exec] explores the alternatives in the order of Python's matcher
    (greedy repetition first, left alternative first) and returns the
    first path on which the continuation succeeds. *)

Module Re.

Inductive regex : Type :=
| Eps
| Chr (c : ascii)                                      (* a literal *)
| Rep (p : ascii -> bool) (lo : nat) (hi : option nat) (* [p]{lo,hi}, greedy *)
| Seq (r1 r2 : regex)
| Alt (r1 r2 : regex)
| Grp (r : regex)                                      (* group 1 *)
| Eos.                                                 (* [$], no MULTILINE *)

(** A match object: group 1 when it took part, the length of the match
    ([m.end() - m.start()]) and the text after the match. *)
Record rmatch : Type := mkMatch {
  group1 : option string;
  span : nat;
  rest : string
}.

(** [m.group(1)]; group 1 lies on every path of the patterns below. *)
Definition group (m : rmatch) : string := default EmptyString (group1 m).

(** Literal comparison; [ic] is [re.IGNORECASE]. *)
Definition chr_eq (ic : bool) (c c' : ascii) : bool :=
  Ascii.eqb c c' || (ic && Ascii.eqb (Py.lower c) (Py.lower c')).

Definition below (hi : option nat) (n : nat) : bool :=
  match hi with Some h => (n <? h)%nat | None => true end.

(** Greedy repetition: [cnt] characters of the class are taken so far,
    [s] is the text left and [pos] its offset from the start of the match. *)
Fixpoint rep {R} (p : ascii -> bool) (lo : nat) (hi : option nat) (cnt : nat)
    (s : string) (pos : nat) (k : string -> nat -> option R) : option R :=
  let stop := if (lo <=? cnt)%nat then k s pos else None in
  match s with
  | String c s' =>
      if below hi cnt && p c then
        match rep p lo hi (S cnt) s' (S pos) k with
        | Some x => Some x
        | None => stop
        end
      else stop
  | EmptyString => stop
  end.

Definition at_end (s : string) : bool :=
  match s with
  | EmptyString => true
  | String c EmptyString => Ascii.eqb c (Py.chr 10)
  | _ => false
  end.

(** [exec ic r s0 s pos g k]: match [r] against [s], the text at offset
    [pos] of [s0] (the text at the start of the match); [g] is group 1 so
    far, a slice of [s0] as in a match object. *)
Fixpoint exec {R} (ic : bool) (r : regex) (s0 s : string) (pos : nat)
    (g : option string) (k : string -> nat -> option string -> option R)
    : option R :=
  match r with
  | Eps => k s pos g
  | Chr c =>
      match s with
      | String c' s' => if chr_eq ic c c' then k s' (S pos) g else None
      | EmptyString => None
      end
  | Rep p lo hi => rep p lo hi 0 s pos (fun s' pos' => k s' pos' g)
  | Seq r1 r2 =>
      exec ic r1 s0 s pos g (fun s' pos' g' => exec ic r2 s0 s' pos' g' k)
  | Alt r1 r2 =>
      match exec ic r1 s0 s pos g k with
      | Some x => Some x
      | None => exec ic r2 s0 s pos g k
      end
  | Grp r1 =>
      exec ic r1 s0 s pos g
        (fun s' pos' _ => k s' pos' (Some (String.substring pos (pos' - pos) s0)))
  | Eos => if at_end s then k s pos g else None
  end.

(** [re.match(r, s)]: a match starting at the first character. *)
Definition match_at (ic : bool) (r : regex) (s : string) : option rmatch :=
  exec ic r s s 0 None (fun s' pos' g => Some (mkMatch g pos' s')).

(** [re.search(r, s)]: the leftmost match. *)
Fixpoint search (ic : bool) (r : regex) (s : string) : option rmatch :=
  match match_at ic r s with
  | Some m => Some m
  | None =>
      match s with
      | EmptyString => None
      | String _ s' => search ic r s'
      end
  end.

(** [re.findall(r, s)] for a pattern with one group: the group of each
    successive non-overlapping match. [skip] counts the characters of the
    current match still to be passed over. *)
Fixpoint findall_from (ic : bool) (r : regex) (s : string) (skip : nat) : list string :=
  match skip with
  | S n =>
      match s with
      | String _ s' => findall_from ic r s' n
      | EmptyString => []
      end
  | O =>
      match match_at ic r s with
      | Some m =>
          group m ::
          match s with
          | String _ s' => findall_from ic r s' (span m - 1)
          | EmptyString => []
          end
      | None =>
          match s with
          | String _ s' => findall_from ic r s' 0
          | EmptyString => []
          end
      end
  end.
Definition findall (ic : bool) (r : regex) (s : string) : list string :=
  findall_from ic r s 0.

(** Pattern combinators. *)
Fixpoint lit (s : string) : regex :=
  match s with
  | EmptyString => Eps
  | String c EmptyString => Chr c
  | String c s' => Seq (Chr c) (lit s')
  end.
Definition seq (rs : list regex) : regex := fold_right Seq Eps rs.
Definition alts (r : regex) (rs : list regex) : regex := fold_left Alt rs r.
Definition one (p : ascii -> bool) : regex := Rep p 1 (Some 1).
Definition opt (p : ascii -> bool) : regex := Rep p 0 (Some 1).
Definition star (p : ascii -> bool) : regex := Rep p 0 None.
Definition plus (p : ascii -> bool) : regex := Rep p 1 None.
Definition times (n : nat) (p : ascii -> bool) : regex := Rep p n (Some n).
Definition at_least (n : nat) (p : ascii -> bool) : regex := Rep p n None.

(** Character classes. *)
Definition digit : ascii -> bool := Py.is_digit.                    (* \d *)
Definition space : ascii -> bool := Py.is_space.                    (* \s *)
Definition nonspace : ascii -> bool := fun c => negb (Py.is_space c). (* \S *)
Definition word : ascii -> bool :=                                  (* \w *)
  fun c => Py.is_alnum c || Ascii.eqb c "_".
Definition only (c : ascii) : ascii -> bool := fun c' => Ascii.eqb c' c.
Definition non (c : ascii) : ascii -> bool := fun c' => negb (Ascii.eqb c' c).
Definition any_of (l : string) : ascii -> bool := fun c => Py.contains_char c l.
Definition nl : ascii := Py.chr 10.
Definition comma_dot : ascii -> bool := any_of ",.".                (* [,.] *)

(** The numeric token "\d+[,.]?\d*" of the extraction patterns. *)
Definition number_token : regex := seq [plus digit; opt comma_dot; star digit].

(** [re.sub] of "\s+" by one blank *)
Fixpoint sub_spaces (t : string) (in_run : bool) : string :=
  match t with
  | EmptyString => EmptyString
  | String c t' =>
      if Py.is_space c
      then (if in_run then sub_spaces t' true else String " " (sub_spaces t' true))
      else String c (sub_spaces t' false)
  end.

End Re.

(** ** [models.py] *)

Module Models.

Record LineItem : Type := mkLineItem {
  position : nat;
  description : string;
  article_number : option string;
  quantity : float;
  unit : string;
  unit_price : float;
  line_total : float
}.

Record Invoice : Type := mkInvoice {
  invoice_number : option string;
  customer_number : option string;
  order_reference : option string;
  buyer_name : option string;
  buyer_address : option string;
  seller_name : option string;
  seller_address : option string;
  invoice_date : option string;
  due_date : option string;
  delivery_date : option string;
  currency : option string;
  net_total : option float;
  tax_rate : option float;
  tax_amount : option float;
  gross_total : option float;
  payment_terms : option string;
  line_items : list LineItem;
  source_file : option string
}.

(** [Invoice.validate_date_format], the field validator of the three date
    fields. It runs after type validation, so [v] is [None] or a [str];
    no statement of its [try] block can raise. *)
Definition validate_date_format (v : option string) : option string :=
  match v with
  | None => None
  | Some t =>
      if (String.length t =? 10)%nat
         && bool_decide (Py.index 4 t = Some "-"%char)
         && bool_decide (Py.index 7 t = Some "-"%char)
      then Some t
      else if Py.contains_char "." t then
        match Py.split "." t with
        | [day; month; year] =>
            Some (year +:+ "-" +:+ Py.zfill 2 month +:+ "-" +:+ Py.zfill 2 day)
        | _ => Some t
        end
      else Some t
  end.

(** The constructor [Invoice] on keyword arguments that passed type validation: the
    record of the supplied values with the date validator applied. *)
Definition Invoice_init (kw : Invoice) : Invoice :=
  {| invoice_number := invoice_number kw;
     customer_number := customer_number kw;
     order_reference := order_reference kw;
     buyer_name := buyer_name kw;
     buyer_address := buyer_address kw;
     seller_name := seller_name kw;
     seller_address := seller_address kw;
     invoice_date := validate_date_format (invoice_date kw);
     due_date := validate_date_format (due_date kw);
     delivery_date := validate_date_format (delivery_date kw);
     currency := currency kw;
     net_total := net_total kw;
     tax_rate := tax_rate kw;
     tax_amount := tax_amount kw;
     gross_total := gross_total kw;
     payment_terms := payment_terms kw;
     line_items := line_items kw;
     source_file := source_file kw |}.

(** A message is an f-string kept in pieces: its literal text (with the
    [str] arguments already interpolated) and the arguments whose
    rendering is left to the interpreter. *)
Inductive fpart : Type :=
| Text (t : string)
| Float2f (x : float)            (* {x:.2f} *)
| FloatRepr (x : float)          (* {x} *)
| SetRepr (xs : gset string).    (* {xs}: iteration order of a set *)

Definition fstring : Type := list fpart.

Record ValidationError : Type := mkError {
  rule : string;
  message : fstring;
  severity : string
}.

Record InvoiceValidationResult : Type := mkResult {
  invoice_id : string;
  result_source_file : option string;
  is_valid : bool;
  errors : list ValidationError
}.

Record ValidationSummary : Type := mkSummary {
  total_invoices : nat;
  valid_invoices : nat;
  invalid_invoices : nat;
  error_counts : gmap string nat
}.

Record ValidationReport : Type := mkReport {
  summary : ValidationSummary;
  results : list InvoiceValidationResult;
  timestamp : string
}.

End Models.

(** ** [extractor.py]

    [extract_from_pdf] and [extract_from_directory] read files through
    pdfplumber and are not embedded; the functions below start from the
    text of a document. *)

Module Extractor.
Import Models.

(** A value stored in the [data] dictionary of [_extract_fields]. *)
Inductive pyval : Type :=
| VNone
| VStr (t : string)
| VFloat (x : float).

Definition of_opt (o : option string) : pyval :=
  match o with Some t => VStr t | None => VNone end.

(** Letters of the German classes [A-ZÄÖÜa-zäöüß]. *)
Definition umlauts : list N := [196; 214; 220; 228; 246; 252; 223]%N.
Definition german_letter (c : ascii) : bool :=
  Py.is_upper_ascii c || Py.is_lower_ascii c
  || bool_decide (Py.code c ∈ umlauts).

Definition space_or_nl (c : ascii) : bool :=                   (* [\s\n] *)
  Re.space c || Re.only Re.nl c.

(** [InvoiceExtractor.PATTERNS], in insertion order. *)
Definition PATTERNS : list (string * Re.regex) :=
  [ ("invoice_number",
      Re.seq [Re.Alt (Re.lit "Bestellung") (Re.lit "AUFNR");
              Re.star Re.space; Re.Grp (Re.plus Re.word)]);
    ("order_reference",
      Re.seq [Re.lit "im Auftrag von"; Re.star Re.space;
              Re.Grp (Re.plus Re.digit)]);
    ("customer_number",
      Re.seq [Re.lit "Unsere Kundennummer"; Re.plus space_or_nl;
              Re.Grp (Re.plus Re.digit)]);
    ("invoice_date",
      Re.seq [Re.lit "vom"; Re.star Re.space;
              Re.Grp (Re.seq [Re.times 2 Re.digit; Re.Chr ".";
                              Re.times 2 Re.digit; Re.Chr ".";
                              Re.times 4 Re.digit])]);
    ("tax_rate",
      Re.seq [Re.lit "MwSt."; Re.star Re.space;
              Re.Grp Re.number_token; Re.Chr "%"]);
    ("net_total",
      Re.seq [Re.lit "Gesamtwert"; Re.plus Re.space; Re.lit "EUR";
              Re.plus Re.space; Re.Grp Re.number_token]);
    ("tax_amount",
      Re.seq [Re.lit "MwSt."; Re.plus Re.space; Re.number_token; Re.Chr "%";
              Re.plus Re.space; Re.lit "EUR"; Re.plus Re.space;
              Re.Grp Re.number_token]);
    ("gross_total",
      Re.seq [Re.lit "Gesamtwert inkl. MwSt."; Re.plus Re.space;
              Re.lit "EUR"; Re.plus Re.space; Re.Grp Re.number_token]);
    ("payment_terms",
      Re.seq [Re.lit "Zahlungsbedingungen"; Re.plus space_or_nl;
              Re.Grp (Re.plus (Re.non Re.nl))]);
    ("delivery_date",
      Re.seq [Re.lit ("Gew" +:+ String (Py.chr 252) "nschtes Lieferdatum");
              Re.plus space_or_nl; Re.Grp (Re.plus (Re.non Re.nl))]) ].

Definition numeric_fields : list string :=
  ["net_total"; "tax_amount"; "gross_total"; "tax_rate"].

(** [_parse_german_number]: the handler catches [ValueError] only. *)
Definition _parse_german_number (value : string) : result float :=
  if negb (Py.truthy value) then Ok 0%float
  else
    let value := Py.replace "," "." (Py.replace "." "" value) in
    match Py.float value with
    | Ok x => Ok x
    | Raise ValueError => Ok 0%float
    | Raise e => Raise e
    end.

Definition unpack3 (l : list string) : result (string * string * string) :=
  match l with
  | [a; b; c] => Ok (a, b, c)
  | _ => Raise ValueError
  end.

(** [_convert_date]: unpacking into three names raises [ValueError] when
    the split has another length; the bare [except] returns the input. *)
Definition _convert_date (date_str : string) : string :=
  try_except
    (if Py.contains_char "." date_str then
       p <~ unpack3 (Py.split "." date_str) ;;
       let '(day, month, year) := p in
       Ok (year +:+ "-" +:+ Py.zfill 2 month +:+ "-" +:+ Py.zfill 2 day)
     else Ok date_str)
    date_str.

(** [_extract_buyer_name] *)
Definition _extract_buyer_name (text : string) : option string :=
  let m :=
    match Re.search false
            (Re.seq [Re.lit "Kundenanschrift"; Re.plus space_or_nl;
                     Re.Grp (Re.plus (Re.non Re.nl))]) text with
    | Some m => Some m
    | None =>
        Re.search false
          (Re.Grp (Re.seq
             [Re.plus (fun c => Re.word c || Re.space c);
              Re.alts (Re.lit "GmbH")
                [Re.lit "AG"; Re.lit "Unternehmen"; Re.lit "Corporation"]]))
          text
    end in
  match m with
  | Some m => Some (Py.strip (Re.group m))
  | None => None
  end.

(** [_extract_buyer_address] *)
Definition _extract_buyer_address (text : string) : option string :=
  match Re.search false
          (Re.Grp (Re.seq
             [Re.plus (fun c => german_letter c || Re.any_of "-." c);
              Re.lit "str"; Re.opt (Re.only "."); Re.plus Re.space;
              Re.plus Re.digit; Re.star (Re.non ","); Re.Chr ",";
              Re.star Re.space; Re.plus (Re.non ","); Re.Chr ",";
              Re.star Re.space; Re.plus Re.word; Re.plus Re.space;
              Re.times 5 Re.digit; Re.star (Re.non Re.nl)])) text with
  | Some m => Some (Py.strip (Re.group m))
  | None =>
      match Re.search true
              (Re.Grp (Re.seq
                 [Re.plus (fun c => Re.word c || Re.any_of "-." c);
                  Re.lit "str"; Re.opt (Re.only "."); Re.plus Re.space;
                  Re.plus Re.digit; Re.plus (Re.non Re.nl);
                  Re.lit "Deutschland"])) text with
      | Some m => Some (Py.strip (Re.group m))
      | None => None
      end
  end.

(** [str.isdigit] below 256: decimal digits and the superscripts. *)
Definition isdigit_char (c : ascii) : bool :=
  Py.is_digit c || bool_decide (Py.code c ∈ [178; 179; 185]%N).
Fixpoint all_chars (p : ascii -> bool) (t : string) : bool :=
  match t with
  | EmptyString => true
  | String c t' => p c && all_chars p t'
  end.
Definition isdigit (t : string) : bool := Py.truthy t && all_chars isdigit_char t.

(** [_extract_seller_name] *)
Definition _extract_seller_name (text : string) : option string :=
  match Re.search false
          (Re.Grp (Re.seq [Re.at_least 3 Py.is_upper_ascii; Re.plus Re.space;
                           Re.lit "Corporation"])) text with
  | Some m => Some (Py.strip (Re.group m))
  | None =>
      match Re.search false
              (Re.seq [Re.lit "Ihre Faxnummer:"; Re.plus (Re.non Re.nl);
                       Re.Chr Re.nl; Re.Grp (Re.plus (Re.non Re.nl))]) text with
      | Some m =>
          let potential_seller := Py.strip (Re.group m) in
          if (5 <? String.length potential_seller)%nat
             && negb (isdigit potential_seller)
          then Some potential_seller
          else None
      | None => None
      end
  end.

(** [_extract_seller_address] *)
Definition _extract_seller_address (text : string) : option string :=
  match _extract_seller_name text with
  | Some seller_name =>
      if Py.truthy seller_name then
        match Py.find seller_name text with
        | Some idx =>
            let from := (idx + String.length seller_name)%nat in
            let remaining := Py.slice from (from + 200) text in
            match Re.search false
                    (Re.Grp (Re.seq
                       [Re.plus (fun c => german_letter c || Re.space c);
                        Re.plus Re.digit;
                        Re.Rep (Re.non Re.nl) 10 (Some 80)])) remaining with
            | Some m => Some (Re.sub_spaces (Py.strip (Re.group m)) false)
            | None => None
            end
        | None => None
        end
      else None
  | None => None
  end.

(** One iteration of the loop over [PATTERNS] in [_extract_fields];
    the flags are [re.IGNORECASE | re.MULTILINE] (no pattern has an
    anchor, so only the first matters). *)
Definition extract_pattern (text : string) (data : gmap string pyval)
    (fp : string * Re.regex) : result (gmap string pyval) :=
  let '(field, pattern) := fp in
  match Re.search true pattern text with
  | Some m =>
      let value := Py.strip (Re.group m) in
      if bool_decide (field ∈ numeric_fields) then
        x <~ _parse_german_number value ;;
        Ok (<[field := VFloat x]> data)
      else Ok (<[field := VStr value]> data)
  | None => Ok data
  end.

Fixpoint for_each {A St} (f : St -> A -> result St) (l : list A) (st : St)
    : result St :=
  match l with
  | [] => Ok st
  | a :: l' => st' <~ f st a ;; for_each f l' st'
  end.

(** [_extract_fields] *)
Definition _extract_fields (text : string) : result (gmap string pyval) :=
  data <~ for_each (extract_pattern text) PATTERNS ∅ ;;
  let data := <["buyer_name" := of_opt (_extract_buyer_name text)]> data in
  let data := <["buyer_address" := of_opt (_extract_buyer_address text)]> data in
  let data := <["seller_name" := of_opt (_extract_seller_name text)]> data in
  let data := <["seller_address" := of_opt (_extract_seller_address text)]> data in
  let data := <["currency" := VStr "EUR"]> data in
  let data :=
    match data !! "invoice_date" with
    | Some (VStr t) => <["invoice_date" := VStr (_convert_date t)]> data
    | _ => data
    end in
  let data :=
    match data !! "invoice_date" with
    | Some v => <["due_date" := v]> data
    | None => data
    end in
  Ok data.

(** [_extract_description_from_context]; a [re.search] of a pattern
    starting with [^] (no MULTILINE) is a match at the first character. *)
Definition label_marker : Re.regex :=
  Re.alts (Re.lit "Lief.Art.Nr") [Re.lit "Interne Mat.Nr"; Re.lit "Kostenstelle"].

Definition description_char (c : ascii) : bool :=
  german_letter c || Re.space c || Re.any_of "-[]/" c.

Fixpoint first_description (lines : list string) : option string :=
  match lines with
  | [] => None
  | line :: lines' =>
      if bool_decide (is_Some (Re.search false label_marker line))
      then first_description lines'
      else
        match Re.match_at false
                (Re.seq [Re.Grp (Re.plus description_char); Re.Eos])
                (Py.strip line) with
        | Some desc_match =>
            if (3 <? String.length (Re.group desc_match))%nat then
              let desc := Py.strip (Re.group desc_match) in
              if negb (bool_decide (is_Some
                         (Re.match_at false (Re.seq [Re.plus Re.digit; Re.Eos]) desc)))
                 && negb (Py.contains "Bestellung" desc)
              then Some desc
              else first_description lines'
            else first_description lines'
        | None => first_description lines'
        end
  end.

Definition _extract_description_from_context (lines : list string) : option string :=
  first_description (firstn 8 lines).

(** The loop [for amt in reversed(amount_matches)] of [_parse_line_item]:
    the first amount, in the order given, that reaches [threshold];
    [line_total] is the value the variable holds when the loop ends
    without a [break]. *)
Fixpoint scan_amounts (amts : list string) (threshold : float) (line_total : float)
    : float :=
  match amts with
  | [] => line_total
  | amt :: amts' =>
      match _parse_german_number amt with
      | Ok potential_total =>
          if PrimFloat.leb threshold potential_total then potential_total
          else scan_amounts amts' threshold line_total
      | Raise _ => scan_amounts amts' threshold line_total     (* except: pass *)
      end
  end.

Definition quantity_pattern : Re.regex :=                (* "(\d+)\s+VE" *)
  Re.seq [Re.Grp (Re.plus Re.digit); Re.plus Re.space; Re.lit "VE"].
Definition price_pattern : Re.regex :=   (* (token) then "\s+pro\s+1\s+VE" *)
  Re.seq [Re.Grp Re.number_token; Re.plus Re.space; Re.lit "pro";
          Re.plus Re.space; Re.Chr "1"; Re.plus Re.space; Re.lit "VE"].
Definition article_pattern : Re.regex :=      (* "Lief\.Art\.Nr:\s*(\S+)" *)
  Re.seq [Re.lit "Lief.Art.Nr:"; Re.star Re.space; Re.Grp (Re.plus Re.nonspace)].

(** [_parse_line_item]. The unused [total_match] is left out: computing
    it cannot raise. *)
Definition _parse_line_item (line : string) (context_lines : list string)
    (position : nat) : result (option LineItem) :=
  let quantity_match := Re.search false quantity_pattern line in
  let price_match := Re.search false price_pattern line in
  match quantity_match with
  | None => Ok None
  | Some qm =>
      quantity <~ Py.float (Re.group qm) ;;
      let description := _extract_description_from_context context_lines in
      let article_match :=
        Re.search false article_pattern
          (Py.join (String Re.nl EmptyString) (firstn 5 context_lines)) in
      let article_number := option_map Re.group article_match in
      unit_price <~
        match price_match with
        | Some pm => _parse_german_number (Re.group pm)
        | None => Ok 0%float
        end ;;
      let amount_matches := Re.findall false (Re.Grp Re.number_token) line in
      let line_total :=
        if (2 <=? length amount_matches)%nat
        then scan_amounts (rev amount_matches)
               (quantity * unit_price * 0.9)%float 0%float
        else 0%float in
      let line_total :=
        if PrimFloat.eqb line_total 0 && PrimFloat.ltb 0 unit_price
        then (quantity * unit_price)%float
        else line_total in
      Ok (Some {| position := position;
                  description :=
                    match description with
                    | Some t => if Py.truthy t then t else "Unknown item"
                    | None => "Unknown item"
                    end;
                  article_number := article_number;
                  quantity := quantity;
                  unit := "VE";
                  unit_price := unit_price;
                  line_total := line_total |})
  end.

(** The two start signatures of [_extract_line_items]. *)
Definition start_ve : Re.regex :=                         (* "^\d+\s+\d+\s+VE" *)
  Re.seq [Re.plus Re.digit; Re.plus Re.space; Re.plus Re.digit;
          Re.plus Re.space; Re.lit "VE"].
Definition start_upper : Re.regex :=                          (* "^\d+\s+[A-Z]" *)
  Re.seq [Re.plus Re.digit; Re.plus Re.space; Re.one Py.is_upper_ascii].

(** The [while] loop of [_extract_line_items] over the lines from index
    [i] on: [lines] is [lines[i:]], so the context window
    [lines[i:min(i+10, len(lines))]] is its first ten elements. *)
Fixpoint scan_lines (lines : list string) (pos_counter : nat) : list LineItem :=
  match lines with
  | [] => []
  | l :: lines' =>
      let line := Py.strip l in
      if bool_decide (is_Some (Re.match_at false start_ve line))
         || bool_decide (is_Some (Re.match_at false start_upper line))
      then
        match _parse_line_item line (firstn 10 lines) pos_counter with
        | Ok (Some item_data) => item_data :: scan_lines lines' (S pos_counter)
        | Ok None => scan_lines lines' pos_counter
        | Raise _ => scan_lines lines' pos_counter            (* except: pass *)
        end
      else scan_lines lines' pos_counter
  end.

(** [_extract_line_items] *)
Definition _extract_line_items (text : string) : list LineItem :=
  scan_lines (Py.split Re.nl text) 1.

(** The text [extract_from_pdf] assembles: the text of every page, each
    followed by a newline. *)
Definition pdf_text (pages : list string) : string :=
  fold_left (fun text page => text +:+ page +:+ String Re.nl EmptyString) pages "".

(** The entry of a [str] field among the keyword arguments of [Invoice]:
    the default for a missing key, the value for [None] or a [str]. The
    outer [None] stands for an entry of another type, which the model does
    not take further (the constructor would reject it). *)
Definition str_field (data : gmap string pyval) (key : string)
    (dflt : option string) : option (option string) :=
  match data !! key with
  | None => Some dflt
  | Some VNone => Some None
  | Some (VStr t) => Some (Some t)
  | Some (VFloat _) => None
  end.

(** The same for a [float] field; a [str] entry is not taken further (the
    constructor would try to read it as a number). *)
Definition float_field (data : gmap string pyval) (key : string)
    : option (option float) :=
  match data !! key with
  | None => Some None
  | Some VNone => Some None
  | Some (VFloat x) => Some (Some x)
  | Some (VStr _) => None
  end.

(** [Invoice(...)] on the dictionary [invoice_data] of [extract_from_pdf],
    whose ["line_items"] entry is [items]. *)
Definition Invoice_of_data (data : gmap string pyval) (items : list LineItem)
    : option Invoice :=
  number ← str_field data "invoice_number" None;
  customer ← str_field data "customer_number" None;
  order ← str_field data "order_reference" None;
  buyer ← str_field data "buyer_name" None;
  buyer_addr ← str_field data "buyer_address" None;
  seller ← str_field data "seller_name" None;
  seller_addr ← str_field data "seller_address" None;
  inv_date ← str_field data "invoice_date" None;
  due ← str_field data "due_date" None;
  delivery ← str_field data "delivery_date" None;
  cur ← str_field data "currency" (Some "EUR");
  net ← float_field data "net_total";
  rate ← float_field data "tax_rate";
  tax ← float_field data "tax_amount";
  gross ← float_field data "gross_total";
  terms ← str_field data "payment_terms" None;
  file ← str_field data "source_file" None;
  Some (Invoice_init
          {| invoice_number := number; customer_number := customer;
             order_reference := order; buyer_name := buyer;
             buyer_address := buyer_addr; seller_name := seller;
             seller_address := seller_addr; invoice_date := inv_date;
             due_date := due; delivery_date := delivery; currency := cur;
             net_total := net; tax_rate := rate; tax_amount := tax;
             gross_total := gross; payment_terms := terms;
             line_items := items; source_file := file |}).

(** The body of [extract_from_pdf] once the text is assembled. [Ok None]
    stands for a dictionary [Invoice_of_data] does not take. *)
Definition extract_from_text (text : string) : result (option Invoice) :=
  invoice_data <~ _extract_fields text ;;
  let line_items := _extract_line_items text in
  Ok (Invoice_of_data invoice_data line_items).

(** [invoice.source_file = name] *)
Definition set_source_file (invoice : Invoice) (name : string) : Invoice :=
  {| invoice_number := invoice_number invoice;
     customer_number := customer_number invoice;
     order_reference := order_reference invoice;
     buyer_name := buyer_name invoice;
     buyer_address := buyer_address invoice;
     seller_name := seller_name invoice;
     seller_address := seller_address invoice;
     invoice_date := invoice_date invoice;
     due_date := due_date invoice;
     delivery_date := delivery_date invoice;
     currency := currency invoice;
     net_total := net_total invoice;
     tax_rate := tax_rate invoice;
     tax_amount := tax_amount invoice;
     gross_total := gross_total invoice;
     payment_terms := payment_terms invoice;
     line_items := line_items invoice;
     source_file := Some name |}.

(** The loop of [extract_from_directory] over the PDF files found. A file
    is its name and the pages pdfplumber reads from it, [None] when
    reading it raises; a file whose extraction raises is skipped. *)
Fixpoint extract_files (pdf_files : list (string * option (list string)))
    : list Invoice :=
  match pdf_files with
  | [] => []
  | (name, pdf) :: pdf_files' =>
      match pdf with
      | Some pages =>
          match extract_from_text (pdf_text pages) with
          | Ok (Some invoice) => set_source_file invoice name :: extract_files pdf_files'
          | _ => extract_files pdf_files'
          end
      | None => extract_files pdf_files'
      end
  end.

End Extractor.

(** ** [validator.py] *)

Module Validator.
Import Models.

(** The state of an [InvoiceValidator] object. *)
Record InvoiceValidator : Type := mkValidator {
  seen_invoices : gset string
}.

(** [InvoiceValidator()] *)
Definition InvoiceValidator_init : InvoiceValidator :=
  {| seen_invoices := ∅ |}.

Definition KNOWN_CURRENCIES : gset string :=
  {["EUR"; "USD"; "GBP"; "INR"; "JPY"; "CHF"]}.

(** [date.fromisoformat] on the strings it is called with here: ten
    characters with "-" at indices 4 and 7, for which the only accepted
    form is four, two and two ASCII digits naming a calendar date. *)
Definition is_leap (y : Z) : bool :=
  ((y mod 4 =? 0) && (negb (y mod 100 =? 0) || (y mod 400 =? 0)))%Z.

Definition days_in_month (y m : Z) : Z :=
  if (m =? 2)%Z then (if is_leap y then 29 else 28)%Z
  else if ((m =? 4) || (m =? 6) || (m =? 9) || (m =? 11))%Z then 30%Z
  else 31%Z.

Definition digits_only (t : string) : bool := Extractor.all_chars Py.is_digit t.

Definition fromisoformat (date_str : string) : result (Z * Z * Z) :=
  let ys := Py.slice 0 4 date_str in
  let ms := Py.slice 5 7 date_str in
  let ds := Py.slice 8 10 date_str in
  if (String.length date_str =? 10)%nat
     && bool_decide (Py.index 4 date_str = Some "-"%char)
     && bool_decide (Py.index 7 date_str = Some "-"%char)
     && digits_only ys && digits_only ms && digits_only ds
  then
    let y := Py.digits_val ys in
    let m := Py.digits_val ms in
    let d := Py.digits_val ds in
    if ((1 <=? y) && (1 <=? m) && (m <=? 12) && (1 <=? d)
        && (d <=? days_in_month y m))%Z
    then Ok (y, m, d)
    else Raise ValueError
  else Raise ValueError.

(** Order of two dates. *)
Definition date_lt (a b : Z * Z * Z) : bool :=
  let '(y1, m1, d1) := a in
  let '(y2, m2, d2) := b in
  ((y1 <? y2) || ((y1 =? y2) && ((m1 <? m2) || ((m1 =? m2) && (d1 <? d2)))))%Z.

(** [_is_valid_date] *)
Definition _is_valid_date (date_str : string) : bool :=
  if negb (Py.truthy date_str) then false
  else
    try_except
      (if (String.length date_str =? 10)%nat
          && bool_decide (Py.index 4 date_str = Some "-"%char)
          && bool_decide (Py.index 7 date_str = Some "-"%char)
       then _ <~ fromisoformat date_str ;; Ok true
       else Ok false)
      false.

Definition error (rule : string) (message : fstring) : ValidationError :=
  {| rule := rule; message := message; severity := "error" |}.
Definition warning (rule : string) (message : fstring) : ValidationError :=
  {| rule := rule; message := message; severity := "warning" |}.

(** [not v or v.strip() == ""] *)
Definition missing_or_empty (v : option string) : bool :=
  negb (Py.truthy_opt v)
  || match v with Some t => String.eqb (Py.strip t) "" | None => false end.

Definition missing_error (field : string) : ValidationError :=
  error "completeness" [Text (field +:+ " is missing or empty")].

(** [_check_completeness] *)
Definition _check_completeness (invoice : Invoice) : list ValidationError :=
  (if missing_or_empty (invoice_number invoice)
   then [missing_error "invoice_number"] else [])
  ++ (if missing_or_empty (invoice_date invoice)
      then [missing_error "invoice_date"] else [])
  ++ (if missing_or_empty (buyer_name invoice)
      then [missing_error "buyer_name"] else [])
  ++ (if missing_or_empty (seller_name invoice)
      then [missing_error "seller_name"] else [])
  ++ (if missing_or_empty (currency invoice)
      then [missing_error "currency"] else []).

Definition date_format_error (date_field date_value : string) : ValidationError :=
  error "format" [Text (date_field +:+ " has invalid format: " +:+ date_value)].

Definition check_date_field (date_field : string) (date_value : option string)
    : list ValidationError :=
  match date_value with
  | Some v =>
      if Py.truthy v && negb (bool_decide (v ∈ ["sofort"; "ASAP"]))
      then (if negb (_is_valid_date v) then [date_format_error date_field v] else [])
      else []
  | None => []
  end.

Definition currency_warning (c : string) : ValidationError :=
  warning "format"
    [Text ("currency '" +:+ c +:+ "' not in known set "); SetRepr KNOWN_CURRENCIES].

Definition negative_error (amount_field : string) (amount_value : float)
    : ValidationError :=
  error "format" [Text (amount_field +:+ " is negative: "); FloatRepr amount_value].

Definition check_amount_field (amount_field : string) (amount_value : option float)
    : list ValidationError :=
  match amount_value with
  | Some x => if PrimFloat.ltb x 0 then [negative_error amount_field x] else []
  | None => []
  end.

(** [_check_formats] *)
Definition _check_formats (invoice : Invoice) : list ValidationError :=
  check_date_field "invoice_date" (invoice_date invoice)
  ++ check_date_field "due_date" (due_date invoice)
  ++ check_date_field "delivery_date" (delivery_date invoice)
  ++ match currency invoice with
     | Some c =>
         if Py.truthy c && negb (bool_decide (c ∈ KNOWN_CURRENCIES))
         then [currency_warning c] else []
     | None => []
     end
  ++ check_amount_field "net_total" (net_total invoice)
  ++ check_amount_field "tax_amount" (tax_amount invoice)
  ++ check_amount_field "gross_total" (gross_total invoice).

(** [sum(item.line_total for item in items)]: additions from the left,
    starting from 0 (interpreters from CPython 3.12 on compensate the
    rounding of such a sum; the plain sum is modelled). *)
Definition sum_line_totals (items : list LineItem) : float :=
  fold_left (fun acc item => (acc + line_total item)%float) items 0%float.

Definition line_sum_error (line_items_sum net : float) : ValidationError :=
  error "business_rule"
    [Text "line_items sum ("; Float2f line_items_sum;
     Text ") does not match net_total ("; Float2f net; Text ")"].

Definition tax_mismatch_error (net tax gross : float) : ValidationError :=
  error "business_rule"
    [Text "tax calculation mismatch: net ("; Float2f net; Text ") + tax (";
     Float2f tax; Text ") != gross ("; Float2f gross; Text ")"].

Definition due_before_error (due inv : string) : ValidationError :=
  error "business_rule"
    [Text ("due_date (" +:+ due +:+ ") is before invoice_date (" +:+ inv +:+ ")")].

(** Rule 8 *)
Definition check_line_sum (invoice : Invoice) : list ValidationError :=
  match line_items invoice, net_total invoice with
  | _ :: _, Some net =>
      let line_items_sum := sum_line_totals (line_items invoice) in
      let tolerance := (net * 0.01)%float in
      if PrimFloat.ltb tolerance (abs (line_items_sum - net))
      then [line_sum_error line_items_sum net] else []
  | _, _ => []
  end.

(** Rule 9 *)
Definition check_tax (invoice : Invoice) : list ValidationError :=
  match net_total invoice, tax_amount invoice, gross_total invoice with
  | Some net, Some tax, Some gross =>
      let expected_gross := (net + tax)%float in
      let tolerance := 0.02%float in
      if PrimFloat.ltb tolerance (abs (expected_gross - gross))
      then [tax_mismatch_error net tax gross] else []
  | _, _, _ => []
  end.

(** Rule 10 *)
Definition check_due_date (invoice : Invoice) : list ValidationError :=
  match invoice_date invoice, due_date invoice with
  | Some inv, Some due =>
      if Py.truthy inv && Py.truthy due
         && _is_valid_date inv && _is_valid_date due
      then
        try_except
          (inv_date <~ fromisoformat inv ;;
           due_date <~ fromisoformat due ;;
           Ok (if date_lt due_date inv_date then [due_before_error due inv] else []))
          []
      else []
  | _, _ => []
  end.

(** [_check_business_rules] *)
Definition _check_business_rules (invoice : Invoice) : list ValidationError :=
  check_line_sum invoice ++ check_tax invoice ++ check_due_date invoice.

Definition duplicate_error (number : string) : ValidationError :=
  error "duplicate" [Text ("duplicate invoice detected: " +:+ number)].

Definition zero_total_warning : ValidationError :=
  warning "anomaly" [Text "gross_total is zero, likely extraction error"].

(** The composite key of Rule 11, when the three fields are truthy. *)
Definition invoice_key (invoice : Invoice) : option string :=
  match invoice_number invoice, seller_name invoice, invoice_date invoice with
  | Some n, Some s, Some d =>
      if Py.truthy n && Py.truthy s && Py.truthy d
      then Some (n +:+ "|" +:+ s +:+ "|" +:+ d)
      else None
  | _, _, _ => None
  end.

(** [_check_anomalies]: reads and updates [self.seen_invoices]. *)
Definition _check_anomalies (self : InvoiceValidator) (invoice : Invoice)
    : list ValidationError * InvoiceValidator :=
  let '(errors, self) :=
    match invoice_key invoice with
    | Some key =>
        if bool_decide (key ∈ seen_invoices self)
        then ([duplicate_error (default "" (invoice_number invoice))], self)
        else ([], {| seen_invoices := seen_invoices self ∪ {[key]} |})
    | None => ([], self)
    end in
  let errors :=
    errors ++
    match gross_total invoice with
    | Some g => if PrimFloat.eqb g 0 then [zero_total_warning] else []
    | None => []
    end in
  (errors, self).

(** [validate_invoice] *)
Definition validate_invoice (self : InvoiceValidator) (invoice : Invoice)
    : InvoiceValidationResult * InvoiceValidator :=
  let errors := [] in
  let errors := errors ++ _check_completeness invoice in
  let errors := errors ++ _check_formats invoice in
  let errors := errors ++ _check_business_rules invoice in
  let '(anomalies, self) := _check_anomalies self invoice in
  let errors := errors ++ anomalies in
  let invoice_id :=
    match invoice_number invoice with
    | Some n => if Py.truthy n then n else "UNKNOWN"
    | None => "UNKNOWN"
    end in
  ({| invoice_id := invoice_id;
      result_source_file := source_file invoice;
      is_valid := (length errors =? 0)%nat;
      errors := errors |}, self).

(** The literal text a message starts with, up to its first argument
    rendered by the interpreter. *)
Fixpoint leading_text (m : fstring) : string :=
  match m with
  | Text t :: m' => t +:+ leading_text m'
  | _ => ""
  end.

(** [message.split()[0]]. Every message of this module starts with a
    literal word followed by a blank, so the first word lies in the
    leading text. *)
Definition first_word (m : fstring) : result string :=
  match Py.words (leading_text m) with
  | word :: _ => Ok word
  | [] => Raise IndexError
  end.

(** The inner loop of [validate_batch]: the histogram of error keys. *)
Fixpoint count_errors (errs : list ValidationError) (error_counts : gmap string nat)
    : result (gmap string nat) :=
  match errs with
  | [] => Ok error_counts
  | e :: errs' =>
      word <~ first_word (message e) ;;
      let error_key := rule e +:+ ":" +:+ word in
      count_errors errs'
        (<[error_key := (default 0 (error_counts !! error_key) + 1)%nat]> error_counts)
  end.

(** The outer loop of [validate_batch]. *)
Fixpoint validate_all (self : InvoiceValidator) (invoices : list Invoice)
    (results : list InvoiceValidationResult) (error_counts : gmap string nat)
    : result (list InvoiceValidationResult * gmap string nat * InvoiceValidator) :=
  match invoices with
  | [] => Ok (results, error_counts, self)
  | invoice :: invoices' =>
      let '(r, self) := validate_invoice self invoice in
      let results := results ++ [r] in
      error_counts <~ count_errors (errors r) error_counts ;;
      validate_all self invoices' results error_counts
  end.

(** [validate_batch]; [now] is what [datetime.now().isoformat()] returns
    when the report is built. *)
Definition validate_batch (self : InvoiceValidator) (now : string)
    (invoices : list Invoice) : result (ValidationReport * InvoiceValidator) :=
  let results := [] in
  let error_counts := ∅ in
  let self := {| seen_invoices := ∅ |} in            (* seen_invoices.clear() *)
  out <~ validate_all self invoices results error_counts ;;
  let '(results, error_counts, self) := out in
  let valid_count := length (filter (fun r => is_valid r = true) results) in
  let invalid_count := (length results - valid_count)%nat in
  let summary :=
    {| total_invoices := length invoices;
       valid_invoices := valid_count;
       invalid_invoices := invalid_count;
       error_counts := error_counts |} in
  Ok ({| summary := summary; results := results; timestamp := now |}, self).

(** [validate_invoices]: a fresh validator for one batch. *)
Definition validate_invoices (now : string) (invoices : list Invoice)
    : result ValidationReport :=
  out <~ validate_batch InvoiceValidator_init now invoices ;;
  Ok (fst out).

End Validator.

(** ** [cli.py]: the exit status of the commands *)

Module Cli.
Import Models.

(** [1 if report.summary.invalid_invoices > 0 else 0] *)
Definition exit_status (report : ValidationReport) : Z :=
  if (0 <? invalid_invoices (summary report))%nat then 1%Z else 0%Z.

(** What [full_run_command] returns once the invoices are extracted:
    [saved] tells whether printing the summary and writing the report
    files went through (a failed write raises, and every exception makes
    the command return 1). *)
Definition full_run_status (now : string) (invoices : list Invoice) (saved : bool)
    : Z :=
  match invoices with
  | [] => 1%Z
  | _ :: _ =>
      match Validator.validate_invoices now invoices with
      | Ok report => if saved then exit_status report else 1%Z
      | Raise _ => 1%Z
      end
  end.

End Cli.

(** * Notions used to state the properties *)

Import Models.

(** ** European numbers *)

(** What the two [replace] calls of [_parse_german_number] do to one
    character. *)
Definition normalized_char (c : ascii) : string :=
  if Ascii.eqb c "." then ""
  else if Ascii.eqb c "," then "."
  else String c "".

Fixpoint normalized (value : string) : string :=
  match value with
  | EmptyString => ""
  | String c value' => normalized_char c +:+ normalized value'
  end.

(** The characters of the texts [float] accepts: digits, the white space
    it skips, signs, the point, the underscore, the exponent marker and
    the letters of "inf", "infinity" and "nan" in either case. *)
Definition float_char (c : ascii) : bool :=
  Py.is_digit c || Py.is_float_space c || Re.any_of "+-._eEinfatyINFATY" c.

(** [_parse_german_number] as a total function. *)
Definition german_number (value : string) : float :=
  if Py.truthy value
  then default 0%float (Py.float_of_string (normalized value))
  else 0%float.

(** ** Field extraction *)

(** The value stored for [field] on a match [m]. *)
Definition field_value (field : string) (m : Re.rmatch) : Extractor.pyval :=
  let value := Py.strip (Re.group m) in
  if bool_decide (field ∈ Extractor.numeric_fields)
  then Extractor.VFloat (german_number value)
  else Extractor.VStr value.

(** One iteration of the loop over [PATTERNS], without the monad. *)
Definition store_match (text : string) (data : gmap string Extractor.pyval)
    (fp : string * Re.regex) : gmap string Extractor.pyval :=
  match Re.search true fp.2 text with
  | Some m => <[fp.1 := field_value fp.1 m]> data
  | None => data
  end.

(** The pattern registered for a field. *)
Definition pattern_of (field : string) : Re.regex :=
  match List.find (fun fp => String.eqb fp.1 field) Extractor.PATTERNS with
  | Some fp => fp.2
  | None => Re.Eps
  end.

(** The date conversion applied to a stored value. *)
Definition converted (v : Extractor.pyval) : Extractor.pyval :=
  match v with
  | Extractor.VStr t => Extractor.VStr (Extractor._convert_date t)
  | _ => v
  end.

(** No match of [r] starts at a character of [pre] in [pre ++ s]. *)
Fixpoint no_match_within (ic : bool) (r : Re.regex) (pre s : string) : bool :=
  match pre with
  | EmptyString => true
  | String c pre' =>
      match Re.match_at ic r (pre +:+ s) with
      | Some _ => false
      | None => no_match_within ic r pre' s
      end
  end.

(** The entry of [field] in the dictionary [_extract_fields] returns;
    [None] when the key is absent. *)
Definition extracted (text field : string) : option Extractor.pyval :=
  match Extractor._extract_fields text with
  | Ok data => data !! field
  | Raise _ => None
  end.

(** ** Line items *)

(** The numeric-looking tokens of a start line. *)
Definition numeric_tokens (line : string) : list string :=
  Re.findall false (Re.Grp Re.number_token) line.

(** The value of the first amount, in the order given, that reaches the
    threshold. *)
Fixpoint first_reaching (amts : list string) (threshold : float) : option float :=
  match amts with
  | [] => None
  | amt :: amts' =>
      if PrimFloat.leb threshold (german_number amt) then Some (german_number amt)
      else first_reaching amts' threshold
  end.

(** The line total as the claim words it: the first token from the end
    that reaches [quantity * unit_price * 0.9]; failing that,
    [quantity * unit_price] when [unit_price > 0], otherwise 0. *)
Definition claimed_line_total (line : string) (quantity unit_price : float) : float :=
  match first_reaching (rev (numeric_tokens line)) (quantity * unit_price * 0.9) with
  | Some v => v
  | None => if PrimFloat.ltb 0 unit_price then (quantity * unit_price)%float else 0%float
  end.

(** The start line of the sample invoice and the item parsed from it. *)
Definition sample_line : string := "1 4 VE  1 VE=20 Stuck  64,00 16,0000 pro 1 VE".

Definition sample_item : LineItem :=
  {| position := 1; description := "Unknown item"; article_number := None;
     quantity := 4; unit := "VE"; unit_price := 16; line_total := 64 |}.

(** ** Dates *)

(** The sentinels the format rule lets through. *)
Definition is_sentinel (t : string) : bool :=
  bool_decide (t ∈ ["sofort"; "ASAP"]).

(** Parseable as YYYY-MM-DD. *)
Definition parseable_iso (t : string) : Prop :=
  exists d, Validator.fromisoformat t = Ok d.

(** Ten characters with "-" at indices 4 and 7: the first test of
    [validate_date_format]. *)
Definition iso_shaped (t : string) : bool :=
  (String.length t =? 10)%nat
  && bool_decide (Py.index 4 t = Some "-"%char)
  && bool_decide (Py.index 7 t = Some "-"%char).

(** ** The rule engine *)

(** An invoice with the given identification, currency and totals; every
    other optional field is absent and there is no line item. *)
Definition sample_invoice (number seller date cur : option string)
    (net tax gross : option float) : Invoice :=
  {| invoice_number := number; customer_number := None; order_reference := None;
     buyer_name := Some "Beispielname Unternehmen"; buyer_address := None;
     seller_name := seller; seller_address := None;
     invoice_date := date; due_date := date; delivery_date := Some "sofort";
     currency := cur;
     net_total := net; tax_rate := None; tax_amount := tax; gross_total := gross;
     payment_terms := None; line_items := []; source_file := None |}.

Definition inv1 : Invoice :=
  sample_invoice (Some "INV-1") (Some "ABC Ltd") (Some "2024-01-10") (Some "EUR")
    (Some 100%float) (Some 19%float) (Some 119%float).

(** The rational number a binary64 number stands for (0 for the
    infinities and NaN, which no amount is). *)
Definition exact (x : float) : Q :=
  match Prim2SF x with
  | S754_finite s m e =>
      ((if s then -1 else 1) * inject_Z (Zpos m) * Qpower 2 e)%Q
  | _ => 0%Q
  end.

(** The test of the tax rule as the claim words it, in exact arithmetic:
    |net + tax - gross| exceeds 0.02. *)
Definition exceeds_tolerance (net tax gross : Q) : Prop :=
  (2 # 100 < Qabs (net + tax - gross))%Q.

(** An invoice with the three totals present. *)
Definition totals (net tax gross : float) : Invoice :=
  sample_invoice (Some "INV-1") (Some "ABC Ltd") (Some "2024-01-10") (Some "EUR")
    (Some net) (Some tax) (Some gross).

(** [message.split()[0]] is defined for the error. *)
Definition has_first_word (e : ValidationError) : Prop :=
  exists word, Validator.first_word (message e) = Ok word.

(** The results and the final validator of the loop of [validate_batch],
    without the histogram. *)
Fixpoint run_results (self : Validator.InvoiceValidator) (invoices : list Invoice)
    : list InvoiceValidationResult :=
  match invoices with
  | [] => []
  | invoice :: invoices' =>
      (Validator.validate_invoice self invoice).1
      :: run_results (Validator.validate_invoice self invoice).2 invoices'
  end.

Fixpoint run_state (self : Validator.InvoiceValidator) (invoices : list Invoice)
    : Validator.InvoiceValidator :=
  match invoices with
  | [] => self
  | invoice :: invoices' =>
      run_state (Validator.validate_invoice self invoice).2 invoices'
  end.

(** A result that carries an error of rule "duplicate". *)
Definition has_duplicate (r : InvoiceValidationResult) : Prop :=
  exists e, e ∈ errors r /\ rule e = "duplicate".

(** The keys of a batch. *)
Definition batch_keys (invoices : list Invoice) : gset string :=
  list_to_set (omap Validator.invoice_key invoices).

(** The ten digits. *)
Definition digit_chars : list ascii :=
  ["0"; "1"; "2"; "3"; "4"; "5"; "6"; "7"; "8"; "9"]%char.

Ltac no_error := let H := fresh in intros H; now apply elem_of_nil in H.
Ltac split_errors H := repeat (apply elem_of_app in H as [H|H]).
Ltac this_error H := apply list_elem_of_singleton in H; subst.
Ltac not_a_key :=
  let H := fresh in
  cbn; intros H;
  repeat (apply elem_of_cons in H as [H|H]; [discriminate H|]);
  now apply elem_of_nil in H.

(** ** Notions for the batch report *)

(** The histogram key of an error: rule and first word of the message;
    [None] when the message has no word. *)
Definition error_key (e : ValidationError) : option string :=
  match Validator.first_word (message e) with
  | Ok word => Some (rule e +:+ ":" +:+ word)
  | Raise _ => None
  end.

(** How many errors of a list have the histogram key [key]. *)
Definition occurrences (key : string) (errs : list ValidationError) : nat :=
  length (filter (fun e => error_key e = Some key) errs).

(** All the errors of a list of results, in order. *)
Definition all_errors (rs : list InvoiceValidationResult) : list ValidationError :=
  concat (map errors rs).

(** A histogram without zero entries. *)
Definition no_zero_entry (counts : gmap string nat) : Prop :=
  forall key, counts !! key <> Some 0%nat.

(** The [invoice_id] given to an invoice. *)
Definition id_of (invoice : Invoice) : string :=
  match invoice_number invoice with
  | Some n => if Py.truthy n then n else "UNKNOWN"
  | None => "UNKNOWN"
  end.

(** The results that carry an error of rule "duplicate". *)
Definition flagged_duplicate (r : InvoiceValidationResult) : Prop :=
  Exists (fun e => rule e = "duplicate") (errors r).

(** A required field is there: not [None] and not blank. *)
Definition filled (v : option string) : Prop :=
  exists t, v = Some t /\ Py.strip t <> "".

(** The kinds of finding the rule engine can report on an invoice. *)
Inductive finding (invoice : Invoice) : ValidationError -> Prop :=
| missing_field field :
    field ∈ ["invoice_number"; "invoice_date"; "buyer_name"; "seller_name"; "currency"] ->
    finding invoice (Validator.missing_error field)
| bad_date field value :
    field ∈ ["invoice_date"; "due_date"; "delivery_date"] ->
    finding invoice (Validator.date_format_error field value)
| unknown_currency c :
    currency invoice = Some c ->
    finding invoice (Validator.currency_warning c)
| negative_amount field x :
    field ∈ ["net_total"; "tax_amount"; "gross_total"] ->
    finding invoice (Validator.negative_error field x)
| line_sum_mismatch total net :
    finding invoice (Validator.line_sum_error total net)
| tax_mismatch net tax gross :
    finding invoice (Validator.tax_mismatch_error net tax gross)
| due_before due inv :
    finding invoice (Validator.due_before_error due inv)
| duplicate number :
    finding invoice (Validator.duplicate_error number)
| zero_total :
    finding invoice Validator.zero_total_warning.

(** The keys the histogram of a report can hold. *)
Definition histogram_keys : list string :=
  [ "completeness:invoice_number"; "completeness:invoice_date";
    "completeness:buyer_name"; "completeness:seller_name";
    "completeness:currency";
    "format:invoice_date"; "format:due_date"; "format:delivery_date";
    "format:currency";
    "format:net_total"; "format:tax_amount"; "format:gross_total";
    "business_rule:line_items"; "business_rule:tax"; "business_rule:due_date";
    "duplicate:duplicate"; "anomaly:gross_total" ].

(** The required fields of an invoice, by name. *)
Definition required_fields (invoice : Invoice) : list (string * option string) :=
  [ ("invoice_number", invoice_number invoice);
    ("invoice_date", invoice_date invoice);
    ("buyer_name", buyer_name invoice);
    ("seller_name", seller_name invoice);
    ("currency", currency invoice) ].

(** ** Notions for the extracted dictionary *)

(** The dictionary [_extract_fields] returns, without the monad. *)
Definition fields_of (text : string) : gmap string Extractor.pyval :=
  let data := fold_left (store_match text) Extractor.PATTERNS ∅ in
  let data := <["buyer_name" := Extractor.of_opt (Extractor._extract_buyer_name text)]> data in
  let data := <["buyer_address" := Extractor.of_opt (Extractor._extract_buyer_address text)]> data in
  let data := <["seller_name" := Extractor.of_opt (Extractor._extract_seller_name text)]> data in
  let data := <["seller_address" := Extractor.of_opt (Extractor._extract_seller_address text)]> data in
  let data := <["currency" := Extractor.VStr "EUR"]> data in
  let data :=
    match data !! "invoice_date" with
    | Some (Extractor.VStr t) =>
        <["invoice_date" := Extractor.VStr (Extractor._convert_date t)]> data
    | _ => data
    end in
  match data !! "invoice_date" with
  | Some v => <["due_date" := v]> data
  | None => data
  end.

(** A value has the type its key takes: a float under a numeric field,
    a string or [None] under any other key. *)
Definition well_typed (key : string) (v : Extractor.pyval) : Prop :=
  match v with
  | Extractor.VFloat _ => key ∈ Extractor.numeric_fields
  | _ => key ∉ Extractor.numeric_fields
  end.

(** The keys [_extract_fields] can set. *)
Definition field_keys : list string :=
  Extractor.PATTERNS.*1
  ++ ["buyer_name"; "buyer_address"; "seller_name"; "seller_address";
      "currency"; "due_date"].

(** A dictionary with keys among [field_keys] and well-typed values. *)
Definition well_formed (data : gmap string Extractor.pyval) : Prop :=
  forall key v, data !! key = Some v -> key ∈ field_keys /\ well_typed key v.

(** ** Notions for the extraction pipeline *)

(** The value read for a [str] field and for a [float] field from a
    well-typed dictionary. *)
Definition str_of (data : gmap string Extractor.pyval) (key : string)
    (dflt : option string) : option string :=
  match data !! key with
  | None => dflt
  | Some (Extractor.VStr t) => Some t
  | Some _ => None
  end.

Definition float_of (data : gmap string Extractor.pyval) (key : string)
    : option float :=
  match data !! key with
  | Some (Extractor.VFloat x) => Some x
  | _ => None
  end.

(** A file of a directory that pdfplumber can read. *)
Definition readable (file : string * option (list string)) : Prop :=
  is_Some file.2.

(** The histogram keys that cannot occur for an extracted invoice. *)
Definition keys_excluded : list string :=
  ["completeness:currency"; "format:currency"; "business_rule:due_date"].

(** A calendar date: a year from 1 on, a month from 1 to 12 and a day of
    that month. *)
Definition calendar_date (y m d : Z) : Prop :=
  (1 <= y /\ 1 <= m <= 12 /\ 1 <= d <= Validator.days_in_month y m)%Z.

(** Strings of exactly [n] ASCII digits, as the invoice-date pattern
    captures them. *)
Definition digits (n : nat) (t : string) : Prop :=
  String.length t = n /\ Validator.digits_only t = true.

(** ** Converted dates *)

(** The string both converters build from the three parts. *)
Definition iso_of_parts (day month year : string) : string :=
  year +:+ "-" +:+ Py.zfill 2 month +:+ "-" +:+ Py.zfill 2 day.

(** ** Sample inputs *)

(** An invoice due the day before its date. *)
Definition due_early : Invoice :=
  {| invoice_number := Some "INV-1"; customer_number := None; order_reference := None;
     buyer_name := Some "Beispielname Unternehmen"; buyer_address := None;
     seller_name := Some "ABC Ltd"; seller_address := None;
     invoice_date := Some "2024-03-01"; due_date := Some "2024-02-29";
     delivery_date := None; currency := Some "EUR";
     net_total := None; tax_rate := None; tax_amount := None; gross_total := None;
     payment_terms := None; line_items := []; source_file := None |}.

(** A one-page file with a header line. *)
Definition one_file : list (string * option (list string)) :=
  [("a.pdf", Some ["Bestellung AUFNR1 vom 01.02.2024"])].

(** ** Tactics for lists of keys *)

Ltac in_list := repeat (apply list_elem_of_here || apply list_elem_of_further).

Ltac other_fields H :=
  repeat match type of H with
         | _ \/ _ => destruct H as [H|H]
         | _ /\ _ => let Hb := fresh in destruct H as [Hb H]
         end;
  try discriminate H.

Ltac this_key :=
  eexists; split; [cbn; reflexivity|];
  split; [unfold histogram_keys; in_list|unfold keys_excluded; not_a_key].

(** * Properties *)

(** ** Characters and [float] on digit strings *)

Lemma is_digit_cases (c : ascii) : Py.is_digit c = true -> c ∈ digit_chars.
Proof.
  destruct c as [[] [] [] [] [] [] [] []]; intros H;
    try discriminate H; unfold digit_chars;
    repeat (apply list_elem_of_here || apply list_elem_of_further).
Qed.

(** A fact that holds of the ten digits holds of every digit. *)
Lemma digit_property (P : ascii -> bool) (c : ascii) :
  forallb P digit_chars = true -> Py.is_digit c = true -> P c = true.
Proof.
  intros HP Hc%is_digit_cases. rewrite forallb_forall in HP.
  apply HP. now apply list_elem_of_In.
Qed.

Lemma all_chars_app (p : ascii -> bool) (a b : string) :
  Extractor.all_chars p (a +:+ b)
  = Extractor.all_chars p a && Extractor.all_chars p b.
Proof.
  induction a as [|c a IH]; [reflexivity|].
  change (String c a +:+ b) with (String c (a +:+ b)).
  cbn [Extractor.all_chars]. now rewrite IH, andb_assoc.
Qed.

Lemma all_chars_weaken (p q : ascii -> bool) (w : string) :
  (forall c, p c = true -> q c = true) ->
  Extractor.all_chars p w = true -> Extractor.all_chars q w = true.
Proof.
  intros Hpq. induction w as [|c w IH]; [reflexivity|].
  cbn [Extractor.all_chars]. intros [Hc Hw]%andb_prop.
  now rewrite (Hpq c Hc), (IH Hw).
Qed.

Lemma all_chars_contains (p : ascii -> bool) (w : string) (c : ascii) :
  Extractor.all_chars p w = true -> Py.contains_char c w = true -> p c = true.
Proof.
  induction w as [|c' w IH]; [discriminate 2|].
  cbn [Extractor.all_chars Py.contains_char].
  intros [Hc Hw]%andb_prop [Heq|Hin]%orb_prop; [|now apply IH].
  apply Ascii.eqb_eq in Heq. now subst.
Qed.

Lemma append_empty (w : string) : w +:+ "" = w.
Proof.
  induction w as [|c w IH]; [reflexivity|].
  change (String c w +:+ "") with (String c (w +:+ "")). now rewrite IH.
Qed.

(** The characters of a decimal numeral: digits and the point. *)
Lemma digit_is_plain (c : ascii) :
  Py.is_digit c = true ->
  Py.is_float_space c = false /\ Ascii.eqb c "_" = false
  /\ Ascii.eqb c "-" = false /\ Ascii.eqb c "+" = false
  /\ Ascii.eqb (Py.lower c) "i" = false /\ Ascii.eqb (Py.lower c) "n" = false.
Proof.
  intros H.
  pose proof (digit_property
                (fun c => negb (Py.is_float_space c) && negb (Ascii.eqb c "_")
                          && negb (Ascii.eqb c "-") && negb (Ascii.eqb c "+")
                          && negb (Ascii.eqb (Py.lower c) "i")
                          && negb (Ascii.eqb (Py.lower c) "n"))
                c eq_refl H) as Hnot.
  repeat (apply andb_prop in Hnot as [Hnot ?%negb_true_iff]).
  apply negb_true_iff in Hnot. auto 10.
Qed.

Lemma skip_left_plain (w : string) :
  Extractor.all_chars (fun c => negb (Py.is_float_space c)) w = true ->
  Py.skip_left w = w.
Proof.
  destruct w as [|c w]; [reflexivity|].
  cbn [Extractor.all_chars Py.skip_left]. intros [Hc%negb_true_iff _]%andb_prop.
  now rewrite Hc.
Qed.

Lemma skip_right_plain (w : string) :
  Extractor.all_chars (fun c => negb (Py.is_float_space c)) w = true ->
  Py.skip_right w = w.
Proof.
  induction w as [|c w IH]; [reflexivity|].
  cbn [Extractor.all_chars Py.skip_right]. intros [Hc%negb_true_iff Hw]%andb_prop.
  rewrite (IH Hw), Hc. now destruct w.
Qed.

Lemma float_strip_plain (w : string) :
  Extractor.all_chars (fun c => negb (Py.is_float_space c)) w = true ->
  Py.float_strip w = w.
Proof.
  intros Hw. unfold Py.float_strip.
  now rewrite (skip_left_plain w Hw), (skip_right_plain w Hw).
Qed.

Lemma drop_underscores_plain (w : string) :
  Extractor.all_chars (fun c => negb (Ascii.eqb c "_")) w = true ->
  forall prev, Ascii.eqb prev "_" = false -> Py.drop_underscores prev w = Some w.
Proof.
  induction w as [|c w IH]; intros Hw prev Hprev; cbn [Py.drop_underscores].
  - now rewrite Hprev.
  - cbn [Extractor.all_chars] in Hw. apply andb_prop in Hw as [Hc%negb_true_iff Hw].
    rewrite Hc, Hprev. cbn [andb]. now rewrite (IH Hw c Hc).
Qed.

Lemma span_digits_all (w : string) :
  Extractor.all_chars Py.is_digit w = true -> Py.span_digits w = (w, "").
Proof.
  induction w as [|c w IH]; [reflexivity|]. cbn. intros [Hc Hw]%andb_prop.
  now rewrite Hc, (IH Hw).
Qed.

Lemma span_digits_point (w rest : string) :
  Extractor.all_chars Py.is_digit w = true ->
  Py.span_digits (w +:+ String "." rest) = (w, String "." rest).
Proof.
  induction w as [|c w IH]; [reflexivity|].
  change (String c w +:+ String "." rest) with (String c (w +:+ String "." rest)).
  cbn [Extractor.all_chars Py.span_digits]. intros [Hc Hw]%andb_prop.
  now rewrite Hc, (IH Hw).
Qed.

Lemma decimal_is_plain (p : ascii -> bool) (ip fp : string) :
  (forall c, Py.is_digit c = true -> p c = true) -> p "."%char = true ->
  Extractor.all_chars Py.is_digit ip = true ->
  Extractor.all_chars Py.is_digit fp = true ->
  Extractor.all_chars p (ip +:+ String "." fp) = true.
Proof.
  intros Hdigit Hpoint Hip Hfp. rewrite all_chars_app.
  cbn [Extractor.all_chars].
  now rewrite (all_chars_weaken _ p ip Hdigit Hip), Hpoint,
    (all_chars_weaken _ p fp Hdigit Hfp).
Qed.

(** [float] on an unsigned decimal numeral with a point: the binary64
    nearest to the decimal number. *)
Lemma float_of_decimal (ip fp : string) :
  ip <> "" -> Extractor.all_chars Py.is_digit ip = true ->
  Extractor.all_chars Py.is_digit fp = true ->
  Py.float_of_string (ip +:+ "." +:+ fp)
  = Some (Py.decimal_to_float false (Py.digits_val (ip +:+ fp))
            (- Z.of_nat (String.length fp))).
Proof.
  intros Hne Hip Hfp.
  change (ip +:+ "." +:+ fp) with (ip +:+ String "." fp).
  assert (Hspace : Extractor.all_chars (fun c => negb (Py.is_float_space c))
                     (ip +:+ String "." fp) = true).
  { apply decimal_is_plain; auto.
    intros c Hc. apply negb_true_iff. now apply digit_is_plain. }
  assert (Hunder : Extractor.all_chars (fun c => negb (Ascii.eqb c "_"))
                     (ip +:+ String "." fp) = true).
  { apply decimal_is_plain; auto.
    intros c Hc. apply negb_true_iff. now apply digit_is_plain. }
  unfold Py.float_of_string.
  rewrite (float_strip_plain _ Hspace), (drop_underscores_plain _ Hunder) by reflexivity.
  destruct ip as [|c ip]; [congruence|].
  pose proof Hip as Hc. cbn [Extractor.all_chars] in Hc. apply andb_prop in Hc as [Hc _].
  destruct (digit_is_plain c Hc) as (_ & _ & Hminus & Hplus & Hi & Hn).
  change (String c ip +:+ String "." fp) with (String c (ip +:+ String "." fp)).
  unfold Py.take_sign. rewrite Hminus, Hplus.
  cbn [Py.lower_str String.eqb]. rewrite Hi, Hn. cbn [orb].
  unfold Py.parse_number.
  change (String c (ip +:+ String "." fp)) with (String c ip +:+ String "." fp).
  rewrite (span_digits_point _ _ Hip), Ascii.eqb_refl, (span_digits_all _ Hfp).
  cbn [Py.truthy negb andb Py.parse_exponent]. reflexivity.
Qed.

(** [float] on a non-empty string of digits: the binary64 nearest to the
    integer. *)
Lemma float_of_integer (w : string) :
  w <> "" -> Extractor.all_chars Py.is_digit w = true ->
  Py.float_of_string w = Some (Py.decimal_to_float false (Py.digits_val w) 0).
Proof.
  intros Hne Hw.
  assert (Hspace : Extractor.all_chars (fun c => negb (Py.is_float_space c)) w = true).
  { apply (all_chars_weaken Py.is_digit); [|exact Hw].
    intros c Hc. apply negb_true_iff. now apply digit_is_plain. }
  assert (Hunder : Extractor.all_chars (fun c => negb (Ascii.eqb c "_")) w = true).
  { apply (all_chars_weaken Py.is_digit); [|exact Hw].
    intros c Hc. apply negb_true_iff. now apply digit_is_plain. }
  unfold Py.float_of_string.
  rewrite (float_strip_plain w Hspace), (drop_underscores_plain w Hunder) by reflexivity.
  destruct w as [|c w]; [congruence|].
  pose proof Hw as Hc. cbn [Extractor.all_chars] in Hc. apply andb_prop in Hc as [Hc _].
  destruct (digit_is_plain c Hc) as (_ & _ & Hminus & Hplus & Hi & Hn).
  unfold Py.take_sign. rewrite Hminus, Hplus.
  cbn [Py.lower_str String.eqb]. rewrite Hi, Hn. cbn [orb].
  unfold Py.parse_number. rewrite (span_digits_all _ Hw).
  cbn [Py.truthy negb andb Py.parse_exponent String.length Z.of_nat Z.sub].
  now rewrite append_empty.
Qed.

(** [float] accepts every non-empty string of digits. *)
Lemma float_of_digits (w : string) :
  w <> "" -> Extractor.all_chars Py.is_digit w = true ->
  exists x, Py.float w = Ok x.
Proof.
  intros Hne Hw. unfold Py.float.
  rewrite (float_of_integer w Hne Hw). now eexists.
Qed.

(** ** The texts [float] accepts *)

Lemma skip_left_chars (p : ascii -> bool) (s : string) :
  (forall c, Py.is_float_space c = true -> p c = true) ->
  Extractor.all_chars p (Py.skip_left s) = true -> Extractor.all_chars p s = true.
Proof.
  intros Hsp. induction s as [|c s IH]; [reflexivity|].
  cbn [Py.skip_left]. destruct (Py.is_float_space c) eqn:Hc; [|auto].
  intros H. cbn [Extractor.all_chars]. now rewrite (Hsp c Hc), (IH H).
Qed.

Lemma skip_right_chars (p : ascii -> bool) (s : string) :
  (forall c, Py.is_float_space c = true -> p c = true) ->
  Extractor.all_chars p (Py.skip_right s) = true -> Extractor.all_chars p s = true.
Proof.
  intros Hsp. induction s as [|c s IH]; [reflexivity|].
  cbn [Py.skip_right]. destruct (Py.skip_right s) as [|c' r].
  - destruct (Py.is_float_space c) eqn:Hc; cbn [Extractor.all_chars]; intros H.
    + now rewrite (Hsp c Hc), IH.
    + apply andb_prop in H as [-> _]. now rewrite IH.
  - cbn [Extractor.all_chars]. intros [-> H]%andb_prop. now rewrite IH.
Qed.

Lemma drop_underscores_chars (p : ascii -> bool) (s : string) :
  p "_"%char = true ->
  forall prev u, Py.drop_underscores prev s = Some u ->
    Extractor.all_chars p u = true -> Extractor.all_chars p s = true.
Proof.
  intros Hus. induction s as [|c s IH]; intros prev u; [reflexivity|].
  cbn [Py.drop_underscores]. destruct (Ascii.eqb c "_") eqn:Hc.
  - apply Ascii.eqb_eq in Hc as ->.
    destruct (Py.is_digit prev); [|discriminate].
    intros H Hu. cbn [Extractor.all_chars]. now rewrite Hus, (IH _ _ H Hu).
  - destruct (_ && _); [discriminate|].
    destruct (Py.drop_underscores c s) as [u'|] eqn:Hd; [|discriminate].
    intros [= <-]. cbn [Extractor.all_chars]. intros [-> Hu]%andb_prop.
    now rewrite (IH _ _ Hd Hu).
Qed.

Lemma take_sign_chars (p : ascii -> bool) (u : string) :
  p "-"%char = true -> p "+"%char = true ->
  Extractor.all_chars p (Py.take_sign u).2 = true -> Extractor.all_chars p u = true.
Proof.
  intros Hminus Hplus. destruct u as [|c u]; [reflexivity|].
  unfold Py.take_sign.
  destruct (Ascii.eqb c "-") eqn:H1; [apply Ascii.eqb_eq in H1 as ->|].
  { cbn [snd Extractor.all_chars]. intros ->. now rewrite Hminus. }
  destruct (Ascii.eqb c "+") eqn:H2; [apply Ascii.eqb_eq in H2 as ->|].
  { cbn [snd Extractor.all_chars]. intros ->. now rewrite Hplus. }
  auto.
Qed.

Lemma span_digits_chars (p : ascii -> bool) (s : string) :
  (forall c, Py.is_digit c = true -> p c = true) ->
  Extractor.all_chars p (Py.span_digits s).2 = true -> Extractor.all_chars p s = true.
Proof.
  intros Hdigit. induction s as [|c s IH]; [reflexivity|].
  cbn [Py.span_digits]. destruct (Py.is_digit c) eqn:Hc; [|auto].
  destruct (Py.span_digits s) as [d r]. cbn [snd] in *.
  intros H. cbn [Extractor.all_chars]. now rewrite (Hdigit c Hc), (IH H).
Qed.

(** A letter whose lower case is a letter of "inf", "infinity" or "nan". *)
Lemma lower_letter_char (c : ascii) :
  Re.any_of "infatyn" (Py.lower c) = true -> float_char c = true.
Proof.
  destruct c as [[] [] [] [] [] [] [] []]; vm_compute;
    (discriminate || (intros _; reflexivity)).
Qed.

Lemma lower_str_chars (body : string) :
  Extractor.all_chars (Re.any_of "infatyn") (Py.lower_str body) = true ->
  Extractor.all_chars float_char body = true.
Proof.
  induction body as [|c body IH]; [reflexivity|].
  cbn [Py.lower_str Extractor.all_chars]. intros [Hc H]%andb_prop.
  now rewrite (lower_letter_char c Hc), (IH H).
Qed.

Lemma digit_is_float_char (c : ascii) : Py.is_digit c = true -> float_char c = true.
Proof. intros H. unfold float_char. now rewrite H. Qed.

Lemma space_is_float_char (c : ascii) :
  Py.is_float_space c = true -> float_char c = true.
Proof. intros H. unfold float_char. rewrite H. now rewrite orb_true_r. Qed.

Lemma parse_exponent_chars (s : string) (e : Z) :
  Py.parse_exponent s = Some e -> Extractor.all_chars float_char s = true.
Proof.
  destruct s as [|c r]; [reflexivity|]. unfold Py.parse_exponent.
  destruct (Ascii.eqb c "e" || Ascii.eqb c "E") eqn:Hc; [|discriminate].
  destruct (Py.take_sign r) as [neg r1] eqn:Hsign.
  destruct (Py.span_digits r1) as [ds rest] eqn:Hspan.
  destruct rest as [|x rest]; [|now rewrite andb_false_r].
  intros _. cbn [Extractor.all_chars]. apply andb_true_intro. split.
  - apply orb_prop in Hc as [->%Ascii.eqb_eq | ->%Ascii.eqb_eq]; reflexivity.
  - apply take_sign_chars; try reflexivity. rewrite Hsign. cbn [snd].
    apply span_digits_chars; [apply digit_is_float_char|]. now rewrite Hspan.
Qed.

Lemma parse_number_chars (neg : bool) (s : string) (x : float) :
  Py.parse_number neg s = Some x -> Extractor.all_chars float_char s = true.
Proof.
  unfold Py.parse_number.
  destruct (Py.span_digits s) as [ip r1] eqn:Hip.
  assert (Hs : Extractor.all_chars float_char r1 = true ->
               Extractor.all_chars float_char s = true).
  { intros H. apply span_digits_chars; [apply digit_is_float_char|]. now rewrite Hip. }
  destruct r1 as [|c r].
  - intros _. now apply Hs.
  - destruct (Ascii.eqb c ".") eqn:Hc.
    + apply Ascii.eqb_eq in Hc as ->.
      destruct (Py.span_digits r) as [fp r2] eqn:Hfp.
      destruct (_ && _); [discriminate|].
      destruct (Py.parse_exponent r2) as [e|] eqn:He; [|discriminate].
      intros _. apply Hs. cbn [Extractor.all_chars].
      change (float_char ".") with true. cbn [andb].
      apply span_digits_chars; [apply digit_is_float_char|]. rewrite Hfp.
      now apply (parse_exponent_chars r2 e).
    + destruct (_ && _); [discriminate|].
      destruct (Py.parse_exponent (String c r)) as [e|] eqn:He; [|discriminate].
      intros _. apply Hs. now apply (parse_exponent_chars _ e).
Qed.

(** Every character of a text [float] accepts is a [float_char]. *)
Lemma float_of_string_chars (t : string) (x : float) :
  Py.float_of_string t = Some x -> Extractor.all_chars float_char t = true.
Proof.
  unfold Py.float_of_string, Py.float_strip.
  destruct (Py.drop_underscores (Py.chr 0) (Py.skip_right (Py.skip_left t)))
    as [u|] eqn:Hu; [|discriminate].
  intros H.
  apply skip_left_chars; [apply space_is_float_char|].
  apply skip_right_chars; [apply space_is_float_char|].
  apply (drop_underscores_chars float_char _ eq_refl _ _ Hu).
  apply take_sign_chars; try reflexivity.
  destruct (Py.take_sign u) as [neg body]. cbn [snd].
  destruct (String.eqb (Py.lower_str body) "inf") eqn:H1.
  { apply lower_str_chars. apply String.eqb_eq in H1. now rewrite H1. }
  destruct (String.eqb (Py.lower_str body) "infinity") eqn:H2.
  { apply lower_str_chars. apply String.eqb_eq in H2. now rewrite H2. }
  destruct (String.eqb (Py.lower_str body) "nan") eqn:H3.
  { apply lower_str_chars. apply String.eqb_eq in H3. now rewrite H3. }
  cbn [orb] in H. now apply (parse_number_chars neg body x).
Qed.

(** ** The matcher *)

(** A successful greedy repetition took a run [w] of the class and
    handed the rest to its continuation. *)
Lemma rep_inv {R} (p : ascii -> bool) (lo : nat) (hi : option nat) (s : string) :
  forall (cnt pos : nat) (k : string -> nat -> option R) (x : R),
    Re.rep p lo hi cnt s pos k = Some x ->
    exists w s',
      s = w +:+ s'
      /\ Extractor.all_chars p w = true
      /\ (lo <= cnt + String.length w)%nat
      /\ k s' (pos + String.length w)%nat = Some x.
Proof.
  induction s as [|c s IH]; intros cnt pos k x H; cbn [Re.rep] in H.
  - destruct (lo <=? cnt)%nat eqn:Hlo; [|discriminate H].
    exists "", "". apply Nat.leb_le in Hlo. cbn.
    rewrite !Nat.add_0_r. auto.
  - assert (Hstop : (if (lo <=? cnt)%nat then k (String c s) pos else None) = Some x ->
              exists w s', String c s = w +:+ s'
                /\ Extractor.all_chars p w = true
                /\ (lo <= cnt + String.length w)%nat
                /\ k s' (pos + String.length w)%nat = Some x).
    { intros Hk. destruct (lo <=? cnt)%nat eqn:Hlo; [|discriminate Hk].
      exists "", (String c s). apply Nat.leb_le in Hlo. cbn.
      rewrite !Nat.add_0_r. auto. }
    destruct (Re.below hi cnt && p c) eqn:Htake; [|now apply Hstop].
    destruct (Re.rep p lo hi (S cnt) s (S pos) k) as [y|] eqn:Hrec; [|now apply Hstop].
    injection H as ->. apply IH in Hrec as (w & s' & -> & Hw & Hlo & Hk).
    apply andb_prop in Htake as [_ Hc].
    exists (String c w), s'. cbn. rewrite Hc, Hw.
    rewrite <- !Nat.add_succ_comm in *. auto.
Qed.

Lemma substring_prefix (w s : string) :
  String.substring 0 (String.length w) (w +:+ s) = w.
Proof.
  induction w as [|c w IH].
  - now destruct s.
  - change (String c w +:+ s) with (String c (w +:+ s)). cbn. now rewrite IH.
Qed.

Lemma search_inv (ic : bool) (r : Re.regex) (s : string) (m : Re.rmatch) :
  Re.search ic r s = Some m ->
  exists pre s', s = pre +:+ s' /\ Re.match_at ic r s' = Some m.
Proof.
  induction s as [|c s IH]; cbn [Re.search]; intros H.
  - destruct (Re.match_at ic r "") eqn:Hm; [|discriminate H].
    injection H as ->. now exists "", "".
  - destruct (Re.match_at ic r (String c s)) eqn:Hm.
    + injection H as ->. now exists "", (String c s).
    + apply IH in H as (pre & s' & -> & H). now exists (String c pre), s'.
Qed.

(** Group 1 of a match of the quantity pattern is a non-empty string of
    digits. *)
Lemma quantity_group_digits (line : string) (qm : Re.rmatch) :
  Re.search false Extractor.quantity_pattern line = Some qm ->
  Re.group qm <> "" /\ Extractor.all_chars Py.is_digit (Re.group qm) = true.
Proof.
  intros (pre & s & _ & H)%search_inv.
  unfold Re.match_at, Extractor.quantity_pattern in H.
  cbn [Re.seq fold_right Re.exec Re.plus Re.lit] in H.
  apply rep_inv in H as (w & s1 & -> & Hw & Hlen & H).
  apply rep_inv in H as (sp & s2 & -> & _ & _ & H).
  destruct s2 as [|v s2]; [discriminate H|].
  destruct (Re.chr_eq false "V" v); [|discriminate H].
  destruct s2 as [|e s2]; [discriminate H|].
  destruct (Re.chr_eq false "E" e); [|discriminate H].
  injection H as <-. unfold Re.group. cbn [Re.group1 default].
  unfold id. rewrite Nat.sub_0_r, substring_prefix.
  split; [|exact Hw]. destruct w; [cbn in Hlen; lia|discriminate].
Qed.

(** ** European numbers: [_parse_german_number] *)

Lemma replace_dot_then_comma (value : string) :
  Py.replace "," "." (Py.replace "." "" value) = normalized value.
Proof.
  induction value as [|c value IH]; [reflexivity|].
  cbn [Py.replace normalized]. unfold normalized_char.
  destruct (Ascii.eqb c ".") eqn:Hdot.
  - exact IH.
  - cbn [Py.replace]. destruct (Ascii.eqb c ","); cbn; now rewrite IH.
Qed.

Lemma float_raises_only_ValueError (t : string) (e : exn) :
  Py.float t = Raise e -> e = ValueError.
Proof.
  unfold Py.float. destruct (Py.float_of_string t); congruence.
Qed.

Lemma parse_german_number_eq (value : string) :
  Extractor._parse_german_number value =
  Ok (if Py.truthy value
      then default 0%float (Py.float_of_string (normalized value))
      else 0%float).
Proof.
  unfold Extractor._parse_german_number.
  destruct (Py.truthy value); [|reflexivity].
  cbn [negb]. rewrite replace_dot_then_comma.
  unfold Py.float. now destruct (Py.float_of_string (normalized value)).
Qed.

(** C9. For every input string [_parse_german_number] returns a float and
    raises nothing: 0.0 on the empty string; otherwise every "." is
    removed and then every "," becomes "." ([normalized]), and the result
    is what [float] parses from that text, or 0.0 when [float] raises.
    The number returned is fixed on both sides: when the cleaned text is
    a decimal numeral (digits, a point, digits) or a string of digits,
    the result is the binary64 nearest to that decimal number; when the
    cleaned text holds a character that no text accepted by [float] has,
    the result is 0.0. *)
Theorem C9_parse_german_number_total (value : string) :
  exists x : float,
    Extractor._parse_german_number value = Ok x
    /\ Py.replace "," "." (Py.replace "." "" value) = normalized value
    /\ (value = "" -> x = 0%float)
    /\ (value <> "" ->
        match Py.float (normalized value) with
        | Ok y => x = y
        | Raise _ => x = 0%float
        end)
    /\ (forall ip fp,
          normalized value = ip +:+ "." +:+ fp -> ip <> "" ->
          Validator.digits_only ip = true -> Validator.digits_only fp = true ->
          x = Py.decimal_to_float false (Py.digits_val (ip +:+ fp))
                (- Z.of_nat (String.length fp)))
    /\ (normalized value <> "" -> Validator.digits_only (normalized value) = true ->
        x = Py.decimal_to_float false (Py.digits_val (normalized value)) 0)
    /\ (forall c, Py.contains_char c (normalized value) = true ->
          float_char c = false -> x = 0%float).
Proof.
  rewrite parse_german_number_eq. eexists. split; [reflexivity|].
  split; [apply replace_dot_then_comma|]. split; [intros ->; reflexivity|].
  destruct value as [|c0 value].
  { split; [intros Hne; now contradiction Hne|].
    split; [|split; [intros Hne; now contradiction Hne|reflexivity]].
    intros ip fp Heq Hne. destruct ip; [now contradiction Hne|discriminate Heq]. }
  cbn [Py.truthy]. set (t := normalized (String c0 value)).
  split; [|split; [|split]].
  - intros _. unfold Py.float. now destruct (Py.float_of_string t).
  - intros ip fp -> Hne Hip Hfp. now rewrite (float_of_decimal ip fp Hne Hip Hfp).
  - intros Hne Ht. now rewrite (float_of_integer t Hne Ht).
  - intros c Hin Hc. destruct (Py.float_of_string t) as [y|] eqn:Hy; [|reflexivity].
    apply float_of_string_chars in Hy.
    rewrite (all_chars_contains _ _ _ Hy Hin) in Hc. discriminate Hc.
Qed.

(** The normalizer at "1.234,56", "64,00" and "12", at two tokens that do
    not parse (a letter; the separator FS, which [str.strip] would remove
    and [float] rejects), and at the empty string. *)
Lemma C9_parse_german_number_witness :
  Extractor._parse_german_number "1.234,56" = Ok 1234.56%float
  /\ Extractor._parse_german_number "64,00" = Ok 64%float
  /\ Extractor._parse_german_number "12" = Ok 12%float
  /\ Extractor._parse_german_number "12x" = Ok 0%float
  /\ Extractor._parse_german_number (String (Py.chr 28) "5") = Ok 0%float
  /\ Extractor._parse_german_number "" = Ok 0%float.
Proof.
  split; [|split; [|split; [|split; [|split]]]].
  - destruct (C9_parse_german_number_total "1.234,56")
      as (x & -> & _ & _ & _ & Hdec & _).
    f_equal. rewrite (Hdec "1234" "56"); [vm_compute|..]; (reflexivity || discriminate).
  - destruct (C9_parse_german_number_total "64,00")
      as (x & -> & _ & _ & _ & Hdec & _).
    f_equal. rewrite (Hdec "64" "00"); [vm_compute|..]; (reflexivity || discriminate).
  - destruct (C9_parse_german_number_total "12")
      as (x & -> & _ & _ & _ & _ & Hint & _).
    f_equal. rewrite Hint; [vm_compute|..]; (reflexivity || discriminate).
  - destruct (C9_parse_german_number_total "12x")
      as (x & -> & _ & _ & _ & _ & _ & Hbad).
    f_equal. apply (Hbad "x"%char); reflexivity.
  - destruct (C9_parse_german_number_total (String (Py.chr 28) "5"))
      as (x & -> & _ & _ & _ & _ & _ & Hbad).
    f_equal. apply (Hbad (Py.chr 28)); reflexivity.
  - destruct (C9_parse_german_number_total "") as (x & -> & _ & Hempty & _).
    f_equal. now apply Hempty.
Defined.

(** ** The rule engine *)

Section ValidateInvoice.
Import Validator.
Variable self : InvoiceValidator.
Variable invoice : Invoice.

Lemma validate_invoice_errors :
  errors (validate_invoice self invoice).1 =
  _check_completeness invoice ++ _check_formats invoice
  ++ _check_business_rules invoice ++ (_check_anomalies self invoice).1.
Proof.
  unfold validate_invoice.
  destruct (_check_anomalies self invoice) as [anomalies self'].
  cbn. now rewrite <- !app_assoc.
Qed.

Lemma validate_invoice_state :
  (validate_invoice self invoice).2 = (_check_anomalies self invoice).2.
Proof.
  unfold validate_invoice.
  now destruct (_check_anomalies self invoice) as [anomalies self'].
Qed.

Lemma validate_invoice_is_valid :
  is_valid (validate_invoice self invoice).1 =
  (length (errors (validate_invoice self invoice).1) =? 0)%nat.
Proof.
  unfold validate_invoice.
  now destruct (_check_anomalies self invoice) as [anomalies self'].
Qed.

Lemma validate_invoice_id :
  invoice_id (validate_invoice self invoice).1 =
  match invoice_number invoice with
  | Some n => if Py.truthy n then n else "UNKNOWN"
  | None => "UNKNOWN"
  end.
Proof.
  unfold validate_invoice.
  now destruct (_check_anomalies self invoice) as [anomalies self'].
Qed.
End ValidateInvoice.

(** C10. An invoice whose [invoice_number] is the empty string, like one
    whose [invoice_number] is [None], gets the [invoice_id] "UNKNOWN". *)
Theorem C10_empty_invoice_number_is_unknown
    (self : Validator.InvoiceValidator) (invoice : Invoice) :
  invoice_number invoice = Some "" \/ invoice_number invoice = None ->
  invoice_id (Validator.validate_invoice self invoice).1 = "UNKNOWN".
Proof.
  intros H. rewrite validate_invoice_id. now destruct H as [-> | ->].
Qed.

Lemma C10_empty_invoice_number_witness :
  invoice_id
    (Validator.validate_invoice Validator.InvoiceValidator_init
       (sample_invoice (Some "") (Some "ABC Ltd") (Some "2024-01-10") (Some "EUR")
          None None None)).1 = "UNKNOWN".
Proof.
  apply C10_empty_invoice_number_is_unknown. left. reflexivity.
Defined.

(** C1. The result of [validate_invoice] has [is_valid] true exactly when
    its error list is empty. The two findings of severity "warning" (the
    currency outside the known set, the gross total equal to zero) are
    entries of that same list, so each of them makes the invoice invalid,
    and so does any non-empty list made of warnings only. *)
Theorem C1_valid_iff_no_errors
    (self : Validator.InvoiceValidator) (invoice : Invoice) :
  let r := (Validator.validate_invoice self invoice).1 in
  (is_valid r = true <-> errors r = [])
  /\ (forall c, currency invoice = Some c -> c <> "" ->
        c ∉ Validator.KNOWN_CURRENCIES ->
        Validator.currency_warning c ∈ errors r
        /\ severity (Validator.currency_warning c) = "warning"
        /\ is_valid r = false)
  /\ (forall g, gross_total invoice = Some g -> PrimFloat.eqb g 0 = true ->
        Validator.zero_total_warning ∈ errors r
        /\ severity Validator.zero_total_warning = "warning"
        /\ is_valid r = false)
  /\ (errors r <> [] -> Forall (fun e => severity e = "warning") (errors r) ->
        is_valid r = false).
Proof.
  intros r.
  assert (Hiff : is_valid r = true <-> errors r = []).
  { subst r. rewrite validate_invoice_is_valid.
    destruct (errors _) as [|e es]; cbn; split; congruence. }
  assert (Hin : forall e, e ∈ errors r -> is_valid r = false).
  { intros e He. apply not_true_is_false. intros Hv.
    apply Hiff in Hv. rewrite Hv in He. now apply elem_of_nil in He. }
  split; [exact Hiff|]. split; [|split].
  - intros c Hc Hne Hknown.
    assert (He : Validator.currency_warning c ∈ errors r).
    { subst r. rewrite validate_invoice_errors.
      apply elem_of_app. right. apply elem_of_app. left.
      unfold Validator._check_formats. rewrite Hc.
      do 3 (apply elem_of_app; right). apply elem_of_app. left.
      destruct c as [|a c]; [congruence|]. cbn [Py.truthy andb].
      rewrite bool_decide_eq_false_2 by exact Hknown. cbn. apply list_elem_of_here. }
    eauto.
  - intros g Hg Hz.
    assert (He : Validator.zero_total_warning ∈ errors r).
    { subst r. rewrite validate_invoice_errors.
      do 3 (apply elem_of_app; right).
      unfold Validator._check_anomalies. rewrite Hg, Hz.
      destruct (Validator.invoice_key invoice) as [key|];
        [destruct (bool_decide _)|]; cbn;
        repeat (apply list_elem_of_here || apply list_elem_of_further). }
    eauto.
  - intros Hne _. apply not_true_is_false. intros Hv. now apply Hiff in Hv.
Qed.

(** A complete invoice whose one finding is the currency warning. *)
Lemma C1_valid_iff_no_errors_witness :
  let invoice :=
    sample_invoice (Some "INV-1") (Some "ABC Ltd") (Some "2024-01-10") (Some "XYZ")
      (Some 100%float) (Some 19%float) (Some 119%float) in
  let r := (Validator.validate_invoice Validator.InvoiceValidator_init invoice).1 in
  errors r = [Validator.currency_warning "XYZ"] /\ is_valid r = false.
Proof.
  intros invoice r. split; [vm_compute; reflexivity|].
  apply (C1_valid_iff_no_errors Validator.InvoiceValidator_init invoice).
  - vm_compute. discriminate.
  - vm_compute. repeat constructor.
Defined.

(** ** Rule 9: the tax check *)

(** C5 fails on the code. The amounts 64,00 + 12,16 and 76,18 are two
    cents apart, which does not exceed the tolerance of 0.02 (the code's
    own comment reads "Allow 2 cent rounding difference"); yet on the
    floats extraction reads from these texts the rule computes
    [abs((net + tax) - gross)] as 0.020000000000010232 in binary64 and
    emits the tax-mismatch error, of severity "error". On 0.1 + 0.2
    against 0.28 the rule reports as well, although the difference does
    not exceed 0.02 either as decimal numbers or on the exact values of
    the three floats. On the two scenarios of the claim the code does
    what the claim says. *)
Theorem C5_two_cents_apart_is_flagged :
  Extractor._parse_german_number "64,00" = Ok 64%float
  /\ Extractor._parse_german_number "12,16" = Ok 12.16%float
  /\ Extractor._parse_german_number "76,18" = Ok 76.18%float
  /\ ~ exceeds_tolerance (6400 # 100) (1216 # 100) (7618 # 100)
  /\ (abs (64 + 12.16 - 76.18) = 0.020000000000010232)%float
  /\ Validator.check_tax (totals 64 12.16 76.18)
     = [Validator.tax_mismatch_error 64 12.16 76.18]
  /\ Validator._check_business_rules (totals 64 12.16 76.18)
     = [Validator.tax_mismatch_error 64 12.16 76.18]
  /\ severity (Validator.tax_mismatch_error 64 12.16 76.18) = "error"
  /\ ~ exceeds_tolerance (1 # 10) (2 # 10) (28 # 100)
  /\ ~ exceeds_tolerance (exact 0.1) (exact 0.2) (exact 0.28)
  /\ (abs (0.1 + 0.2 - 0.28) = 0.020000000000000018)%float
  /\ Validator._check_business_rules (totals 0.1 0.2 0.28)
     = [Validator.tax_mismatch_error 0.1 0.2 0.28]
  /\ ~ exceeds_tolerance (100 # 1) (19 # 1) (11902 # 100)
  /\ Validator._check_business_rules (totals 100 19 119.02) = []
  /\ exceeds_tolerance (100 # 1) (19 # 1) (11910 # 100)
  /\ Validator._check_business_rules (totals 100 19 119.10)
     = [Validator.tax_mismatch_error 100 19 119.10].
Proof.
  repeat match goal with
         | |- _ /\ _ => split
         | |- ~ exceeds_tolerance _ _ _ =>
             let H := fresh in intros H; vm_compute in H; discriminate H
         | |- _ => vm_compute; reflexivity
         end.
Qed.

(** ** The batch loop *)

Lemma missing_error_word (field : string) (e : ValidationError) (b : bool) :
  e ∈ (if b then [Validator.missing_error field] else []) ->
  rule e = "completeness" /\ severity e = "error"
  /\ message e = [Text (field +:+ " is missing or empty")].
Proof. destruct b; [|no_error]. intros H. this_error H. now cbn. Qed.

Lemma completeness_errors (invoice : Invoice) (e : ValidationError) :
  e ∈ Validator._check_completeness invoice ->
  rule e = "completeness" /\ has_first_word e.
Proof.
  unfold Validator._check_completeness. intros H. split_errors H;
    apply missing_error_word in H as (Hr & _ & Hm);
    (split; [exact Hr|]); unfold has_first_word; rewrite Hm;
    eexists; vm_compute; reflexivity.
Qed.

Lemma check_date_field_errors (field : string) (v : option string) (e : ValidationError) :
  e ∈ Validator.check_date_field field v ->
  exists t, e = Validator.date_format_error field t.
Proof.
  unfold Validator.check_date_field. destruct v as [t|]; [|no_error].
  destruct (_ && _); [|no_error]. destruct (negb _); [|no_error].
  intros H. this_error H. now exists t.
Qed.

Lemma check_amount_field_errors (field : string) (v : option float) (e : ValidationError) :
  e ∈ Validator.check_amount_field field v ->
  exists x, e = Validator.negative_error field x.
Proof.
  unfold Validator.check_amount_field. destruct v as [x|]; [|no_error].
  destruct (PrimFloat.ltb _ _); [|no_error].
  intros H. this_error H. now exists x.
Qed.

Lemma formats_errors (invoice : Invoice) (e : ValidationError) :
  e ∈ Validator._check_formats invoice ->
  rule e = "format" /\ has_first_word e.
Proof.
  unfold Validator._check_formats. intros H. split_errors H.
  - apply check_date_field_errors in H as [t ->]. split; [reflexivity|].
    eexists. cbn. reflexivity.
  - apply check_date_field_errors in H as [t ->]. split; [reflexivity|].
    eexists. cbn. reflexivity.
  - apply check_date_field_errors in H as [t ->]. split; [reflexivity|].
    eexists. cbn. reflexivity.
  - destruct (currency invoice) as [c|]; [|now apply elem_of_nil in H].
    destruct (_ && _); [|now apply elem_of_nil in H]. this_error H.
    split; [reflexivity|]. eexists. cbn. reflexivity.
  - apply check_amount_field_errors in H as [x ->]. split; [reflexivity|].
    eexists. cbn. reflexivity.
  - apply check_amount_field_errors in H as [x ->]. split; [reflexivity|].
    eexists. cbn. reflexivity.
  - apply check_amount_field_errors in H as [x ->]. split; [reflexivity|].
    eexists. cbn. reflexivity.
Qed.

Lemma business_errors (invoice : Invoice) (e : ValidationError) :
  e ∈ Validator._check_business_rules invoice ->
  rule e = "business_rule" /\ has_first_word e.
Proof.
  unfold Validator._check_business_rules. intros H. split_errors H.
  - unfold Validator.check_line_sum in H.
    destruct (line_items invoice); [now apply elem_of_nil in H|].
    destruct (net_total invoice); [|now apply elem_of_nil in H].
    destruct (PrimFloat.ltb _ _); [|now apply elem_of_nil in H].
    this_error H. split; [reflexivity|]. eexists. cbn. reflexivity.
  - unfold Validator.check_tax in H.
    destruct (net_total invoice); [|now apply elem_of_nil in H].
    destruct (tax_amount invoice); [|now apply elem_of_nil in H].
    destruct (gross_total invoice); [|now apply elem_of_nil in H].
    destruct (PrimFloat.ltb _ _); [|now apply elem_of_nil in H].
    this_error H. split; [reflexivity|]. eexists. cbn. reflexivity.
  - unfold Validator.check_due_date in H.
    destruct (invoice_date invoice) as [inv|]; [|now apply elem_of_nil in H].
    destruct (due_date invoice) as [due|]; [|now apply elem_of_nil in H].
    destruct (_ && _); [|now apply elem_of_nil in H].
    destruct (Validator.fromisoformat inv); [|now apply elem_of_nil in H].
    destruct (Validator.fromisoformat due); [|now apply elem_of_nil in H].
    cbn in H. destruct (Validator.date_lt _ _); [|now apply elem_of_nil in H].
    this_error H. split; [reflexivity|]. eexists. cbn. reflexivity.
Qed.

(** What [_check_anomalies] returns, by cases on the key. *)
Lemma check_anomalies_eq (self : Validator.InvoiceValidator) (invoice : Invoice) :
  Validator._check_anomalies self invoice =
  let zero :=
    match gross_total invoice with
    | Some g => if PrimFloat.eqb g 0 then [Validator.zero_total_warning] else []
    | None => []
    end in
  match Validator.invoice_key invoice with
  | Some key =>
      if bool_decide (key ∈ Validator.seen_invoices self)
      then (Validator.duplicate_error (default "" (invoice_number invoice)) :: zero, self)
      else (zero, {| Validator.seen_invoices := Validator.seen_invoices self ∪ {[key]} |})
  | None => (zero, self)
  end.
Proof.
  unfold Validator._check_anomalies.
  destruct (Validator.invoice_key invoice) as [key|];
    [destruct (bool_decide _)|]; reflexivity.
Qed.

Lemma zero_warning_errors (o : option float) (e : ValidationError) :
  e ∈ match o with
      | Some g => if PrimFloat.eqb g 0 then [Validator.zero_total_warning] else []
      | None => []
      end ->
  e = Validator.zero_total_warning.
Proof.
  destruct o as [g|]; [|no_error]. destruct (PrimFloat.eqb g 0); [|no_error].
  intros H. now this_error H.
Qed.

Lemma anomalies_errors (self : Validator.InvoiceValidator) (invoice : Invoice)
    (e : ValidationError) :
  e ∈ (Validator._check_anomalies self invoice).1 ->
  (rule e = "duplicate" \/ rule e = "anomaly") /\ has_first_word e.
Proof.
  rewrite check_anomalies_eq. cbv zeta.
  destruct (Validator.invoice_key invoice) as [key|];
    [destruct (bool_decide _)|]; cbn [fst].
  - intros [->|H]%elem_of_cons.
    + split; [now left|]. eexists. cbn. reflexivity.
    + apply zero_warning_errors in H as ->. split; [now right|].
      eexists. vm_compute. reflexivity.
  - intros H. apply zero_warning_errors in H as ->. split; [now right|].
    eexists. vm_compute. reflexivity.
  - intros H. apply zero_warning_errors in H as ->. split; [now right|].
    eexists. vm_compute. reflexivity.
Qed.

Lemma validate_invoice_error_cases (self : Validator.InvoiceValidator)
    (invoice : Invoice) (e : ValidationError) :
  e ∈ errors (Validator.validate_invoice self invoice).1 ->
  e ∈ Validator._check_completeness invoice
  \/ e ∈ Validator._check_formats invoice
  \/ e ∈ Validator._check_business_rules invoice
  \/ e ∈ (Validator._check_anomalies self invoice).1.
Proof. rewrite validate_invoice_errors, !elem_of_app. tauto. Qed.

Lemma validate_invoice_words (self : Validator.InvoiceValidator) (invoice : Invoice) :
  Forall has_first_word (errors (Validator.validate_invoice self invoice).1).
Proof.
  apply Forall_forall. intros e H.
  apply validate_invoice_error_cases in H as [H|[H|[H|H]]].
  - now apply completeness_errors in H.
  - now apply formats_errors in H.
  - now apply business_errors in H.
  - now apply anomalies_errors in H.
Qed.

Lemma count_errors_ok (errs : list ValidationError) (counts : gmap string nat) :
  Forall has_first_word errs ->
  exists counts', Validator.count_errors errs counts = Ok counts'.
Proof.
  intros H. revert counts. induction H as [|e errs [word Hw] _ IH]; intros counts.
  - now exists counts.
  - cbn [Validator.count_errors]. rewrite Hw. cbn [rbind]. apply IH.
Qed.

Lemma validate_all_ok (invoices : list Invoice) :
  forall self results counts,
  exists counts',
    Validator.validate_all self invoices results counts
    = Ok (results ++ run_results self invoices, counts', run_state self invoices).
Proof.
  induction invoices as [|invoice invoices IH]; intros self results counts.
  - exists counts. cbn. now rewrite app_nil_r.
  - cbn [Validator.validate_all run_results run_state].
    pose proof (validate_invoice_words self invoice) as Hw.
    destruct (Validator.validate_invoice self invoice) as [r self'].
    cbn [fst snd] in *.
    destruct (count_errors_ok _ counts Hw) as [counts1 ->]. cbn [rbind].
    destruct (IH self' (results ++ [r]) counts1) as [counts' ->].
    exists counts'. now rewrite <- app_assoc.
Qed.

Lemma validate_batch_ok (self : Validator.InvoiceValidator) (now : string)
    (invoices : list Invoice) :
  exists report,
    Validator.validate_batch self now invoices
    = Ok (report, run_state Validator.InvoiceValidator_init invoices)
    /\ results report = run_results Validator.InvoiceValidator_init invoices
    /\ timestamp report = now
    /\ total_invoices (summary report) = length invoices.
Proof.
  unfold Validator.validate_batch.
  destruct (validate_all_ok invoices {| Validator.seen_invoices := ∅ |} [] ∅)
    as [counts' ->].
  cbn [rbind app]. eexists. split; [reflexivity|]. now cbn.
Qed.

Lemma validate_batch_forgets_state (self : Validator.InvoiceValidator) (now : string)
    (invoices : list Invoice) :
  Validator.validate_batch self now invoices
  = Validator.validate_batch Validator.InvoiceValidator_init now invoices.
Proof. reflexivity. Qed.

Lemma run_results_length (invoices : list Invoice) :
  forall self, length (run_results self invoices) = length invoices.
Proof.
  induction invoices as [|invoice invoices IH]; intros self; cbn; [|rewrite IH]; reflexivity.
Qed.

(** One step of the duplicate check. *)
Lemma validate_invoice_duplicate (st : Validator.InvoiceValidator) (invoice : Invoice)
    (key : string) :
  Validator.invoice_key invoice = Some key ->
  (key ∉ Validator.seen_invoices st ->
     ~ has_duplicate (Validator.validate_invoice st invoice).1
     /\ Validator.seen_invoices (Validator.validate_invoice st invoice).2
        = Validator.seen_invoices st ∪ {[key]})
  /\ (key ∈ Validator.seen_invoices st ->
        Validator.duplicate_error (default "" (invoice_number invoice))
          ∈ errors (Validator.validate_invoice st invoice).1
        /\ (Validator.validate_invoice st invoice).2 = st).
Proof.
  intros Hkey. rewrite validate_invoice_state. split; intros Hseen.
  - split.
    + intros (e & He & Hrule).
      apply validate_invoice_error_cases in He as [He|[He|[He|He]]].
      * apply completeness_errors in He as [Hr _]. congruence.
      * apply formats_errors in He as [Hr _]. congruence.
      * apply business_errors in He as [Hr _]. congruence.
      * rewrite check_anomalies_eq, Hkey in He. cbv zeta in He.
        rewrite bool_decide_eq_false_2 in He by exact Hseen. cbn [fst] in He.
        apply zero_warning_errors in He as ->. discriminate Hrule.
    + rewrite check_anomalies_eq, Hkey. cbv zeta.
      now rewrite bool_decide_eq_false_2 by exact Hseen.
  - rewrite validate_invoice_errors, check_anomalies_eq, Hkey. cbv zeta.
    rewrite bool_decide_eq_true_2 by exact Hseen. cbn [fst snd].
    split; [|reflexivity]. rewrite !elem_of_app. do 3 right. apply list_elem_of_here.
Qed.

Lemma validate_invoice_no_key (st : Validator.InvoiceValidator) (invoice : Invoice) :
  Validator.invoice_key invoice = None ->
  (Validator.validate_invoice st invoice).2 = st.
Proof.
  intros Hkey. rewrite validate_invoice_state, check_anomalies_eq, Hkey. reflexivity.
Qed.

Lemma duplicate_is_error (st : Validator.InvoiceValidator) (invoice : Invoice)
    (e : ValidationError) :
  e ∈ errors (Validator.validate_invoice st invoice).1 -> rule e = "duplicate" ->
  e = Validator.duplicate_error (default "" (invoice_number invoice))
  /\ severity e = "error".
Proof.
  intros He Hrule. apply validate_invoice_error_cases in He as [He|[He|[He|He]]].
  - apply completeness_errors in He as [Hr _]. congruence.
  - apply formats_errors in He as [Hr _]. congruence.
  - apply business_errors in He as [Hr _]. congruence.
  - rewrite check_anomalies_eq in He. cbv zeta in He.
    destruct (Validator.invoice_key invoice) as [key|];
      [destruct (bool_decide _)|]; cbn [fst] in He.
    + apply elem_of_cons in He as [->|He]; [now split|].
      apply zero_warning_errors in He as ->. discriminate Hrule.
    + apply zero_warning_errors in He as ->. discriminate Hrule.
    + apply zero_warning_errors in He as ->. discriminate Hrule.
Qed.

Lemma run_state_seen (invoices : list Invoice) :
  forall st,
    Validator.seen_invoices (run_state st invoices)
    = Validator.seen_invoices st ∪ batch_keys invoices.
Proof.
  unfold batch_keys.
  induction invoices as [|invoice invoices IH]; intros st; cbn [run_state omap list_omap].
  - cbn. set_solver.
  - rewrite IH. destruct (Validator.invoice_key invoice) as [key|] eqn:Hkey.
    + destruct (validate_invoice_duplicate st invoice key Hkey) as [Hnew Hold].
      destruct (decide (key ∈ Validator.seen_invoices st)) as [Hin|Hnin].
      * destruct (Hold Hin) as [_ ->]. cbn. set_solver.
      * destruct (Hnew Hnin) as [_ ->]. cbn. set_solver.
    + rewrite (validate_invoice_no_key st invoice Hkey). reflexivity.
Qed.

(** The duplicate error at index [j] of a run started in state [st]. *)
Lemma run_results_duplicate (invoices : list Invoice) :
  forall st j invoice key,
    invoices !! j = Some invoice ->
    Validator.invoice_key invoice = Some key ->
    exists r,
      run_results st invoices !! j = Some r
      /\ (has_duplicate r <->
          key ∈ Validator.seen_invoices st
          \/ exists i earlier, (i < j)%nat /\ invoices !! i = Some earlier
               /\ Validator.invoice_key earlier = Some key)
      /\ (forall e, e ∈ errors r -> rule e = "duplicate" -> severity e = "error").
Proof.
  induction invoices as [|first invoices IH]; intros st j invoice key Hj Hkey.
  - discriminate Hj.
  - destruct j as [|j]; cbn [run_results].
    + injection Hj as ->. eexists. split; [reflexivity|]. split.
      * destruct (validate_invoice_duplicate st invoice key Hkey) as [Hnew Hold].
        split.
        -- intros Hdup. left.
           destruct (decide (key ∈ Validator.seen_invoices st)) as [Hin|Hnin]; [exact Hin|].
           now destruct (Hnew Hnin) as [Hno _].
        -- intros [Hin | (i & earlier & Hlt & _)]; [|lia].
           destruct (Hold Hin) as [He _]. eexists. split; [exact He|reflexivity].
      * intros e He Hrule. now apply duplicate_is_error in He as [_ Hs].
    + cbn in Hj.
      destruct (IH (Validator.validate_invoice st first).2 j invoice key Hj Hkey)
        as (r & Hr & Hiff & Hsev).
      exists r. split; [exact Hr|]. split; [|exact Hsev].
      rewrite Hiff. clear Hiff Hsev Hr IH.
      assert (Hstate :
        key ∈ Validator.seen_invoices (Validator.validate_invoice st first).2 <->
        key ∈ Validator.seen_invoices st \/ Validator.invoice_key first = Some key).
      { destruct (Validator.invoice_key first) as [k|] eqn:Hk.
        - destruct (validate_invoice_duplicate st first k Hk) as [Hnew Hold].
          destruct (decide (k ∈ Validator.seen_invoices st)) as [Hin|Hnin].
          + destruct (Hold Hin) as [_ ->]. split; [now left|].
            intros [H|H]; [exact H|]. now injection H as <-.
          + destruct (Hnew Hnin) as [_ ->]. rewrite elem_of_union, elem_of_singleton.
            split; (intros [H|H]; [now left|right]); congruence.
        - rewrite (validate_invoice_no_key st first Hk). split; [now left|].
          now intros [H|H]. }
      rewrite Hstate. split.
      * intros [[Hin|Hfirst] | (i & earlier & Hlt & Hi & Hk)].
        -- now left.
        -- right. exists 0%nat, first. split; [lia|]. now split.
        -- right. exists (S i), earlier. split; [lia|]. now split.
      * intros [Hin | (i & earlier & Hlt & Hi & Hk)]; [now left; left|].
        destruct i as [|i].
        -- cbn in Hi. injection Hi as ->. left. now right.
        -- right. exists i, earlier. split; [lia|]. now split.
Qed.

(** C2. Within one call to [validate_batch], whatever keys the validator
    held before the call: the call returns a report with one result per
    invoice; an invoice whose three key fields are present (not [None]
    and not empty, as the code tests them) carries a duplicate error
    exactly when an earlier invoice of the same batch has the same
    composite key, and that error has severity "error"; after the call
    the seen set holds exactly the keys of the batch. At each step, a key
    not yet seen is inserted without a duplicate error, and a key already
    seen gives the duplicate error and leaves the validator unchanged. *)
Theorem C2_duplicates_within_batch
    (self : Validator.InvoiceValidator) (now : string) (invoices : list Invoice) :
  exists report self',
    Validator.validate_batch self now invoices = Ok (report, self')
    /\ Validator.validate_batch Validator.InvoiceValidator_init now invoices
       = Ok (report, self')
    /\ length (results report) = length invoices
    /\ Validator.seen_invoices self' = batch_keys invoices
    /\ (forall j invoice key,
          invoices !! j = Some invoice ->
          Validator.invoice_key invoice = Some key ->
          exists r,
            results report !! j = Some r
            /\ (has_duplicate r <->
                exists i earlier, (i < j)%nat /\ invoices !! i = Some earlier
                  /\ Validator.invoice_key earlier = Some key)
            /\ (forall e, e ∈ errors r -> rule e = "duplicate" ->
                  severity e = "error"))
    /\ (forall st invoice key,
          Validator.invoice_key invoice = Some key ->
          (key ∉ Validator.seen_invoices st ->
             ~ has_duplicate (Validator.validate_invoice st invoice).1
             /\ Validator.seen_invoices (Validator.validate_invoice st invoice).2
                = Validator.seen_invoices st ∪ {[key]})
          /\ (key ∈ Validator.seen_invoices st ->
                has_duplicate (Validator.validate_invoice st invoice).1
                /\ (Validator.validate_invoice st invoice).2 = st)).
Proof.
  destruct (validate_batch_ok self now invoices) as (report & Hrun & Hres & _ & _).
  exists report, (run_state Validator.InvoiceValidator_init invoices).
  split; [exact Hrun|]. split; [rewrite <- Hrun; reflexivity|].
  split; [rewrite Hres; apply run_results_length|].
  split; [rewrite run_state_seen; cbn; apply union_empty_l_L|]. split.
  - intros j invoice key Hj Hkey.
    destruct (run_results_duplicate invoices Validator.InvoiceValidator_init
                j invoice key Hj Hkey) as (r & Hr & Hiff & Hsev).
    exists r. rewrite Hres. split; [exact Hr|]. split; [|exact Hsev].
    rewrite Hiff. cbn. split; [|now right].
    intros [Hin|H]; [|exact H]. now apply not_elem_of_empty in Hin.
  - intros st invoice key Hkey.
    destruct (validate_invoice_duplicate st invoice key Hkey) as [Hnew Hold].
    split; [exact Hnew|]. intros Hin. destruct (Hold Hin) as [He Hst].
    split; [|exact Hst]. eexists. split; [exact He|reflexivity].
Qed.

Lemma C2_duplicates_witness :
  exists report self',
    Validator.validate_batch
      {| Validator.seen_invoices := {["INV-1|ABC Ltd|2024-01-10"]} |}
      "2024-01-10T10:30:00" [inv1; inv1] = Ok (report, self')
    /\ map is_valid (results report) = [true; false]
    /\ map errors (results report) = [[]; [Validator.duplicate_error "INV-1"]]
    /\ Validator.seen_invoices self' = {["INV-1|ABC Ltd|2024-01-10"]}.
Proof.
  destruct (C2_duplicates_within_batch
              {| Validator.seen_invoices := {["INV-1|ABC Ltd|2024-01-10"]} |}
              "2024-01-10T10:30:00" [inv1; inv1])
    as (report & self' & Hrun & _ & _ & Hseen & _).
  exists report, self'. split; [exact Hrun|].
  vm_compute in Hrun. injection Hrun as <- <-.
  split; [reflexivity|]. split; [reflexivity|].
  vm_compute. reflexivity.
Defined.

(** ** Reports of two runs *)

(** C8 as stated fails: two runs of [validate_batch] on the same (empty)
    list, each with a fresh validator, return different reports when the
    clock has moved between them. *)
Lemma C8_reports_differ_by_timestamp :
  exists r1 r2,
    Validator.validate_invoices "2024-01-10T10:30:00.000001" [] = Ok r1
    /\ Validator.validate_invoices "2024-01-10T10:30:00.000002" [] = Ok r2
    /\ r1 <> r2.
Proof.
  eexists _, _. split; [reflexivity|]. split; [reflexivity|].
  intros H. apply (f_equal timestamp) in H. cbn in H. discriminate H.
Qed.

(** C8, amended. Two runs of [validate_batch] on the same list, from any
    two validator states and at any two clock readings, both return, and
    their reports have the same summary and the same results; the
    validators they leave behind are equal; the reports differ at most in
    [timestamp], which is the clock reading of each run. What
    [validate_invoice] returns depends on the validator only through its
    set of seen keys. *)
Theorem C8_reports_equal_up_to_timestamp
    (self1 self2 : Validator.InvoiceValidator) (now1 now2 : string)
    (invoices : list Invoice) :
  (exists report1 report2 self',
     Validator.validate_batch self1 now1 invoices = Ok (report1, self')
     /\ Validator.validate_batch self2 now2 invoices = Ok (report2, self')
     /\ summary report1 = summary report2
     /\ results report1 = results report2
     /\ timestamp report1 = now1
     /\ timestamp report2 = now2)
  /\ (forall invoice,
        Validator.seen_invoices self1 = Validator.seen_invoices self2 ->
        Validator.validate_invoice self1 invoice
        = Validator.validate_invoice self2 invoice).
Proof.
  split.
  - unfold Validator.validate_batch.
    destruct (validate_all_ok invoices {| Validator.seen_invoices := ∅ |} [] ∅)
      as [counts' ->].
    cbn [rbind app]. eexists _, _, _.
    split; [reflexivity|]. split; [reflexivity|]. now cbn.
  - intros invoice Hseen. destruct self1 as [seen1], self2 as [seen2].
    cbn in Hseen. now subst.
Qed.

(** Two runs on the batch of two copies of one invoice, the first from a
    validator that has already seen its key. *)
Lemma C8_reports_witness :
  exists report1 report2 self',
    Validator.validate_batch
      {| Validator.seen_invoices := {["INV-1|ABC Ltd|2024-01-10"]} |}
      "2024-01-10T10:30:00.000001" [inv1; inv1] = Ok (report1, self')
    /\ Validator.validate_batch Validator.InvoiceValidator_init
         "2024-01-10T10:30:00.000002" [inv1; inv1] = Ok (report2, self')
    /\ summary report1 = summary report2
    /\ results report1 = results report2
    /\ timestamp report1 = "2024-01-10T10:30:00.000001"
    /\ timestamp report2 = "2024-01-10T10:30:00.000002".
Proof.
  exact (proj1 (C8_reports_equal_up_to_timestamp
                  {| Validator.seen_invoices := {["INV-1|ABC Ltd|2024-01-10"]} |}
                  Validator.InvoiceValidator_init
                  "2024-01-10T10:30:00.000001" "2024-01-10T10:30:00.000002"
                  [inv1; inv1])).
Defined.

(** ** Field extraction *)

Section ExtractFields.
Import Extractor.

Lemma extract_pattern_eq (text : string) (data : gmap string pyval)
    (fp : string * Re.regex) :
  extract_pattern text data fp = Ok (store_match text data fp).
Proof.
  destruct fp as [field pattern]. unfold extract_pattern, store_match, field_value.
  cbn [fst snd]. destruct (Re.search true pattern text) as [m|]; [|reflexivity].
  destruct (bool_decide _); [|reflexivity].
  now rewrite parse_german_number_eq.
Qed.

Lemma for_each_pure {A St} (f : St -> A -> result St) (g : St -> A -> St)
    (l : list A) :
  (forall st a, f st a = Ok (g st a)) ->
  forall st, for_each f l st = Ok (fold_left g l st).
Proof.
  intros Hfg. induction l as [|a l IH]; intros st; [reflexivity|].
  cbn [for_each fold_left]. rewrite Hfg. cbn [rbind]. apply IH.
Qed.

Lemma store_match_other (text : string) (l : list (string * Re.regex)) (k : string) :
  k ∉ l.*1 ->
  forall data, fold_left (store_match text) l data !! k = data !! k.
Proof.
  induction l as [|[field pattern] l IH]; intros Hk data; [reflexivity|].
  cbn [fold_left]. rewrite IH by set_solver.
  unfold store_match. cbn [fst snd].
  destruct (Re.search true pattern text); [|reflexivity].
  apply lookup_insert_ne. set_solver.
Qed.

Lemma store_match_at (text : string) (l1 l2 : list (string * Re.regex))
    (k : string) (r : Re.regex) (data : gmap string pyval) :
  k ∉ l1.*1 -> k ∉ l2.*1 ->
  fold_left (store_match text) (l1 ++ (k, r) :: l2) data !! k =
  match Re.search true r text with
  | Some m => Some (field_value k m)
  | None => data !! k
  end.
Proof.
  intros H1 H2. rewrite fold_left_app. cbn [fold_left].
  rewrite store_match_other by exact H2.
  unfold store_match at 1. cbn [fst snd].
  destruct (Re.search true r text).
  - apply lookup_insert_eq.
  - now apply store_match_other.
Qed.

Lemma loop_invoice_date (text : string) :
  fold_left (store_match text) PATTERNS ∅ !! "invoice_date" =
  match Re.search true (pattern_of "invoice_date") text with
  | Some m => Some (VStr (Py.strip (Re.group m)))
  | None => None
  end.
Proof.
  change PATTERNS
    with (firstn 3 PATTERNS
          ++ ("invoice_date", pattern_of "invoice_date") :: skipn 4 PATTERNS).
  rewrite store_match_at; [reflexivity| not_a_key | not_a_key].
Qed.

Lemma loop_due_date (text : string) :
  fold_left (store_match text) PATTERNS ∅ !! "due_date" = None.
Proof. rewrite store_match_other; [reflexivity | not_a_key]. Qed.

(** The two date entries of the dictionary [_extract_fields] returns. *)
Lemma extract_fields_dates (text : string) :
  exists data,
    _extract_fields text = Ok data
    /\ data !! "invoice_date"
       = converted <$> fold_left (store_match text) PATTERNS ∅ !! "invoice_date"
    /\ data !! "due_date" = data !! "invoice_date".
Proof.
  unfold _extract_fields.
  rewrite (for_each_pure _ _ _ (extract_pattern_eq text)). cbn [rbind].
  pose proof (loop_due_date text) as Hdue.
  set (loop := fold_left (store_match text) PATTERNS ∅) in *.
  eexists. split; [reflexivity|].
  rewrite !lookup_insert_ne by discriminate.
  destruct (loop !! "invoice_date") as [[|t|x]|] eqn:Hinv;
    rewrite ?lookup_insert_eq, ?lookup_insert_ne by discriminate;
    rewrite ?Hinv, ?lookup_insert_eq, ?lookup_insert_ne by discriminate;
    rewrite ?Hinv, ?Hdue; split; reflexivity.
Qed.

Lemma search_skip (ic : bool) (r : Re.regex) (pre s : string) :
  no_match_within ic r pre s = true ->
  Re.search ic r (pre +:+ s) = Re.search ic r s.
Proof.
  induction pre as [|c pre IH]; intros Hno; [reflexivity|].
  cbn [no_match_within] in Hno.
  change (String c pre +:+ s) with (String c (pre +:+ s)) in *.
  cbn [Re.search].
  destruct (Re.match_at ic r (String c (pre +:+ s))); [discriminate Hno|].
  now apply IH.
Qed.
End ExtractFields.

Lemma split_without_separator (sep : ascii) (t : string) :
  Py.contains_char sep t = false -> Py.split sep t = [t].
Proof.
  induction t as [|c t IH]; [reflexivity|].
  cbn [Py.contains_char Py.split]. intros [Hc Ht]%orb_false_elim.
  rewrite Ascii.eqb_sym in Hc. rewrite Hc, (IH Ht). reflexivity.
Qed.

Lemma split_at_separator (sep : ascii) (a b : string) :
  Py.contains_char sep a = false ->
  Py.split sep (a +:+ String sep b) = a :: Py.split sep b.
Proof.
  induction a as [|c a IH]; intros Ha.
  - change ("" +:+ String sep b) with (String sep b).
    cbn [Py.split]. now rewrite Ascii.eqb_refl.
  - change (String c a +:+ String sep b) with (String c (a +:+ String sep b)).
    cbn [Py.contains_char] in Ha. apply orb_false_elim in Ha as [Hc Ha].
    rewrite Ascii.eqb_sym in Hc. cbn [Py.split]. now rewrite Hc, (IH Ha).
Qed.

Lemma contains_separator (sep : ascii) (a b : string) :
  Py.contains_char sep (a +:+ String sep b) = true.
Proof.
  induction a as [|c a IH].
  - change ("" +:+ String sep b) with (String sep b).
    cbn [Py.contains_char]. now rewrite Ascii.eqb_refl.
  - change (String c a +:+ String sep b) with (String c (a +:+ String sep b)).
    cbn [Py.contains_char]. rewrite IH. apply orb_true_r.
Qed.

(** [_convert_date] on day.month.year. *)
Lemma convert_date_german (day month year : string) :
  Py.contains_char "." day = false -> Py.contains_char "." month = false ->
  Py.contains_char "." year = false ->
  Extractor._convert_date (day +:+ "." +:+ month +:+ "." +:+ year)
  = year +:+ "-" +:+ Py.zfill 2 month +:+ "-" +:+ Py.zfill 2 day.
Proof.
  intros Hd Hm Hy. unfold Extractor._convert_date.
  change (day +:+ "." +:+ month +:+ "." +:+ year)
    with (day +:+ String "." (month +:+ String "." year)).
  rewrite contains_separator, (split_at_separator _ _ _ Hd),
    (split_at_separator _ _ _ Hm), (split_without_separator _ _ Hy).
  reflexivity.
Qed.

(** C3, at the failing input. On the text "Gesamtwert EUR 1.234,56" the
    net-total pattern captures "1.234" only (one separator is allowed
    between the digit runs), so [_extract_fields] stores 1234.0, which is
    not 1234.56; the normalizer applied to the whole token "1.234,56"
    does give 1234.56. *)
Theorem C3_net_total_loses_decimals :
  extracted "Gesamtwert EUR 1.234,56" "net_total" = Some (Extractor.VFloat 1234)
  /\ Re.search true (pattern_of "net_total") "Gesamtwert EUR 1.234,56"
     = Some (Re.mkMatch (Some "1.234") 20 ",56")
  /\ Extractor._parse_german_number "1.234,56" = Ok 1234.56%float
  /\ PrimFloat.eqb 1234 1234.56 = false.
Proof. repeat split; vm_compute; reflexivity. Qed.

(** C6. [_extract_fields] always returns, and the [due_date] entry of its
    dictionary is the [invoice_date] entry (absent when that one is).
    On a text that contains "vom 05.03.2024" with no earlier match of the
    invoice-date pattern, both entries are "2024-03-05". The conversion
    turns day.month.year into year-month-day with month and day
    zero-filled to two characters. *)
Theorem C6_invoice_date_and_due_date (text : string) :
  (exists data,
     Extractor._extract_fields text = Ok data
     /\ data !! "due_date" = data !! "invoice_date")
  /\ (forall pre post,
        text = pre +:+ "vom 05.03.2024" +:+ post ->
        no_match_within true (pattern_of "invoice_date") pre
          ("vom 05.03.2024" +:+ post) = true ->
        exists data,
          Extractor._extract_fields text = Ok data
          /\ data !! "invoice_date" = Some (Extractor.VStr "2024-03-05")
          /\ data !! "due_date" = Some (Extractor.VStr "2024-03-05"))
  /\ (forall day month year,
        Py.contains_char "." day = false -> Py.contains_char "." month = false ->
        Py.contains_char "." year = false ->
        Extractor._convert_date (day +:+ "." +:+ month +:+ "." +:+ year)
        = year +:+ "-" +:+ Py.zfill 2 month +:+ "-" +:+ Py.zfill 2 day).
Proof.
  destruct (extract_fields_dates text) as (data & Hrun & Hinv & Hdue).
  split; [now exists data|]. split; [|apply convert_date_german].
  intros pre post -> Hfirst. exists data. split; [exact Hrun|].
  assert (Hdate : data !! "invoice_date" = Some (Extractor.VStr "2024-03-05")).
  { rewrite Hinv, loop_invoice_date, search_skip by exact Hfirst.
    destruct post; vm_compute; reflexivity. }
  split; [exact Hdate|]. now rewrite Hdue.
Qed.

(** A document with an order line before the date marker. *)
Lemma C6_invoice_date_witness :
  exists data,
    Extractor._extract_fields "Bestellung AUFNR34343 vom 05.03.2024 an ABC"
    = Ok data
    /\ data !! "invoice_date" = Some (Extractor.VStr "2024-03-05")
    /\ data !! "due_date" = Some (Extractor.VStr "2024-03-05").
Proof.
  destruct (C6_invoice_date_and_due_date "Bestellung AUFNR34343 vom 05.03.2024 an ABC")
    as (_ & H & _).
  apply (H "Bestellung AUFNR34343 " " an ABC"); vm_compute; reflexivity.
Defined.

(** ** Dates at construction *)

(** C7 fails on the code. The docstring of the date validator reads
    "Ensure dates are in ISO format or None", yet construction accepts
    the date "hello" and stores it unchanged: it is no sentinel and does
    not parse as YYYY-MM-DD. The conversion path does no better:
    "31.02.2024" is stored as "2024-02-31", which names no calendar date.
    Both are left for the format rule of the rule engine to report. *)
Lemma C7_unparseable_date_is_stored :
  let invoice :=
    Invoice_init
      (sample_invoice (Some "INV-1") (Some "ABC Ltd") (Some "hello") (Some "EUR")
         None None None) in
  invoice_date invoice = Some "hello"
  /\ is_sentinel "hello" = false
  /\ ~ parseable_iso "hello"
  /\ Validator.check_date_field "invoice_date" (invoice_date invoice)
     = [Validator.date_format_error "invoice_date" "hello"]
  /\ let converted_invoice :=
       Invoice_init
         (sample_invoice (Some "INV-1") (Some "ABC Ltd") (Some "31.02.2024")
            (Some "EUR") None None None) in
     invoice_date converted_invoice = Some "2024-02-31"
     /\ is_sentinel "2024-02-31" = false
     /\ ~ parseable_iso "2024-02-31"
     /\ Validator.check_date_field "invoice_date" (invoice_date converted_invoice)
        = [Validator.date_format_error "invoice_date" "2024-02-31"].
Proof.
  cbv zeta. split; [reflexivity|]. split; [reflexivity|].
  split; [intros [d Hd]; vm_compute in Hd; discriminate Hd|].
  split; [vm_compute; reflexivity|].
  split; [vm_compute; reflexivity|]. split; [reflexivity|].
  split; [intros [d Hd]; vm_compute in Hd; discriminate Hd|].
  vm_compute. reflexivity.
Qed.

(** ** The line total of a line item *)

Lemma scan_amounts_eq (amts : list string) (threshold line_total : float) :
  Extractor.scan_amounts amts threshold line_total =
  default line_total (first_reaching amts threshold).
Proof.
  induction amts as [|amt amts IH]; [reflexivity|].
  cbn [Extractor.scan_amounts first_reaching].
  rewrite parse_german_number_eq. fold (german_number amt).
  destruct (PrimFloat.leb threshold (german_number amt)); [reflexivity|exact IH].
Qed.

(** C4 as stated fails on a start line with a single numeric token: the
    line "4 VE" (an item start for [_extract_line_items]) has quantity 4
    and no unit price, its one token 4 reaches the threshold 0, and the
    line total is 0, not 4. *)
Lemma C4_single_token_line :
  exists item,
    Extractor._parse_line_item "4 VE" ["4 VE"] 1 = Ok (Some item)
    /\ Extractor._extract_line_items "4 VE" = [item]
    /\ numeric_tokens "4 VE" = ["4"]
    /\ quantity item = 4%float /\ unit_price item = 0%float
    /\ line_total item = 0%float
    /\ claimed_line_total "4 VE" (quantity item) (unit_price item) = 4%float
    /\ PrimFloat.eqb (line_total item)
         (claimed_line_total "4 VE" (quantity item) (unit_price item)) = false.
Proof.
  eexists. split; [vm_compute; reflexivity|].
  repeat split; vm_compute; reflexivity.
Qed.

(** C4, amended. Whenever the quantity pattern matches the start line,
    [_parse_line_item] returns an item. When the line has at least two
    numeric-looking tokens, the token taken is the first one from the end
    whose normalized value is at least [quantity * unit_price * 0.9];
    with fewer than two tokens none is taken. The line total is the value
    taken, unless no token was taken or the value taken is zero: then it
    is [quantity * unit_price] when [unit_price > 0], and otherwise the
    value taken, or 0 when none was. *)
Theorem C4_line_total_choice
    (line : string) (context_lines : list string) (position : nat) (qm : Re.rmatch) :
  Re.search false Extractor.quantity_pattern line = Some qm ->
  exists item,
    Extractor._parse_line_item line context_lines position = Ok (Some item)
    /\ let tokens := numeric_tokens line in
       let taken :=
         if (2 <=? length tokens)%nat
         then first_reaching (rev tokens) (quantity item * unit_price item * 0.9)
         else None in
       line_total item =
       match taken with
       | Some v =>
           if PrimFloat.eqb v 0 && PrimFloat.ltb 0 (unit_price item)
           then (quantity item * unit_price item)%float else v
       | None =>
           if PrimFloat.ltb 0 (unit_price item)
           then (quantity item * unit_price item)%float else 0%float
       end.
Proof.
  intros Hqm.
  destruct (quantity_group_digits line qm Hqm) as [Hne Hdigits].
  destruct (float_of_digits (Re.group qm) Hne Hdigits) as [q Hq].
  unfold Extractor._parse_line_item. fold (numeric_tokens line). cbv zeta.
  set (enough := (2 <=? length (numeric_tokens line))%nat). clearbody enough.
  rewrite Hqm, Hq. cbn [rbind].
  assert (Hprice : exists up,
            match Re.search false Extractor.price_pattern line with
            | Some pm => Extractor._parse_german_number (Re.group pm)
            | None => Ok 0%float
            end = Ok up).
  { destruct (Re.search false Extractor.price_pattern line) as [pm|].
    - rewrite parse_german_number_eq. now eexists.
    - now eexists. }
  destruct Hprice as [up ->]. cbn [rbind].
  eexists. split; [reflexivity|]. cbn [line_total quantity unit_price].
  rewrite scan_amounts_eq.
  destruct enough.
  - destruct (first_reaching _ _) as [v|]; cbn [default]; [reflexivity|].
    change (PrimFloat.eqb 0 0) with true. reflexivity.
  - change (PrimFloat.eqb 0 0) with true. reflexivity.
Qed.

(** The start line of the sample invoice: quantity 4, unit price 16, and
    the token 64,00 is the first from the end to reach 57.6. *)
Lemma C4_line_total_witness :
  Extractor._parse_line_item sample_line [sample_line] 1 = Ok (Some sample_item)
  /\ numeric_tokens sample_line = ["1"; "4"; "1"; "20"; "64,00"; "16,0000"; "1"]
  /\ first_reaching (rev (numeric_tokens sample_line)) (4 * 16 * 0.9) = Some 64%float
  /\ line_total sample_item = 64%float.
Proof.
  assert (Hrun : Extractor._parse_line_item sample_line [sample_line] 1
                 = Ok (Some sample_item)) by (vm_compute; reflexivity).
  split; [exact Hrun|]. split; [vm_compute; reflexivity|].
  split; [vm_compute; reflexivity|].
  destruct (C4_line_total_choice sample_line [sample_line] 1
              (Re.mkMatch (Some "4") 4 "  1 VE=20 Stuck  64,00 16,0000 pro 1 VE"))
    as (item & Hitem & H); [vm_compute; reflexivity|].
  rewrite Hrun in Hitem. injection Hitem as <-.
  cbv zeta in H. rewrite H. vm_compute. reflexivity.
Defined.

(** ** The report of a batch *)

Lemma filter_all_length {A} (P : A -> Prop) `{!forall x, Decision (P x)} (l : list A) :
  length (filter P l) = length l <-> Forall P l.
Proof.
  induction l as [|a l IH]; [split; [constructor|reflexivity]|].
  rewrite filter_cons. pose proof (length_filter P l) as Hle.
  destruct (decide (P a)) as [Ha|Ha]; cbn [length].
  - split.
    + intros [= Hl]. constructor; [exact Ha|now apply IH].
    + intros Hf. apply Forall_cons in Hf as [_ Hf]. f_equal. now apply IH.
  - split; [lia|]. intros Hf. apply Forall_cons in Hf as [Hf _]. contradiction.
Qed.

Lemma filter_agree {A} (P Q : A -> Prop) `{!forall x, Decision (P x)}
    `{!forall x, Decision (Q x)} (l : list A) :
  (forall x, x ∈ l -> (P x <-> Q x)) -> filter P l = filter Q l.
Proof.
  induction l as [|a l IH]; intros Hpq; [reflexivity|].
  rewrite !filter_cons, IH by (intros x Hx; apply Hpq; now right).
  destruct (decide (P a)) as [Ha|Ha], (decide (Q a)) as [Hb|Hb]; try reflexivity.
  - apply Hpq in Ha; [contradiction|left].
  - apply Hpq in Hb; [contradiction|left].
Qed.

Lemma run_results_lookup (invoices : list Invoice) :
  forall st j invoice,
    invoices !! j = Some invoice ->
    exists r st',
      run_results st invoices !! j = Some r
      /\ r = (Validator.validate_invoice st' invoice).1.
Proof.
  induction invoices as [|first invoices IH]; intros st j invoice Hj; [discriminate Hj|].
  destruct j as [|j]; cbn [run_results].
  - injection Hj as ->. now eexists _, st.
  - cbn in Hj. now apply IH.
Qed.

Lemma is_valid_no_errors (st : Validator.InvoiceValidator) (invoice : Invoice) :
  is_valid (Validator.validate_invoice st invoice).1 = true
  <-> errors (Validator.validate_invoice st invoice).1 = [].
Proof.
  rewrite validate_invoice_is_valid.
  destruct (errors _); cbn; split; congruence.
Qed.

Lemma run_results_valid (invoices : list Invoice) :
  forall st r, r ∈ run_results st invoices -> (is_valid r = true <-> errors r = []).
Proof.
  induction invoices as [|first invoices IH]; intros st r Hr; cbn [run_results] in Hr.
  - now apply elem_of_nil in Hr.
  - apply elem_of_cons in Hr as [-> | Hr]; [apply is_valid_no_errors|now apply IH in Hr].
Qed.

Lemma unfiltered_none {A} (P : A -> Prop) `{!forall x, Decision (P x)} (l : list A) :
  (length l - length (filter P l))%nat = 0%nat <-> Forall P l.
Proof.
  rewrite <- filter_all_length. pose proof (length_filter P l) as Hle.
  split; [intros Hz; apply Nat.le_antisymm; [exact Hle|now apply Nat.sub_0_le]|].
  intros ->. apply Nat.sub_diag.
Qed.

Lemma validate_batch_summary
    (self : Validator.InvoiceValidator) (now : string) (invoices : list Invoice) :
  exists report,
    Validator.validate_batch self now invoices
    = Ok (report, run_state Validator.InvoiceValidator_init invoices)
    /\ results report = run_results Validator.InvoiceValidator_init invoices
    /\ total_invoices (summary report) = length invoices
    /\ valid_invoices (summary report)
       = length (filter (fun r => errors r = []) (results report))
    /\ invalid_invoices (summary report)
       = (length (results report) - valid_invoices (summary report))%nat.
Proof.
  destruct (validate_batch_ok self now invoices) as (report & Hrun & Hres & _ & Htotal).
  pose proof Hrun as Hrun'. unfold Validator.validate_batch in Hrun'.
  destruct (validate_all_ok invoices {| Validator.seen_invoices := ∅ |} [] ∅)
    as [counts' Hall].
  rewrite Hall in Hrun'. cbn [rbind app] in Hrun'. injection Hrun' as Hrep.
  exists report. split; [exact Hrun|]. split; [exact Hres|]. split; [exact Htotal|].
  assert (Hsame : filter (fun r => is_valid r = true) (results report)
                  = filter (fun r => errors r = []) (results report)).
  { apply filter_agree. intros r Hr. rewrite Hres in Hr.
    now apply run_results_valid in Hr. }
  rewrite <- Hsame, <- Hrep. cbn. split; reflexivity.
Qed.

(** X1. The summary of a batch report adds up: the results are as many as
    the invoices, the valid and the invalid counts sum to the total, the
    valid count is the number of results without any error, and no
    invoice is invalid exactly when no result carries an error. *)
Theorem validate_batch_summary_counts
    (self : Validator.InvoiceValidator) (now : string) (invoices : list Invoice) :
  exists report self',
    Validator.validate_batch self now invoices = Ok (report, self')
    /\ length (results report) = length invoices
    /\ total_invoices (summary report) = length invoices
    /\ (valid_invoices (summary report) + invalid_invoices (summary report)
        = total_invoices (summary report))%nat
    /\ valid_invoices (summary report)
       = length (filter (fun r => errors r = []) (results report))
    /\ (invalid_invoices (summary report) = 0%nat
        <-> Forall (fun r => errors r = []) (results report)).
Proof.
  destruct (validate_batch_summary self now invoices)
    as (report & Hrun & Hres & Htotal & Hvalid & Hinvalid).
  exists report, (run_state Validator.InvoiceValidator_init invoices).
  split; [exact Hrun|].
  assert (Hlen : length (results report) = length invoices)
    by (rewrite Hres; apply run_results_length).
  split; [exact Hlen|]. split; [exact Htotal|]. split.
  { rewrite Hinvalid, Htotal, <- Hlen, Hvalid, Nat.add_comm.
    apply Nat.sub_add, length_filter. }
  split; [exact Hvalid|].
  rewrite Hinvalid, Hvalid. apply unfiltered_none.
Qed.

(** X2. The results of a batch follow the invoices in order: the result
    at an index carries the source file of the invoice at that index and,
    as its id, the invoice number when that is not empty, "UNKNOWN"
    otherwise. *)
Theorem validate_batch_results_in_order
    (self : Validator.InvoiceValidator) (now : string) (invoices : list Invoice) :
  exists report self',
    Validator.validate_batch self now invoices = Ok (report, self')
    /\ map result_source_file (results report) = map source_file invoices
    /\ map invoice_id (results report) = map id_of invoices.
Proof.
  destruct (validate_batch_ok self now invoices) as (report & Hrun & Hres & _ & _).
  exists report, (run_state Validator.InvoiceValidator_init invoices).
  split; [exact Hrun|]. rewrite Hres. clear.
  generalize Validator.InvoiceValidator_init.
  induction invoices as [|invoice invoices IH]; intros st; [now split|].
  cbn [run_results map]. destruct (IH (Validator.validate_invoice st invoice).2) as [-> ->].
  rewrite validate_invoice_id. split; [|reflexivity]. f_equal.
  unfold Validator.validate_invoice.
  now destruct (Validator._check_anomalies st invoice).
Qed.

(** ** The error histogram *)

Lemma occurrences_cons (key : string) (e : ValidationError) (errs : list ValidationError) :
  occurrences key (e :: errs)
  = ((if decide (error_key e = Some key) then 1 else 0) + occurrences key errs)%nat.
Proof.
  unfold occurrences. rewrite filter_cons.
  now destruct (decide (error_key e = Some key)).
Qed.

Lemma occurrences_app (key : string) (l1 l2 : list ValidationError) :
  occurrences key (l1 ++ l2) = (occurrences key l1 + occurrences key l2)%nat.
Proof. unfold occurrences. now rewrite filter_app, length_app. Qed.

Lemma count_errors_counts (errs : list ValidationError) :
  forall counts counts',
    Validator.count_errors errs counts = Ok counts' ->
    (no_zero_entry counts -> no_zero_entry counts')
    /\ forall key,
         default 0%nat (counts' !! key)
         = (default 0%nat (counts !! key) + occurrences key errs)%nat.
Proof.
  induction errs as [|e errs IH]; intros counts counts' Hrun.
  - injection Hrun as <-. split; [auto|]. intros key. cbn. lia.
  - cbn [Validator.count_errors] in Hrun.
    destruct (Validator.first_word (message e)) as [word|] eqn:Hword; [|discriminate Hrun].
    cbn [rbind] in Hrun. apply IH in Hrun as [Hzero Hcount]. split.
    + intros Hno. apply Hzero. intros key.
      destruct (decide (rule e +:+ ":" +:+ word = key)) as [<-|Hne].
      * rewrite lookup_insert_eq. intros [= H]. lia.
      * rewrite lookup_insert_ne by exact Hne. apply Hno.
    + intros key. rewrite Hcount, occurrences_cons. unfold error_key. rewrite Hword.
      destruct (decide (rule e +:+ ":" +:+ word = key)) as [<-|Hne].
      * rewrite lookup_insert_eq, decide_True by reflexivity. cbn. lia.
      * rewrite lookup_insert_ne by exact Hne.
        rewrite decide_False by congruence. lia.
Qed.

Lemma validate_all_counts (invoices : list Invoice) :
  forall self results counts rs counts' self',
    Validator.validate_all self invoices results counts = Ok (rs, counts', self') ->
    (no_zero_entry counts -> no_zero_entry counts')
    /\ forall key,
         default 0%nat (counts' !! key)
         = (default 0%nat (counts !! key)
            + occurrences key (all_errors (run_results self invoices)))%nat.
Proof.
  induction invoices as [|invoice invoices IH];
    intros self results counts rs counts' self' Hrun.
  - injection Hrun as <- <- <-. split; [auto|]. intros key. cbn. lia.
  - cbn [Validator.validate_all run_results] in *.
    destruct (Validator.validate_invoice self invoice) as [r st].
    cbn [fst snd] in *.
    destruct (Validator.count_errors (errors r) counts) as [counts1|] eqn:Hc;
      [|discriminate Hrun].
    cbn [rbind] in Hrun.
    apply count_errors_counts in Hc as [Hz1 Hc1].
    apply IH in Hrun as [Hz2 Hc2]. split; [auto|].
    intros key. unfold all_errors. cbn [map concat].
    rewrite occurrences_app, Hc2, Hc1. unfold all_errors. lia.
Qed.

Lemma run_results_words (invoices : list Invoice) :
  forall st, Forall has_first_word (all_errors (run_results st invoices)).
Proof.
  induction invoices as [|invoice invoices IH]; intros st; [constructor|].
  unfold all_errors. cbn [run_results map concat].
  apply Forall_app. split; [apply validate_invoice_words|apply IH].
Qed.

Lemma validate_batch_entries
    (self : Validator.InvoiceValidator) (now : string) (invoices : list Invoice) :
  exists report,
    Validator.validate_batch self now invoices
    = Ok (report, run_state Validator.InvoiceValidator_init invoices)
    /\ results report = run_results Validator.InvoiceValidator_init invoices
    /\ (forall key,
          default 0%nat (error_counts (summary report) !! key)
          = occurrences key (all_errors (results report)))
    /\ no_zero_entry (error_counts (summary report)).
Proof.
  destruct (validate_batch_ok self now invoices) as (report & Hrun & Hres & _ & _).
  pose proof Hrun as Hrun'. unfold Validator.validate_batch in Hrun'.
  destruct (Validator.validate_all {| Validator.seen_invoices := ∅ |} invoices [] ∅)
    as [[[rs counts'] st]|] eqn:Hall; [|discriminate Hrun'].
  cbn [rbind] in Hrun'. injection Hrun' as Hrep _.
  apply validate_all_counts in Hall as [Hzero Hcount].
  assert (Hec : error_counts (summary report) = counts') by (now rewrite <- Hrep).
  exists report. split; [exact Hrun|]. split; [exact Hres|]. split.
  - intros key. rewrite Hec, Hcount, lookup_empty, Hres. reflexivity.
  - rewrite Hec. apply Hzero. intros key. now rewrite lookup_empty.
Qed.

(** X3. In the report of a batch, the count stored for a histogram key is
    the number of errors, over all results, with that rule and that first
    word; a key whose errors do not occur has no entry (no count is 0). *)
Theorem validate_batch_histogram
    (self : Validator.InvoiceValidator) (now : string) (invoices : list Invoice) :
  exists report self',
    Validator.validate_batch self now invoices = Ok (report, self')
    /\ (forall key,
          default 0%nat (error_counts (summary report) !! key)
          = occurrences key (all_errors (results report)))
    /\ (forall key,
          error_counts (summary report) !! key = None
          <-> occurrences key (all_errors (results report)) = 0%nat)
    /\ (error_counts (summary report) = ∅ <-> all_errors (results report) = []).
Proof.
  destruct (validate_batch_entries self now invoices)
    as (report & Hrun & Hres & Hkey & Hnz).
  assert (Hnone : forall key,
            error_counts (summary report) !! key = None
            <-> occurrences key (all_errors (results report)) = 0%nat).
  { intros key. rewrite <- Hkey. specialize (Hnz key).
    destruct (error_counts (summary report) !! key) as [[|n]|];
      cbn; split; congruence. }
  exists report, (run_state Validator.InvoiceValidator_init invoices).
  split; [exact Hrun|]. split; [exact Hkey|]. split; [exact Hnone|].
  split.
  - intros Hempty.
    destruct (all_errors (results report)) as [|e errs] eqn:Herrs; [reflexivity|].
    assert (He : e ∈ all_errors (run_results Validator.InvoiceValidator_init invoices))
      by (rewrite <- Hres, Herrs; left).
    assert (Hw : has_first_word e).
    { pose proof (run_results_words invoices Validator.InvoiceValidator_init) as Hall.
      rewrite Forall_forall in Hall. now apply Hall. }
    destruct Hw as [word Hw].
    specialize (Hnone (rule e +:+ ":" +:+ word)).
    rewrite Hempty, lookup_empty, occurrences_cons in Hnone.
    unfold error_key in Hnone. rewrite Hw, decide_True in Hnone by reflexivity.
    destruct Hnone as [Hnone _]. specialize (Hnone eq_refl). discriminate Hnone.
  - intros Herrs. apply map_eq. intros key. rewrite lookup_empty.
    apply Hnone. now rewrite Herrs.
Qed.

(** ** The findings of the rule engine *)

Lemma optional_error (b : bool) (e0 e : ValidationError) :
  e ∈ (if b then [e0] else []) -> b = true /\ e = e0.
Proof. destruct b; [|no_error]. intros H. this_error H. now split. Qed.

Lemma completeness_findings (invoice : Invoice) (e : ValidationError) :
  e ∈ Validator._check_completeness invoice -> finding invoice e.
Proof.
  unfold Validator._check_completeness. intros H.
  split_errors H; apply optional_error in H as [_ ->]; constructor; in_list.
Qed.

Lemma formats_findings (invoice : Invoice) (e : ValidationError) :
  e ∈ Validator._check_formats invoice -> finding invoice e.
Proof.
  unfold Validator._check_formats. intros H. split_errors H.
  - apply check_date_field_errors in H as [t ->]. constructor. in_list.
  - apply check_date_field_errors in H as [t ->]. constructor. in_list.
  - apply check_date_field_errors in H as [t ->]. constructor. in_list.
  - destruct (currency invoice) as [c|] eqn:Hc; [|now apply elem_of_nil in H].
    apply optional_error in H as [_ ->]. now constructor.
  - apply check_amount_field_errors in H as [x ->]. constructor. in_list.
  - apply check_amount_field_errors in H as [x ->]. constructor. in_list.
  - apply check_amount_field_errors in H as [x ->]. constructor. in_list.
Qed.

Lemma check_due_date_error (invoice : Invoice) (e : ValidationError) :
  e ∈ Validator.check_due_date invoice ->
  exists inv due d1 d2,
    invoice_date invoice = Some inv /\ due_date invoice = Some due
    /\ Validator.fromisoformat inv = Ok d1 /\ Validator.fromisoformat due = Ok d2
    /\ Validator.date_lt d2 d1 = true
    /\ e = Validator.due_before_error due inv.
Proof.
  unfold Validator.check_due_date.
  destruct (invoice_date invoice) as [inv|]; [|no_error].
  destruct (due_date invoice) as [due|]; [|no_error].
  destruct (_ && _); [|no_error].
  destruct (Validator.fromisoformat inv) as [d1|] eqn:H1; [|no_error].
  destruct (Validator.fromisoformat due) as [d2|] eqn:H2; [|no_error].
  cbn. destruct (Validator.date_lt d2 d1) eqn:Hlt; [|no_error].
  intros H. this_error H. exists inv, due, d1, d2. auto 10.
Qed.

Lemma business_findings (invoice : Invoice) (e : ValidationError) :
  e ∈ Validator._check_business_rules invoice -> finding invoice e.
Proof.
  unfold Validator._check_business_rules. intros H. split_errors H.
  - unfold Validator.check_line_sum in H.
    destruct (line_items invoice); [now apply elem_of_nil in H|].
    destruct (net_total invoice); [|now apply elem_of_nil in H].
    apply optional_error in H as [_ ->]. constructor.
  - unfold Validator.check_tax in H.
    destruct (net_total invoice); [|now apply elem_of_nil in H].
    destruct (tax_amount invoice); [|now apply elem_of_nil in H].
    destruct (gross_total invoice); [|now apply elem_of_nil in H].
    apply optional_error in H as [_ ->]. constructor.
  - apply check_due_date_error in H as (inv & due & d1 & d2 & _ & _ & _ & _ & _ & ->).
    constructor.
Qed.

Lemma anomalies_findings (self : Validator.InvoiceValidator) (invoice : Invoice)
    (e : ValidationError) :
  e ∈ (Validator._check_anomalies self invoice).1 -> finding invoice e.
Proof.
  rewrite check_anomalies_eq. cbv zeta.
  destruct (Validator.invoice_key invoice) as [key|];
    [destruct (bool_decide _)|]; cbn [fst]; intros H.
  - apply elem_of_cons in H as [-> | H]; [constructor|].
    apply zero_warning_errors in H as ->. constructor.
  - apply zero_warning_errors in H as ->. constructor.
  - apply zero_warning_errors in H as ->. constructor.
Qed.

Lemma validate_invoice_findings (self : Validator.InvoiceValidator) (invoice : Invoice)
    (e : ValidationError) :
  e ∈ errors (Validator.validate_invoice self invoice).1 -> finding invoice e.
Proof.
  intros H. apply validate_invoice_error_cases in H as [H|[H|[H|H]]].
  - now apply completeness_findings.
  - now apply formats_findings.
  - now apply business_findings.
  - now apply anomalies_findings in H.
Qed.

Lemma finding_key (invoice : Invoice) (e : ValidationError) :
  finding invoice e -> exists key, error_key e = Some key /\ key ∈ histogram_keys.
Proof.
  intros [field H|field value H|c _|field x H| | | | |].
  - repeat (apply elem_of_cons in H as [-> | H];
            [eexists; split; [vm_compute; reflexivity|unfold histogram_keys; in_list]|]).
    now apply elem_of_nil in H.
  - repeat (apply elem_of_cons in H as [-> | H];
            [eexists; split; [cbn; reflexivity|unfold histogram_keys; in_list]|]).
    now apply elem_of_nil in H.
  - eexists; split; [cbn; reflexivity|unfold histogram_keys; in_list].
  - repeat (apply elem_of_cons in H as [-> | H];
            [eexists; split; [cbn; reflexivity|unfold histogram_keys; in_list]|]).
    now apply elem_of_nil in H.
  - eexists; split; [cbn; reflexivity|unfold histogram_keys; in_list].
  - eexists; split; [cbn; reflexivity|unfold histogram_keys; in_list].
  - eexists; split; [cbn; reflexivity|unfold histogram_keys; in_list].
  - eexists; split; [cbn; reflexivity|unfold histogram_keys; in_list].
  - eexists; split; [vm_compute; reflexivity|unfold histogram_keys; in_list].
Qed.

(** X4. Every error [validate_invoice] reports has severity "error" or
    "warning", and the warnings are exactly the unknown-currency finding
    and the zero-gross-total finding; the completeness, business-rule and
    duplicate findings are errors. *)
Theorem validate_invoice_severities
    (self : Validator.InvoiceValidator) (invoice : Invoice) (e : ValidationError) :
  e ∈ errors (Validator.validate_invoice self invoice).1 ->
  (severity e = "error" \/ severity e = "warning")
  /\ (severity e = "warning" <->
      (exists c, currency invoice = Some c /\ e = Validator.currency_warning c)
      \/ e = Validator.zero_total_warning)
  /\ (rule e ∈ ["completeness"; "business_rule"; "duplicate"] -> severity e = "error").
Proof.
  intros H%validate_invoice_findings.
  destruct H as [field H|field value H|c Hc|field x H| | | | |]; cbn;
    (split; [auto|]); (split; [split|]);
    try discriminate; try (intros [(c' & _ & [=]) | [=]]; fail);
    try (intros _; eauto; fail); try reflexivity;
    try (intros Hr; repeat (apply elem_of_cons in Hr as [[=]|Hr]);
         now apply elem_of_nil in Hr).
Qed.

Lemma validate_invoice_severities_witness :
  Validator.missing_error "invoice_number"
  ∈ errors (Validator.validate_invoice Validator.InvoiceValidator_init
              (sample_invoice None None None None None None None)).1
  /\ severity (Validator.missing_error "invoice_number") = "error".
Proof.
  assert (Hin : Validator.missing_error "invoice_number"
                ∈ errors (Validator.validate_invoice Validator.InvoiceValidator_init
                            (sample_invoice None None None None None None None)).1)
    by (vm_compute; in_list).
  split; [exact Hin|].
  apply (proj2 (proj2 (validate_invoice_severities _ _ _ Hin))). cbn. in_list.
Defined.

(** X5. The errors of a result come in category order: the completeness
    findings, then the format findings, then the business-rule findings,
    then at most one duplicate finding, then the anomaly findings. *)
Theorem validate_invoice_category_order
    (self : Validator.InvoiceValidator) (invoice : Invoice) :
  exists c f b d z,
    errors (Validator.validate_invoice self invoice).1 = c ++ f ++ b ++ d ++ z
    /\ Forall (fun e => rule e = "completeness") c
    /\ Forall (fun e => rule e = "format") f
    /\ Forall (fun e => rule e = "business_rule") b
    /\ Forall (fun e => rule e = "duplicate") d
    /\ (length d <= 1)%nat
    /\ Forall (fun e => rule e = "anomaly") z.
Proof.
  rewrite validate_invoice_errors, check_anomalies_eq. cbv zeta.
  set (z := match gross_total invoice with
            | Some g => if PrimFloat.eqb g 0 then [Validator.zero_total_warning] else []
            | None => []
            end).
  assert (Hz : Forall (fun e => rule e = "anomaly") z).
  { apply Forall_forall. intros e He. now apply zero_warning_errors in He as ->. }
  exists (Validator._check_completeness invoice), (Validator._check_formats invoice),
    (Validator._check_business_rules invoice).
  assert (Hc : Forall (fun e => rule e = "completeness")
                 (Validator._check_completeness invoice)).
  { apply Forall_forall. intros e He. now apply completeness_errors in He. }
  assert (Hf : Forall (fun e => rule e = "format") (Validator._check_formats invoice)).
  { apply Forall_forall. intros e He. now apply formats_errors in He. }
  assert (Hb : Forall (fun e => rule e = "business_rule")
                 (Validator._check_business_rules invoice)).
  { apply Forall_forall. intros e He. now apply business_errors in He. }
  destruct (Validator.invoice_key invoice) as [key|];
    [destruct (bool_decide _)|]; cbn [fst].
  - exists [Validator.duplicate_error (default "" (invoice_number invoice))], z.
    repeat split; auto.
  - exists [], z. repeat split; auto.
  - exists [], z. repeat split; auto.
Qed.

Lemma run_results_findings (invoices : list Invoice) :
  forall st,
    Forall (fun e => exists invoice, finding invoice e)
      (all_errors (run_results st invoices)).
Proof.
  induction invoices as [|invoice invoices IH]; intros st; [constructor|].
  unfold all_errors. cbn [run_results map concat].
  apply Forall_app. split; [|apply IH].
  apply Forall_forall. intros e He. exists invoice.
  now apply validate_invoice_findings in He.
Qed.

Lemma occurrences_positive (key : string) (errs : list ValidationError) :
  occurrences key errs <> 0%nat -> exists e, e ∈ errs /\ error_key e = Some key.
Proof.
  unfold occurrences. intros Hne.
  destruct (filter (fun e => error_key e = Some key) errs) as [|e l] eqn:Hf;
    [now cbn in Hne|].
  assert (He : e ∈ filter (fun e => error_key e = Some key) errs) by (rewrite Hf; left).
  apply list_elem_of_filter in He as [Hk He]. now exists e.
Qed.

(** X6. Whatever the batch, the histogram of its report only has keys
    among the seventeen of [histogram_keys]: one per required field, per
    date field, per amount field, and one each for the currency, the line
    sum, the tax, the due date, the duplicate and the zero total. *)
Theorem validate_batch_histogram_keys
    (self : Validator.InvoiceValidator) (now : string) (invoices : list Invoice) :
  exists report self',
    Validator.validate_batch self now invoices = Ok (report, self')
    /\ forall key, is_Some (error_counts (summary report) !! key) ->
         key ∈ histogram_keys.
Proof.
  destruct (validate_batch_entries self now invoices)
    as (report & Hrun & Hres & Hkey & Hnz).
  exists report, (run_state Validator.InvoiceValidator_init invoices).
  split; [exact Hrun|]. intros key [n Hn].
  destruct (occurrences_positive key (all_errors (results report)))
    as (e & He & Hkey').
  { rewrite <- Hkey, Hn. cbn. intros ->. now apply (Hnz key). }
  pose proof (run_results_findings invoices Validator.InvoiceValidator_init) as Hall.
  rewrite Forall_forall in Hall. rewrite Hres in He.
  destruct (Hall e He) as [invoice Hfind].
  apply finding_key in Hfind as (key' & Hkey'' & Hin). congruence.
Qed.

(** ** Completeness *)

Lemma missing_or_empty_filled (v : option string) :
  Validator.missing_or_empty v = false <-> filled v.
Proof.
  unfold Validator.missing_or_empty, filled.
  destruct v as [t|]; cbn [Py.truthy_opt negb orb].
  - destruct (String.eqb (Py.strip t) "") eqn:Hs.
    + rewrite orb_true_r. apply String.eqb_eq in Hs. split; [discriminate|].
      intros (t' & [= <-] & Hne). contradiction.
    + rewrite orb_false_r. apply String.eqb_neq in Hs.
      destruct t as [|c t]; [now cbn in Hs|]. cbn [Py.truthy negb].
      split; [|reflexivity]. intros _. now eexists.
  - split; [discriminate|]. now intros (t & [=] & _).
Qed.

Lemma optional_error_iff (b : bool) (e0 e : ValidationError) :
  e ∈ (if b then [e0] else []) <-> b = true /\ e = e0.
Proof.
  destruct b.
  - rewrite list_elem_of_singleton. tauto.
  - rewrite elem_of_nil. split; [tauto|]. now intros [[=] _].
Qed.

Lemma optional_error_nil (b : bool) (e0 : ValidationError) :
  (if b then [e0] else []) = [] <-> b = false.
Proof. destruct b; split; congruence. Qed.

(** X7. A required field counts as missing exactly when it is [None],
    empty or made of white space only: the completeness rule reports the
    field's error exactly then, and reports nothing exactly when the five
    required fields are all filled. *)
Theorem completeness_iff_unfilled (invoice : Invoice) :
  (Validator._check_completeness invoice = []
   <-> Forall (fun fv => filled fv.2) (required_fields invoice))
  /\ (forall field v, (field, v) ∈ required_fields invoice ->
        (Validator.missing_error field ∈ Validator._check_completeness invoice
         <-> ~ filled v)).
Proof.
  unfold Validator._check_completeness, required_fields. split.
  - rewrite !app_nil, !optional_error_nil, !missing_or_empty_filled.
    rewrite !Forall_cons, Forall_nil. cbn [snd]. tauto.
  - intros field v Hin. rewrite !elem_of_app, !optional_error_iff.
    rewrite <- (missing_or_empty_filled v), not_false_iff_true.
    repeat (apply elem_of_cons in Hin as [[= -> ->] | Hin]);
      [..|now apply elem_of_nil in Hin];
      (split; [intros H; other_fields H; assumption | intros H; tauto]).
Qed.

(** ** The due-date rule *)

Lemma date_lt_irrefl (d : Z * Z * Z) : Validator.date_lt d d = false.
Proof.
  destruct d as [[y m] day]. unfold Validator.date_lt.
  now rewrite !Z.ltb_irrefl, !Z.eqb_refl.
Qed.

Lemma is_valid_date_parses (t : string) :
  Validator._is_valid_date t = true <-> exists d, Validator.fromisoformat t = Ok d.
Proof.
  unfold Validator._is_valid_date.
  destruct t as [|c t].
  - split; [discriminate|]. intros [d Hd]. discriminate Hd.
  - cbn [Py.truthy negb].
    destruct ((String.length (String c t) =? 10)%nat
              && bool_decide (Py.index 4 (String c t) = Some "-"%char)
              && bool_decide (Py.index 7 (String c t) = Some "-"%char)) eqn:Hshape.
    + destruct (Validator.fromisoformat (String c t)) as [d|e]; cbn.
      * split; [eauto|reflexivity].
      * split; [discriminate|]. intros [d Hd]. discriminate Hd.
    + cbn. split; [discriminate|]. intros [d Hd].
      unfold Validator.fromisoformat in Hd. rewrite Hshape in Hd. discriminate Hd.
Qed.

Lemma check_due_date_same (invoice : Invoice) :
  due_date invoice = invoice_date invoice -> Validator.check_due_date invoice = [].
Proof.
  intros Hsame.
  destruct (Validator.check_due_date invoice) as [|e l] eqn:Hcheck; [reflexivity|].
  assert (He : e ∈ Validator.check_due_date invoice) by (rewrite Hcheck; left).
  apply check_due_date_error in He
    as (inv & due & d1 & d2 & Hinv & Hdue & H1 & H2 & Hlt & _).
  rewrite Hinv, Hdue in Hsame. injection Hsame as ->.
  rewrite H1 in H2. injection H2 as ->. now rewrite date_lt_irrefl in Hlt.
Qed.

(** X8. The due-date rule reports only when both dates pass the strict
    ISO check and the due date is strictly earlier than the invoice date;
    so it never reports on an invoice whose due date equals its invoice
    date, which is how extraction fills the due date. *)
Theorem due_date_rule (invoice : Invoice) :
  (due_date invoice = invoice_date invoice -> Validator.check_due_date invoice = [])
  /\ (forall e, e ∈ Validator.check_due_date invoice ->
        exists inv due d1 d2,
          invoice_date invoice = Some inv /\ due_date invoice = Some due
          /\ Validator._is_valid_date inv = true
          /\ Validator._is_valid_date due = true
          /\ Validator.fromisoformat inv = Ok d1
          /\ Validator.fromisoformat due = Ok d2
          /\ Validator.date_lt d2 d1 = true
          /\ e = Validator.due_before_error due inv).
Proof.
  split; [apply check_due_date_same|].
  intros e He.
  apply check_due_date_error in He
    as (inv & due & d1 & d2 & Hinv & Hdue & H1 & H2 & Hlt & ->).
  exists inv, due, d1, d2.
  repeat split; auto; apply is_valid_date_parses; eauto.
Qed.

Lemma due_date_rule_witness :
  Validator.check_due_date due_early
  = [Validator.due_before_error "2024-02-29" "2024-03-01"]
  /\ Validator.check_due_date inv1 = [].
Proof.
  split; [vm_compute; reflexivity|].
  apply (proj1 (due_date_rule inv1)). reflexivity.
Defined.

(** ** Counting duplicates *)

Lemma flagged_iff_has_duplicate (r : InvoiceValidationResult) :
  flagged_duplicate r <-> has_duplicate r.
Proof. unfold flagged_duplicate, has_duplicate. rewrite Exists_exists. reflexivity. Qed.

Lemma no_key_no_duplicate (st : Validator.InvoiceValidator) (invoice : Invoice) :
  Validator.invoice_key invoice = None ->
  ~ has_duplicate (Validator.validate_invoice st invoice).1.
Proof.
  intros Hkey (e & He & Hrule).
  apply validate_invoice_error_cases in He as [He|[He|[He|He]]].
  - apply completeness_errors in He as [Hr _]. congruence.
  - apply formats_errors in He as [Hr _]. congruence.
  - apply business_errors in He as [Hr _]. congruence.
  - rewrite check_anomalies_eq, Hkey in He. cbn [fst] in He.
    apply zero_warning_errors in He as ->. discriminate Hrule.
Qed.

Lemma duplicates_count_from (invoices : list Invoice) :
  forall st,
    (length (filter flagged_duplicate (run_results st invoices))
     + size (Validator.seen_invoices st ∪ batch_keys invoices)
     = length (omap Validator.invoice_key invoices)
       + size (Validator.seen_invoices st))%nat.
Proof.
  induction invoices as [|invoice invoices IH]; intros st.
  - cbn. unfold batch_keys. cbn. now rewrite union_empty_r_L.
  - cbn [run_results omap list_omap]. rewrite filter_cons.
    specialize (IH (Validator.validate_invoice st invoice).2).
    destruct (Validator.invoice_key invoice) as [key|] eqn:Hkey.
    + assert (Hkeys : batch_keys (invoice :: invoices) = {[key]} ∪ batch_keys invoices).
      { unfold batch_keys. cbn [omap list_omap]. now rewrite Hkey. }
      rewrite Hkeys.
      destruct (validate_invoice_duplicate st invoice key Hkey) as [Hnew Hold].
      destruct (decide (key ∈ Validator.seen_invoices st)) as [Hin|Hnin].
      * destruct (Hold Hin) as [He Hst]. rewrite Hst in IH.
        rewrite decide_True
          by (apply flagged_iff_has_duplicate; eexists; split; [exact He|reflexivity]).
        cbn [length].
        replace (Validator.seen_invoices st ∪ ({[key]} ∪ batch_keys invoices))
          with (Validator.seen_invoices st ∪ batch_keys invoices) by set_solver.
        rewrite Hst. lia.
      * destruct (Hnew Hnin) as [Hno Hst]. rewrite Hst in IH.
        rewrite decide_False by (rewrite flagged_iff_has_duplicate; exact Hno).
        rewrite (size_union (Validator.seen_invoices st) {[key]}) in IH by set_solver.
        rewrite size_singleton in IH.
        replace (Validator.seen_invoices st ∪ ({[key]} ∪ batch_keys invoices))
          with (Validator.seen_invoices st ∪ {[key]} ∪ batch_keys invoices) by set_solver.
        cbn [length]. lia.
    + rewrite decide_False
        by (rewrite flagged_iff_has_duplicate; now apply no_key_no_duplicate).
      rewrite (validate_invoice_no_key st invoice Hkey) in *.
      assert (Hkeys : batch_keys (invoice :: invoices) = batch_keys invoices).
      { unfold batch_keys. cbn [omap list_omap]. now rewrite Hkey. }
      rewrite Hkeys. exact IH.
Qed.

(** X9. In the report of a batch, the results flagged as duplicates are as
    many as the invoices that have a composite key minus the distinct keys
    among them: every key is accepted once and flagged at each repeat. *)
Theorem validate_batch_duplicate_count
    (self : Validator.InvoiceValidator) (now : string) (invoices : list Invoice) :
  exists report self',
    Validator.validate_batch self now invoices = Ok (report, self')
    /\ (length (filter flagged_duplicate (results report)) + size (batch_keys invoices)
        = length (omap Validator.invoice_key invoices))%nat.
Proof.
  destruct (validate_batch_ok self now invoices) as (report & Hrun & Hres & _ & _).
  exists report, (run_state Validator.InvoiceValidator_init invoices).
  split; [exact Hrun|]. rewrite Hres.
  pose proof (duplicates_count_from invoices Validator.InvoiceValidator_init) as H.
  cbn [Validator.InvoiceValidator_init Validator.seen_invoices] in H.
  rewrite union_empty_l_L, size_empty in H. lia.
Qed.

(** ** The exit status of a run *)

(** X10. [full_run_command] returns 0 exactly when there is an invoice,
    the summary was printed and the report files written, and no result
    carries an error (of any severity); in every other case it returns 1. *)
Theorem full_run_status_zero (now : string) (invoices : list Invoice) (saved : bool) :
  (Cli.full_run_status now invoices saved = 0%Z
   \/ Cli.full_run_status now invoices saved = 1%Z)
  /\ (Cli.full_run_status now invoices saved = 0%Z
      <-> invoices <> [] /\ saved = true
          /\ Forall (fun r => errors r = [])
               (run_results Validator.InvoiceValidator_init invoices)).
Proof.
  destruct (validate_batch_summary Validator.InvoiceValidator_init now invoices)
    as (report & Hrun & Hres & _ & Hvalid & Hinvalid).
  assert (Hzero : invalid_invoices (summary report) = 0%nat
                  <-> Forall (fun r => errors r = []) (results report))
    by (rewrite Hinvalid, Hvalid; apply unfiltered_none).
  unfold Cli.full_run_status, Validator.validate_invoices.
  destruct invoices as [|invoice invoices].
  - split; [now right|]. split; [discriminate|]. now intros [H _].
  - rewrite Hrun. cbn [rbind fst]. rewrite <- Hres, <- Hzero.
    unfold Cli.exit_status.
    destruct saved; [|split; [now right|split; [discriminate|now intros (_ & [=] & _)]]].
    destruct (invalid_invoices (summary report)) as [|n]; cbn.
    + split; [now left|]. split; [now intros _|reflexivity].
    + split; [now right|]. split; [discriminate|]. now intros (_ & _ & [=]).
Qed.

(** ** Date conversion *)

Lemma split_parts_clean (sep : ascii) (t : string) :
  Forall (fun part => Py.contains_char sep part = false) (Py.split sep t).
Proof.
  induction t as [|c t IH]; [now repeat constructor|].
  cbn [Py.split]. destruct (Ascii.eqb c sep) eqn:Hc.
  - now constructor.
  - destruct (Py.split sep t) as [|w ws].
    { constructor; [|constructor]. cbn. now rewrite Ascii.eqb_sym, Hc. }
    apply Forall_cons in IH as [Hw Hws]. constructor; [|exact Hws].
    cbn [Py.contains_char]. rewrite Ascii.eqb_sym, Hc, Hw. reflexivity.
Qed.

Lemma contains_char_app (c : ascii) (a b : string) :
  Py.contains_char c (a +:+ b) = Py.contains_char c a || Py.contains_char c b.
Proof.
  induction a as [|x a IH]; [reflexivity|].
  change (String x a +:+ b) with (String x (a +:+ b)).
  cbn [Py.contains_char]. now rewrite IH, orb_assoc.
Qed.

Lemma contains_char_zeros (c : ascii) (n : nat) :
  Ascii.eqb c "0" = false -> Py.contains_char c (Py.zeros n) = false.
Proof.
  intros Hc. induction n as [|n IH]; [reflexivity|]. cbn. now rewrite Hc, IH.
Qed.

Lemma contains_char_zfill (c : ascii) (width : nat) (t : string) :
  Ascii.eqb c "0" = false ->
  Py.contains_char c (Py.zfill width t) = Py.contains_char c t.
Proof.
  intros Hc. unfold Py.zfill. destruct (width <=? String.length t)%nat; [reflexivity|].
  pose proof (contains_char_zeros c (width - String.length t) Hc) as Hz.
  destruct t as [|x t]; [exact Hz|].
  destruct (Ascii.eqb x "+" || Ascii.eqb x "-").
  - cbn [Py.contains_char]. change (String.append ?a ?b) with (a +:+ b).
    now rewrite contains_char_app, Hz.
  - now rewrite contains_char_app, Hz.
Qed.

Lemma iso_of_parts_clean (day month year : string) :
  Py.contains_char "." day = false -> Py.contains_char "." month = false ->
  Py.contains_char "." year = false ->
  Py.contains_char "." (iso_of_parts day month year) = false.
Proof.
  intros Hd Hm Hy. unfold iso_of_parts.
  rewrite !contains_char_app, !contains_char_zfill by reflexivity.
  now rewrite Hd, Hm, Hy.
Qed.

Lemma convert_date_cases (t : string) :
  Extractor._convert_date t =
  if Py.contains_char "." t then
    match Py.split "." t with
    | [day; month; year] => iso_of_parts day month year
    | _ => t
    end
  else t.
Proof.
  unfold Extractor._convert_date, iso_of_parts.
  destruct (Py.contains_char "." t); [|reflexivity].
  now destruct (Py.split "." t) as [|a [|b [|c [|x l]]]].
Qed.

Lemma convert_date_clean (t : string) :
  Py.contains_char "." t = false -> Extractor._convert_date t = t.
Proof. intros H. now rewrite convert_date_cases, H. Qed.

(** X11. [_convert_date] is idempotent, and it leaves every string that
    does not split on "." into exactly three parts as it is. *)
Theorem convert_date_idempotent (t : string) :
  Extractor._convert_date (Extractor._convert_date t) = Extractor._convert_date t
  /\ (length (Py.split "." t) <> 3%nat -> Extractor._convert_date t = t).
Proof.
  pose proof (split_parts_clean "." t) as Hclean.
  rewrite (convert_date_cases t).
  destruct (Py.contains_char "." t) eqn:Hdot.
  - destruct (Py.split "." t) as [|a [|b [|c [|x l]]]] eqn:Hs;
      try (split; [rewrite convert_date_cases, Hdot, Hs|]; reflexivity).
    split; [|now cbn].
    apply convert_date_clean.
    apply Forall_cons in Hclean as [Ha Hclean].
    apply Forall_cons in Hclean as [Hb Hclean].
    apply Forall_cons in Hclean as [Hc _].
    now apply iso_of_parts_clean.
  - split; [now apply convert_date_clean|reflexivity].
Qed.

Lemma validate_date_format_cases (t : string) :
  validate_date_format (Some t) =
  Some (if iso_shaped t then t
        else if Py.contains_char "." t then
          match Py.split "." t with
          | [day; month; year] => iso_of_parts day month year
          | _ => t
          end
        else t).
Proof.
  unfold validate_date_format, iso_of_parts. fold (iso_shaped t).
  destruct (iso_shaped t); [reflexivity|].
  destruct (Py.contains_char "." t); [|reflexivity].
  now destruct (Py.split "." t) as [|a [|b [|c [|x l]]]].
Qed.

Lemma validate_date_format_clean (t : string) :
  Py.contains_char "." t = false -> validate_date_format (Some t) = Some t.
Proof.
  intros H. rewrite validate_date_format_cases, H. now destruct (iso_shaped t).
Qed.

Lemma validate_date_format_converted (t : string) :
  validate_date_format (Some (Extractor._convert_date t))
  = Some (Extractor._convert_date t).
Proof.
  pose proof (split_parts_clean "." t) as Hclean.
  rewrite (convert_date_cases t).
  destruct (Py.contains_char "." t) eqn:Hdot;
    [|now apply validate_date_format_clean].
  destruct (Py.split "." t) as [|a [|b [|c [|x l]]]] eqn:Hs;
    try (rewrite validate_date_format_cases, Hdot, Hs;
         now destruct (iso_shaped t)).
  apply validate_date_format_clean.
  apply Forall_cons in Hclean as [Ha Hclean].
  apply Forall_cons in Hclean as [Hb Hclean].
  apply Forall_cons in Hclean as [Hc _].
  now apply iso_of_parts_clean.
Qed.

(** X12. The date validator of [Invoice] is idempotent; off the
    ten-character shape it computes what [_convert_date] computes; and it
    keeps every date [_convert_date] returns, so constructing an invoice
    from extracted fields stores the converted date unchanged. *)
Theorem validate_date_format_idempotent (v : option string) :
  validate_date_format (validate_date_format v) = validate_date_format v
  /\ (forall t, v = Some t -> iso_shaped t = false ->
        validate_date_format v = Some (Extractor._convert_date t))
  /\ (forall t, v = Some (Extractor._convert_date t) -> validate_date_format v = v).
Proof.
  assert (Hagree : forall t, iso_shaped t = false ->
            validate_date_format (Some t) = Some (Extractor._convert_date t)).
  { intros t Hshape.
    now rewrite validate_date_format_cases, convert_date_cases, Hshape. }
  split; [|split].
  - destruct v as [t|]; [|reflexivity].
    destruct (iso_shaped t) eqn:Hshape.
    + now rewrite validate_date_format_cases, Hshape, validate_date_format_cases, Hshape.
    + now rewrite (Hagree t Hshape), validate_date_format_converted.
  - intros t -> Hshape. now apply Hagree.
  - intros t ->. apply validate_date_format_converted.
Qed.

(** ** European numbers *)

Lemma normalized_without_dots (value : string) :
  normalized (Py.replace "." "" value) = normalized value.
Proof.
  induction value as [|c value IH]; [reflexivity|].
  cbn [Py.replace normalized]. unfold normalized_char.
  destruct (Ascii.eqb c ".") eqn:Hc; [exact IH|].
  cbn [normalized]. unfold normalized_char. now rewrite Hc, IH.
Qed.

Lemma normalized_empty (value : string) :
  Py.replace "." "" value = "" -> normalized value = "".
Proof. intros H. now rewrite <- normalized_without_dots, H. Qed.

(** X13. [_parse_german_number] ignores every "." of its input: removing
    the dots beforehand does not change the result, wherever they stand,
    so a "." never acts as a decimal point. *)
Theorem parse_german_number_ignores_dots (value : string) :
  Extractor._parse_german_number (Py.replace "." "" value)
  = Extractor._parse_german_number value.
Proof.
  rewrite !parse_german_number_eq, normalized_without_dots.
  destruct (Py.replace "." "" value) as [|c rest] eqn:Hr.
  - rewrite (normalized_empty value Hr). cbn [Py.truthy].
    now destruct (Py.truthy value).
  - destruct value as [|x value]; [discriminate Hr|]. reflexivity.
Qed.

(** ** The extracted dictionary *)

Lemma extract_fields_eq (text : string) :
  Extractor._extract_fields text = Ok (fields_of text).
Proof.
  unfold Extractor._extract_fields.
  rewrite (for_each_pure _ _ _ (extract_pattern_eq text)). reflexivity.
Qed.

Lemma well_formed_insert (data : gmap string Extractor.pyval) (key : string)
    (v : Extractor.pyval) :
  well_formed data -> key ∈ field_keys -> well_typed key v ->
  well_formed (<[key := v]> data).
Proof.
  intros Hdata Hkey Hv k w. destruct (decide (key = k)) as [<-|Hne].
  - rewrite lookup_insert_eq. now intros [= <-].
  - rewrite lookup_insert_ne by exact Hne. apply Hdata.
Qed.

Lemma field_value_typed (field : string) (m : Re.rmatch) :
  well_typed field (field_value field m).
Proof.
  unfold field_value, well_typed. cbv zeta.
  destruct (bool_decide (field ∈ Extractor.numeric_fields)) eqn:H.
  - now apply bool_decide_eq_true in H.
  - now apply bool_decide_eq_false in H.
Qed.

Lemma loop_well_formed (text : string) (l : list (string * Re.regex)) :
  (forall fp, fp ∈ l -> fp.1 ∈ field_keys) ->
  forall data, well_formed data -> well_formed (fold_left (store_match text) l data).
Proof.
  induction l as [|fp l IH]; intros Hkeys data Hdata; [exact Hdata|].
  cbn [fold_left]. apply IH; [intros fp' Hfp; apply Hkeys; now right|].
  unfold store_match. destruct (Re.search true fp.2 text); [|exact Hdata].
  apply well_formed_insert; [exact Hdata|apply Hkeys; left|apply field_value_typed].
Qed.

Lemma of_opt_typed (key : string) (o : option string) :
  key ∉ Extractor.numeric_fields -> well_typed key (Extractor.of_opt o).
Proof. now destruct o. Qed.

Lemma fields_of_well_formed (text : string) : well_formed (fields_of text).
Proof.
  unfold fields_of. cbv zeta.
  set (loop := fold_left (store_match text) Extractor.PATTERNS ∅).
  assert (Hloop : well_formed loop).
  { apply loop_well_formed; [|intros k v; now rewrite lookup_empty].
    intros fp Hfp. unfold field_keys. apply elem_of_app. left.
    now apply list_elem_of_fmap_2. }
  set (d5 := <["currency" := _]> _).
  assert (H5 : well_formed d5).
  { subst d5. repeat (apply well_formed_insert;
      [|unfold field_keys; cbn; in_list|try apply of_opt_typed; not_a_key]).
    exact Hloop. }
  set (d6 := match d5 !! "invoice_date" with
             | Some (Extractor.VStr t) => _
             | _ => d5
             end).
  assert (H6 : well_formed d6).
  { subst d6. destruct (d5 !! "invoice_date") as [[|t|x]|] eqn:Hd; try exact H5.
    apply well_formed_insert; [exact H5|unfold field_keys; cbn; in_list|not_a_key]. }
  destruct (d6 !! "invoice_date") as [v|] eqn:Hv; [|exact H6].
  apply well_formed_insert; [exact H6|unfold field_keys; cbn; in_list|].
  apply H6 in Hv as [_ Hv]. destruct v; cbn in *; try not_a_key.
  exfalso. revert Hv. not_a_key.
Qed.

Lemma fields_of_constants (text : string) :
  fields_of text !! "currency" = Some (Extractor.VStr "EUR")
  /\ fields_of text !! "buyer_name"
     = Some (Extractor.of_opt (Extractor._extract_buyer_name text))
  /\ fields_of text !! "buyer_address"
     = Some (Extractor.of_opt (Extractor._extract_buyer_address text))
  /\ fields_of text !! "seller_name"
     = Some (Extractor.of_opt (Extractor._extract_seller_name text))
  /\ fields_of text !! "seller_address"
     = Some (Extractor.of_opt (Extractor._extract_seller_address text)).
Proof.
  unfold fields_of. cbv zeta.
  set (loop := fold_left (store_match text) Extractor.PATTERNS ∅).
  set (d5 := <["currency" := _]> _).
  assert (H5 : forall k, k <> "invoice_date" -> k <> "due_date" ->
            match match d5 !! "invoice_date" with
                  | Some (Extractor.VStr t) =>
                      <["invoice_date" := Extractor.VStr (Extractor._convert_date t)]> d5
                  | _ => d5
                  end !! "invoice_date" with
            | Some v =>
                <["due_date" := v]>
                  match d5 !! "invoice_date" with
                  | Some (Extractor.VStr t) =>
                      <["invoice_date" := Extractor.VStr (Extractor._convert_date t)]> d5
                  | _ => d5
                  end
            | None =>
                match d5 !! "invoice_date" with
                | Some (Extractor.VStr t) =>
                    <["invoice_date" := Extractor.VStr (Extractor._convert_date t)]> d5
                | _ => d5
                end
            end !! k = d5 !! k).
  { intros k Hk1 Hk2.
    destruct (d5 !! "invoice_date") as [[|t|x]|] eqn:Hd;
      rewrite ?lookup_insert_eq, ?Hd;
      rewrite ?lookup_insert_ne by congruence; reflexivity. }
  rewrite !H5 by discriminate. subst d5.
  repeat split;
    repeat (rewrite lookup_insert_eq || rewrite lookup_insert_ne by discriminate);
    reflexivity.
Qed.

(** X14. For every text [_extract_fields] returns a dictionary: its keys
    are among the ten pattern names, the four party fields, ["currency"]
    and ["due_date"]; the four party fields and the currency are always
    set, the currency to "EUR" whatever the text says; and a value is a
    float exactly under the four numeric fields. *)
Theorem extract_fields_well_formed (text : string) :
  exists data,
    Extractor._extract_fields text = Ok data
    /\ well_formed data
    /\ data !! "currency" = Some (Extractor.VStr "EUR")
    /\ data !! "buyer_name" = Some (Extractor.of_opt (Extractor._extract_buyer_name text))
    /\ data !! "buyer_address"
       = Some (Extractor.of_opt (Extractor._extract_buyer_address text))
    /\ data !! "seller_name"
       = Some (Extractor.of_opt (Extractor._extract_seller_name text))
    /\ data !! "seller_address"
       = Some (Extractor.of_opt (Extractor._extract_seller_address text)).
Proof.
  exists (fields_of text). split; [apply extract_fields_eq|].
  split; [apply fields_of_well_formed|apply fields_of_constants].
Qed.

(** ** From text to invoice *)

Lemma str_field_typed (data : gmap string Extractor.pyval) (key : string)
    (dflt : option string) :
  well_formed data -> key ∉ Extractor.numeric_fields ->
  Extractor.str_field data key dflt = Some (str_of data key dflt).
Proof.
  intros Hdata Hkey. unfold Extractor.str_field, str_of.
  destruct (data !! key) as [[|t|x]|] eqn:Hv; try reflexivity.
  apply Hdata in Hv as [_ Hv]. contradiction.
Qed.

Lemma str_of_absent (data : gmap string Extractor.pyval) (key : string)
    (dflt : option string) :
  well_formed data -> key ∉ field_keys -> str_of data key dflt = dflt.
Proof.
  intros Hdata Hkey. unfold str_of.
  destruct (data !! key) as [v|] eqn:Hv; [|reflexivity].
  apply Hdata in Hv as [Hv _]. contradiction.
Qed.

Lemma float_field_typed (data : gmap string Extractor.pyval) (key : string) :
  well_formed data -> key ∈ Extractor.numeric_fields ->
  Extractor.float_field data key = Some (float_of data key).
Proof.
  intros Hdata Hkey. unfold Extractor.float_field, float_of.
  destruct (data !! key) as [[|t|x]|] eqn:Hv; try reflexivity.
  apply Hdata in Hv as [_ Hv]. contradiction.
Qed.

Lemma Invoice_of_data_typed (data : gmap string Extractor.pyval)
    (items : list LineItem) :
  well_formed data ->
  Extractor.Invoice_of_data data items =
  Some (Invoice_init
          {| invoice_number := str_of data "invoice_number" None;
             customer_number := str_of data "customer_number" None;
             order_reference := str_of data "order_reference" None;
             buyer_name := str_of data "buyer_name" None;
             buyer_address := str_of data "buyer_address" None;
             seller_name := str_of data "seller_name" None;
             seller_address := str_of data "seller_address" None;
             invoice_date := str_of data "invoice_date" None;
             due_date := str_of data "due_date" None;
             delivery_date := str_of data "delivery_date" None;
             currency := str_of data "currency" (Some "EUR");
             net_total := float_of data "net_total";
             tax_rate := float_of data "tax_rate";
             tax_amount := float_of data "tax_amount";
             gross_total := float_of data "gross_total";
             payment_terms := str_of data "payment_terms" None;
             line_items := items;
             source_file := None |}).
Proof.
  intros Hdata. unfold Extractor.Invoice_of_data.
  rewrite !(str_field_typed data _ _ Hdata) by not_a_key.
  rewrite !(float_field_typed data _ Hdata) by (cbn; in_list).
  rewrite (str_of_absent data "source_file" None Hdata)
    by (unfold field_keys; not_a_key).
  reflexivity.
Qed.

Lemma extract_from_text_ok (text : string) :
  exists invoice,
    Extractor.extract_from_text text = Ok (Some invoice)
    /\ currency invoice = Some "EUR"
    /\ due_date invoice = invoice_date invoice
    /\ invoice_date invoice = str_of (fields_of text) "invoice_date" None
    /\ line_items invoice = Extractor._extract_line_items text
    /\ source_file invoice = None.
Proof.
  pose proof (extract_fields_eq text) as Hrun.
  pose proof (fields_of_well_formed text) as Hdata.
  destruct (fields_of_constants text) as (Hcur & _).
  destruct (extract_fields_dates text) as (data & Hrun' & Hinv & Hdue).
  rewrite Hrun in Hrun'. injection Hrun' as <-.
  set (data := fields_of text) in *.
  unfold Extractor.extract_from_text. rewrite Hrun. cbn [rbind].
  rewrite (Invoice_of_data_typed _ _ Hdata).
  eexists. split; [reflexivity|].
  cbn [Invoice_init currency due_date invoice_date line_items source_file].
  assert (Hsame : str_of data "due_date" None = str_of data "invoice_date" None)
    by (unfold str_of; now rewrite Hdue).
  assert (Hkeep : validate_date_format (str_of data "invoice_date" None)
                  = str_of data "invoice_date" None).
  { unfold str_of. rewrite Hinv.
    destruct (fold_left (store_match text) Extractor.PATTERNS ∅ !! "invoice_date")
      as [[|t|x]|]; cbn; try reflexivity.
    apply validate_date_format_converted. }
  split; [unfold str_of; now rewrite Hcur|].
  split; [now rewrite Hsame|]. split; [exact Hkeep|]. now split.
Qed.

(** X15. For every text the body of [extract_from_pdf] returns an invoice
    and raises nothing. The invoice has currency "EUR", a due date equal
    to its invoice date, the line items of [_extract_line_items] and no
    source file; its invoice date is the converted date of the dictionary. *)
Theorem extract_from_text_total (text : string) :
  exists data invoice,
    Extractor._extract_fields text = Ok data
    /\ Extractor.extract_from_text text = Ok (Some invoice)
    /\ currency invoice = Some "EUR"
    /\ due_date invoice = invoice_date invoice
    /\ invoice_date invoice = str_of data "invoice_date" None
    /\ line_items invoice = Extractor._extract_line_items text
    /\ source_file invoice = None.
Proof.
  destruct (extract_from_text_ok text) as (invoice & H).
  exists (fields_of text), invoice. split; [apply extract_fields_eq|exact H].
Qed.

(** ** The files of a directory *)

Lemma extract_files_cons (name : string) (pdf : option (list string))
    (pdf_files : list (string * option (list string))) :
  Extractor.extract_files ((name, pdf) :: pdf_files) =
  match pdf with
  | Some pages =>
      match Extractor.extract_from_text (Extractor.pdf_text pages) with
      | Ok (Some invoice) =>
          Extractor.set_source_file invoice name :: Extractor.extract_files pdf_files
      | _ => Extractor.extract_files pdf_files
      end
  | None => Extractor.extract_files pdf_files
  end.
Proof. reflexivity. Qed.

Lemma extract_files_invoices (pdf_files : list (string * option (list string))) :
  map source_file (Extractor.extract_files pdf_files)
  = map (fun file => Some file.1) (filter readable pdf_files)
  /\ Forall (fun invoice => currency invoice = Some "EUR"
                            /\ due_date invoice = invoice_date invoice)
       (Extractor.extract_files pdf_files).
Proof.
  induction pdf_files as [|[name pdf] pdf_files [IHn IHc]]; [now split|].
  rewrite extract_files_cons, filter_cons. destruct pdf as [pages|].
  - destruct (extract_from_text_ok (Extractor.pdf_text pages))
      as (invoice & -> & Hcur & Hdue & _).
    rewrite decide_True by (now eexists). cbn [map]. split.
    + now rewrite IHn.
    + constructor; [now split|exact IHc].
  - rewrite decide_False by (intros [x Hx]; discriminate Hx). now split.
Qed.

(** X16. The loop of [extract_from_directory] returns one invoice for
    every file that can be read, in the order of the files, stamped with
    the name of its file; only the files that cannot be read are skipped
    (the extraction itself never fails on a text). *)
Theorem extract_files_one_per_readable
    (pdf_files : list (string * option (list string))) :
  map source_file (Extractor.extract_files pdf_files)
  = map (fun file => Some file.1) (filter readable pdf_files)
  /\ length (Extractor.extract_files pdf_files) = length (filter readable pdf_files)
  /\ (Forall readable pdf_files ->
      map source_file (Extractor.extract_files pdf_files)
      = map (fun file => Some file.1) pdf_files).
Proof.
  destruct (extract_files_invoices pdf_files) as [Hn _].
  split; [exact Hn|]. split.
  - rewrite <- (length_map source_file), Hn. apply length_map.
  - intros Hall. rewrite Hn. f_equal. clear Hn.
    induction Hall as [|file files Hfile _ IH]; [reflexivity|].
    rewrite filter_cons, decide_True by exact Hfile. now rewrite IH.
Qed.

(** ** Validating what extraction returns *)

Lemma eur_is_known :
  Py.truthy "EUR" && negb (bool_decide ("EUR" ∈ Validator.KNOWN_CURRENCIES)) = false.
Proof. vm_compute. reflexivity. Qed.

Lemma euro_invoice_keys (self : Validator.InvoiceValidator) (invoice : Invoice)
    (e : ValidationError) :
  currency invoice = Some "EUR" -> due_date invoice = invoice_date invoice ->
  e ∈ errors (Validator.validate_invoice self invoice).1 ->
  exists key, error_key e = Some key /\ key ∈ histogram_keys /\ key ∉ keys_excluded.
Proof.
  intros Hcur Hdue H. apply validate_invoice_error_cases in H as [H|[H|[H|H]]].
  - unfold Validator._check_completeness in H. rewrite Hcur in H.
    change (Validator.missing_or_empty (Some "EUR")) with false in H.
    split_errors H; try (now apply elem_of_nil in H);
      apply optional_error in H as [_ ->];
      (eexists; split; [vm_compute; reflexivity|]);
      (split; [unfold histogram_keys; in_list|unfold keys_excluded; not_a_key]).
  - unfold Validator._check_formats in H. rewrite Hcur, eur_is_known in H.
    split_errors H; try (now apply elem_of_nil in H);
      try (apply check_date_field_errors in H as [t ->]; this_key);
      apply check_amount_field_errors in H as [x ->]; this_key.
  - unfold Validator._check_business_rules in H.
    rewrite (check_due_date_same invoice Hdue) in H. split_errors H.
    + unfold Validator.check_line_sum in H.
      destruct (line_items invoice); [now apply elem_of_nil in H|].
      destruct (net_total invoice); [|now apply elem_of_nil in H].
      apply optional_error in H as [_ ->]. this_key.
    + unfold Validator.check_tax in H.
      destruct (net_total invoice); [|now apply elem_of_nil in H].
      destruct (tax_amount invoice); [|now apply elem_of_nil in H].
      destruct (gross_total invoice); [|now apply elem_of_nil in H].
      apply optional_error in H as [_ ->]. this_key.
    + now apply elem_of_nil in H.
  - rewrite check_anomalies_eq in H. cbv zeta in H.
    destruct (Validator.invoice_key invoice) as [key|];
      [destruct (bool_decide _)|]; cbn [fst] in H.
    + apply elem_of_cons in H as [-> | H]; [this_key|].
      apply zero_warning_errors in H as ->.
      eexists; split; [vm_compute; reflexivity|].
      split; [unfold histogram_keys; in_list|unfold keys_excluded; not_a_key].
    + apply zero_warning_errors in H as ->.
      eexists; split; [vm_compute; reflexivity|].
      split; [unfold histogram_keys; in_list|unfold keys_excluded; not_a_key].
    + apply zero_warning_errors in H as ->.
      eexists; split; [vm_compute; reflexivity|].
      split; [unfold histogram_keys; in_list|unfold keys_excluded; not_a_key].
Qed.

(** X17. Extraction followed by validation: whatever the files, an
    invoice [extract_from_directory] returns never gets a finding about
    its currency (missing or unknown) nor about its due date preceding
    its invoice date, in any state of the validator; every finding it
    gets has one of the fourteen other histogram keys. *)
Theorem extracted_invoice_findings
    (pdf_files : list (string * option (list string)))
    (self : Validator.InvoiceValidator) (invoice : Invoice) (e : ValidationError) :
  invoice ∈ Extractor.extract_files pdf_files ->
  e ∈ errors (Validator.validate_invoice self invoice).1 ->
  exists key, error_key e = Some key /\ key ∈ histogram_keys /\ key ∉ keys_excluded.
Proof.
  intros Hin He.
  destruct (extract_files_invoices pdf_files) as [_ Hall].
  rewrite Forall_forall in Hall. destruct (Hall invoice Hin) as [Hcur Hdue].
  now apply (euro_invoice_keys self invoice e Hcur Hdue).
Qed.

Lemma extracted_invoice_findings_witness :
  exists invoice e key,
    invoice ∈ Extractor.extract_files one_file
    /\ e ∈ errors (Validator.validate_invoice Validator.InvoiceValidator_init invoice).1
    /\ error_key e = Some key /\ key ∈ histogram_keys /\ key ∉ keys_excluded.
Proof.
  assert (Hin : Validator.missing_error "buyer_name"
                ∈ errors (Validator.validate_invoice Validator.InvoiceValidator_init
                            (hd inv1 (Extractor.extract_files one_file))).1)
    by (vm_compute; in_list).
  assert (Hfile : hd inv1 (Extractor.extract_files one_file)
                  ∈ Extractor.extract_files one_file)
    by (vm_compute; in_list).
  destruct (extracted_invoice_findings one_file Validator.InvoiceValidator_init
              _ _ Hfile Hin) as (key & Hkey).
  exists (hd inv1 (Extractor.extract_files one_file)),
    (Validator.missing_error "buyer_name"), key.
  split; [exact Hfile|]. split; [exact Hin|exact Hkey].
Defined.

(** ** Line items *)

Lemma parse_line_item_shape (line : string) (context_lines : list string)
    (pos : nat) (item : LineItem) :
  Extractor._parse_line_item line context_lines pos = Ok (Some item) ->
  position item = pos /\ unit item = "VE" /\ description item <> ""
  /\ exists qm, Re.search false Extractor.quantity_pattern line = Some qm
                /\ Py.float (Re.group qm) = Ok (quantity item).
Proof.
  unfold Extractor._parse_line_item. cbv zeta.
  destruct (Re.search false Extractor.quantity_pattern line) as [qm|]; [|discriminate].
  destruct (Py.float (Re.group qm)) as [q|] eqn:Hq; [|discriminate].
  cbn [rbind].
  destruct (match Re.search false Extractor.price_pattern line with
            | Some pm => Extractor._parse_german_number (Re.group pm)
            | None => Ok 0%float
            end) as [up|]; [|discriminate].
  cbn [rbind]. intros [= <-]. cbn [position unit description quantity].
  split; [reflexivity|]. split; [reflexivity|]. split; [|now exists qm].
  destruct (Extractor._extract_description_from_context context_lines) as [t|];
    [|discriminate].
  destruct t; cbn; discriminate.
Qed.

Lemma parse_line_item_ok (line : string) (context_lines : list string) (pos : nat) :
  exists r, Extractor._parse_line_item line context_lines pos = Ok r
            /\ (r = None <-> Re.search false Extractor.quantity_pattern line = None).
Proof.
  unfold Extractor._parse_line_item. cbv zeta.
  destruct (Re.search false Extractor.quantity_pattern line) as [qm|] eqn:Hqm;
    [|now exists None].
  destruct (quantity_group_digits line qm Hqm) as [Hne Hdigits].
  destruct (float_of_digits (Re.group qm) Hne Hdigits) as [q ->]. cbn [rbind].
  destruct (Re.search false Extractor.price_pattern line) as [pm|];
    [rewrite parse_german_number_eq|]; cbn [rbind];
    (eexists; split; [reflexivity|split; discriminate]).
Qed.

(** X18. [_parse_line_item] never raises; it returns [None] exactly when
    the line has no quantity followed by "VE"; and an item it returns has
    the position it was given, the unit "VE", a description that is not
    empty and, as quantity, the number read from the digits before "VE". *)
Theorem parse_line_item_total (line : string) (context_lines : list string) (pos : nat) :
  exists r,
    Extractor._parse_line_item line context_lines pos = Ok r
    /\ (r = None <-> Re.search false Extractor.quantity_pattern line = None)
    /\ forall item, r = Some item ->
         position item = pos /\ unit item = "VE" /\ description item <> ""
         /\ exists qm, Re.search false Extractor.quantity_pattern line = Some qm
                       /\ Py.float (Re.group qm) = Ok (quantity item).
Proof.
  destruct (parse_line_item_ok line context_lines pos) as (r & Hrun & Hnone).
  exists r. split; [exact Hrun|]. split; [exact Hnone|].
  intros item ->. now apply (parse_line_item_shape line context_lines).
Qed.

Lemma scan_lines_items (lines : list string) :
  forall pos,
    map position (Extractor.scan_lines lines pos)
    = seq pos (length (Extractor.scan_lines lines pos))
    /\ (length (Extractor.scan_lines lines pos) <= length lines)%nat
    /\ Forall (fun item => unit item = "VE" /\ description item <> "")
         (Extractor.scan_lines lines pos).
Proof.
  induction lines as [|l lines IH]; intros pos; [repeat split; constructor|].
  cbn [Extractor.scan_lines length]. cbv zeta.
  destruct (IH pos) as (IHp & IHl & IHu).
  destruct (_ || _); [|repeat split; auto].
  destruct (Extractor._parse_line_item _ _ pos) as [[item|]|] eqn:Hitem;
    [|repeat split; auto..].
  apply parse_line_item_shape in Hitem as (Hpos & Hunit & Hdesc & _).
  destruct (IH (S pos)) as (IHp' & IHl' & IHu').
  cbn [map length seq]. rewrite Hpos, IHp'.
  split; [reflexivity|]. split; [now apply le_n_S|]. now constructor.
Qed.

(** X19. The line items of a text are numbered 1, 2, 3, ... in the order
    found, without gaps: a start line that yields no item uses up no
    number. They are at most as many as the lines of the text, and each
    has the unit "VE" and a description that is not empty. *)
Theorem extract_line_items_positions (text : string) :
  map position (Extractor._extract_line_items text)
  = seq 1 (length (Extractor._extract_line_items text))
  /\ (length (Extractor._extract_line_items text)
      <= length (Py.split Re.nl text))%nat
  /\ Forall (fun item => unit item = "VE" /\ description item <> "")
       (Extractor._extract_line_items text).
Proof. apply scan_lines_items. Qed.

(** ** German dates through the validator *)

Lemma digit_not_dot (c : ascii) : Py.is_digit c = true -> Ascii.eqb "." c = false.
Proof.
  intros H. apply negb_true_iff.
  now apply (digit_property (fun c => negb (Ascii.eqb "." c))).
Qed.

Lemma digits_without_dot (t : string) :
  Validator.digits_only t = true -> Py.contains_char "." t = false.
Proof.
  unfold Validator.digits_only.
  induction t as [|c t IH]; [reflexivity|].
  cbn [Extractor.all_chars Py.contains_char]. intros [Hc Ht]%andb_prop.
  now rewrite (digit_not_dot c Hc), (IH Ht).
Qed.

Lemma german_date_iso (day month year : string) :
  digits 2 day -> digits 2 month -> digits 4 year ->
  Extractor._convert_date (day +:+ "." +:+ month +:+ "." +:+ year)
  = year +:+ "-" +:+ month +:+ "-" +:+ day
  /\ Validator.fromisoformat (year +:+ "-" +:+ month +:+ "-" +:+ day)
     = (if ((1 <=? Py.digits_val year) && (1 <=? Py.digits_val month)
            && (Py.digits_val month <=? 12) && (1 <=? Py.digits_val day)
            && (Py.digits_val day
                <=? Validator.days_in_month (Py.digits_val year) (Py.digits_val month)))%Z
        then Ok (Py.digits_val year, Py.digits_val month, Py.digits_val day)
        else Raise ValueError)
  /\ iso_shaped (year +:+ "-" +:+ month +:+ "-" +:+ day) = true.
Proof.
  intros [Hld Hd] [Hlm Hm] [Hly Hy].
  rewrite convert_date_german by now apply digits_without_dot.
  destruct day as [|d1 [|d2 [|? ?]]]; try discriminate Hld.
  destruct month as [|m1 [|m2 [|? ?]]]; try discriminate Hlm.
  destruct year as [|y1 [|y2 [|y3 [|y4 [|? ?]]]]]; try discriminate Hly.
  split; [reflexivity|]. split; [|reflexivity].
  unfold Validator.fromisoformat.
  change (Py.slice 0 4 _) with (String y1 (String y2 (String y3 (String y4 "")))).
  change (Py.slice 5 7 _) with (String m1 (String m2 "")).
  change (Py.slice 8 10 _) with (String d1 (String d2 "")).
  rewrite Hy, Hm, Hd. reflexivity.
Qed.

(** X20. A date the invoice-date pattern captures (two digits, two
    digits, four digits, separated by dots) is converted to
    year-month-day without change of its digits, and the converted date
    passes the validator's ISO check exactly when it names a calendar
    date; so a captured "31.02.2024" is stored and then reported. *)
Theorem german_date_valid_iff_calendar (day month year : string) :
  digits 2 day -> digits 2 month -> digits 4 year ->
  Extractor._convert_date (day +:+ "." +:+ month +:+ "." +:+ year)
  = year +:+ "-" +:+ month +:+ "-" +:+ day
  /\ (Validator._is_valid_date
        (Extractor._convert_date (day +:+ "." +:+ month +:+ "." +:+ year)) = true
      <-> calendar_date (Py.digits_val year) (Py.digits_val month) (Py.digits_val day)).
Proof.
  intros Hd Hm Hy.
  destruct (german_date_iso day month year Hd Hm Hy) as (-> & Hiso & Hshape).
  split; [reflexivity|].
  rewrite is_valid_date_parses, Hiso. unfold calendar_date.
  destruct (_ && _) eqn:Hc.
  - split; [intros _|eauto].
    repeat (apply andb_prop in Hc as [Hc ?]). lia.
  - split; [intros [d [=]]|]. intros (H1 & [H2 H3] & [H4 H5]).
    rewrite !andb_false_iff in Hc. lia.
Qed.

Lemma german_date_valid_witness :
  Validator._is_valid_date (Extractor._convert_date "29.02.2024") = true
  /\ ~ calendar_date 2024 2 31.
Proof.
  split.
  - apply (german_date_valid_iff_calendar "29" "02" "2024");
      try (split; reflexivity).
    unfold calendar_date. vm_compute. intuition discriminate.
  - unfold calendar_date. vm_compute. intuition.
Defined.

(** ** Descriptions *)

Lemma all_chars_lstrip (p : ascii -> bool) (w : string) :
  Extractor.all_chars p w = true -> Extractor.all_chars p (Py.lstrip w) = true.
Proof.
  induction w as [|c w IH]; [reflexivity|]. intros Hw.
  cbn [Py.lstrip]. destruct (Py.is_space c); [|exact Hw].
  cbn [Extractor.all_chars] in Hw. apply andb_prop in Hw as [_ Hw]. now apply IH.
Qed.

Lemma all_chars_rstrip (p : ascii -> bool) (w : string) :
  Extractor.all_chars p w = true -> Extractor.all_chars p (Py.rstrip w) = true.
Proof.
  induction w as [|c w IH]; [reflexivity|].
  cbn [Extractor.all_chars Py.rstrip]. intros [Hc Hw]%andb_prop.
  specialize (IH Hw). destruct (Py.rstrip w) as [|c' r].
  - destruct (Py.is_space c); cbn [Extractor.all_chars]; [reflexivity|].
    now rewrite Hc.
  - cbn [Extractor.all_chars] in *. now rewrite Hc, IH.
Qed.

Lemma all_chars_strip (p : ascii -> bool) (w : string) :
  Extractor.all_chars p w = true -> Extractor.all_chars p (Py.strip w) = true.
Proof. intros Hw. now apply all_chars_rstrip, all_chars_lstrip. Qed.

Lemma digit_not_description (c : ascii) :
  Py.is_digit c = true -> Extractor.description_char c = false.
Proof.
  intros H. apply negb_true_iff.
  now apply (digit_property (fun c => negb (Extractor.description_char c))).
Qed.

Lemma description_no_number (desc : string) :
  Extractor.all_chars Extractor.description_char desc = true ->
  Re.match_at false (Re.seq [Re.plus Re.digit; Re.Eos]) desc = None.
Proof.
  destruct desc as [|c desc]; [reflexivity|].
  cbn [Extractor.all_chars]. intros [Hc _]%andb_prop.
  unfold Re.match_at. cbn [Re.seq fold_right Re.exec Re.plus Re.rep Re.below].
  unfold Re.digit. destruct (Py.is_digit c) eqn:Hd; [|reflexivity].
  rewrite (digit_not_description c Hd) in Hc. discriminate Hc.
Qed.

Lemma description_match_chars (line : string) (m : Re.rmatch) :
  Re.match_at false (Re.seq [Re.Grp (Re.plus Extractor.description_char); Re.Eos]) line
  = Some m ->
  Extractor.all_chars Extractor.description_char (Re.group m) = true.
Proof.
  unfold Re.match_at. cbn [Re.seq fold_right Re.exec Re.plus]. intros H.
  apply rep_inv in H as (w & s' & -> & Hw & _ & H).
  destruct (Re.at_end s'); [|discriminate H].
  injection H as <-. unfold Re.group. cbn [Re.group1 default].
  unfold id. now rewrite Nat.sub_0_r, substring_prefix.
Qed.

Lemma first_description_source (lines : list string) (desc : string) :
  Extractor.first_description lines = Some desc ->
  Py.contains "Bestellung" desc = false
  /\ exists line m,
       line ∈ lines
       /\ Re.search false Extractor.label_marker line = None
       /\ Re.match_at false
            (Re.seq [Re.Grp (Re.plus Extractor.description_char); Re.Eos])
            (Py.strip line) = Some m
       /\ (3 < String.length (Re.group m))%nat
       /\ desc = Py.strip (Re.group m).
Proof.
  induction lines as [|line lines IH]; [discriminate|].
  cbn [Extractor.first_description].
  assert (Hnext : Extractor.first_description lines = Some desc ->
            Py.contains "Bestellung" desc = false
            /\ exists l m,
                 l ∈ line :: lines
                 /\ Re.search false Extractor.label_marker l = None
                 /\ Re.match_at false
                      (Re.seq [Re.Grp (Re.plus Extractor.description_char); Re.Eos])
                      (Py.strip l) = Some m
                 /\ (3 < String.length (Re.group m))%nat
                 /\ desc = Py.strip (Re.group m)).
  { intros H. apply IH in H as (H1 & l & m & Hl & H2).
    split; [exact H1|]. exists l, m. split; [now right|exact H2]. }
  destruct (Re.search false Extractor.label_marker line) as [lm|] eqn:Hlabel.
  { rewrite bool_decide_eq_true_2 by eauto. exact Hnext. }
  rewrite bool_decide_eq_false_2 by (intros [x Hx]; discriminate Hx).
  destruct (Re.match_at false _ (Py.strip line)) as [m|] eqn:Hm; [|exact Hnext].
  destruct (3 <? _)%nat eqn:Hlen; [|exact Hnext].
  destruct (negb _ && negb (Py.contains "Bestellung" _)) eqn:Hkeep; [|exact Hnext].
  intros [= <-]. apply andb_prop in Hkeep as [_ Hb%negb_true_iff].
  split; [exact Hb|]. exists line, m. split; [left|]. split; [exact Hlabel|].
  split; [exact Hm|]. split; [now apply Nat.ltb_lt|reflexivity].
Qed.

(** X21. A description [_extract_description_from_context] returns is
    the stripped text of one of the first eight context lines, a line
    without a label marker; it is made of letters, white space and the
    characters "-", "[", "]", "/" only, and it does not contain
    "Bestellung". *)
Theorem description_from_context_chars (lines : list string) (desc : string) :
  Extractor._extract_description_from_context lines = Some desc ->
  Extractor.all_chars Extractor.description_char desc = true
  /\ Py.contains "Bestellung" desc = false
  /\ exists line m,
       line ∈ firstn 8 lines
       /\ Re.search false Extractor.label_marker line = None
       /\ Re.match_at false
            (Re.seq [Re.Grp (Re.plus Extractor.description_char); Re.Eos])
            (Py.strip line) = Some m
       /\ (3 < String.length (Re.group m))%nat
       /\ desc = Py.strip (Re.group m).
Proof.
  unfold Extractor._extract_description_from_context.
  intros (Hb & line & m & Hline & Hlabel & Hm & Hlen & ->)%first_description_source.
  split; [now apply all_chars_strip, (description_match_chars (Py.strip line))|].
  split; [exact Hb|]. now exists line, m.
Qed.

Lemma description_from_context_witness :
  Extractor.all_chars Extractor.description_char "USB-Maus" = true
  /\ Py.contains "Bestellung" "USB-Maus" = false.
Proof.
  destruct (description_from_context_chars
              ["1 4 VE 64,00"; "Lief.Art.Nr: 000252944C"; "  USB-Maus "] "USB-Maus")
    as (H1 & H2 & _); [vm_compute; reflexivity|].
  split; [exact H1|exact H2].
Defined.

(** X22. The test of a candidate description against a string of digits
    is dead: on every line the description pattern matches, the stripped
    group is no string of digits, so the test never rejects a candidate. *)
Theorem description_digit_test_dead (line : string) (m : Re.rmatch) :
  Re.match_at false
    (Re.seq [Re.Grp (Re.plus Extractor.description_char); Re.Eos]) line = Some m ->
  Re.match_at false (Re.seq [Re.plus Re.digit; Re.Eos]) (Py.strip (Re.group m)) = None.
Proof.
  intros Hm. apply description_no_number, all_chars_strip.
  now apply (description_match_chars line).
Qed.

Lemma description_digit_test_witness :
  Re.match_at false (Re.seq [Re.plus Re.digit; Re.Eos]) "USB-Maus" = None.
Proof.
  apply (description_digit_test_dead "USB-Maus"
           (Re.mkMatch (Some "USB-Maus") 8 "")).
  vm_compute. reflexivity.
Defined.
